(** * STUDY_BUDDY: analytics, insights and plan-generation logic

    A shallow embedding of the aggregation routines of [utils/db.py],
    [utils/integrations.py] and [utils/ai.py], with the properties the
    specification states about them.

    Conventions.
    - A Firestore document is a Python dict whose keys may be missing; a
      field read with [.get(key, default)] is an [option].
    - A [try: ... except Exception] block is an [option]-valued body ([None]:
      an exception was raised) followed by the handler's return value.
    - Python numbers are a type [F] with the operations of class [Arith].
      Two instances are given: exact rationals, and IEEE 754 binary64 (the
      representation of a CPython [float]) through the Standard Library's
      [SpecFloat].
    - A [dict] whose iteration order is observable is an association list in
      insertion order. *)

From Stdlib Require Import ZArith QArith Qround Lqa Lia Ascii String.
From Stdlib Require Import Floats.SpecFloat.
From stdpp Require Import base decidable option list strings gmap sorting.

Local Open Scope Z_scope.

(** ** Python numbers *)

Module PyNum.

(** The arithmetic the source uses on quiz percentages and scores. *)
Class Arith (F : Type) := {
  (** an [int] operand, converted as [float(n)]: exact below 2^53 *)
  of_int : Z → F;
  (** [a + b] *)
  add : F → F → F;
  (** [a * b] *)
  mul : F → F → F;
  (** [a / b]; [None] is [ZeroDivisionError] *)
  truediv : F → F → option F;
  (** [a < b] *)
  ltb : F → F → bool;
  (** [a <= b] *)
  leb : F → F → bool;
  (** [round(a)]; [None] is the [OverflowError]/[ValueError] on inf and nan *)
  round : F → option Z
}.

(** [round] rounds half to even: the integer nearest to [n / d], [d > 0]. *)
Definition round_half_even (n d : Z) : Z :=
  let q := n / d in
  let r := n mod d in
  match 2 * r ?= d with
  | Lt => q
  | Gt => q + 1
  | Eq => if Z.even q then q else q + 1
  end.

(** *** Exact rationals *)

Definition Q_truediv (a b : Q) : option Q :=
  if Qeq_bool b 0 then None else Some (a / b)%Q.

Definition Q_ltb (a b : Q) : bool :=
  match (a ?= b)%Q with Lt => true | _ => false end.

Definition Q_round (a : Q) : option Z :=
  Some (round_half_even (Qnum a) (Zpos (Qden a))).

#[export] Instance exact : Arith Q := {|
  of_int := inject_Z;
  add := Qplus;
  mul := Qmult;
  truediv := Q_truediv;
  ltb := Q_ltb;
  leb := Qle_bool;
  round := Q_round
|}.

(** *** IEEE 754 binary64 *)

Definition prec : Z := 53.
Definition emax : Z := 1024.

Definition b64_of_int (n : Z) : spec_float := binary_normalize prec emax n 0 false.

Definition b64_is_zero (a : spec_float) : bool :=
  match a with S754_zero _ => true | _ => false end.

Definition b64_truediv (a b : spec_float) : option spec_float :=
  if b64_is_zero b then None else Some (SFdiv prec emax a b).

Definition b64_round (a : spec_float) : option Z :=
  match a with
  | S754_zero _ => Some 0
  | S754_finite s m e =>
      let v := if 0 <=? e then Zpos m * 2 ^ e
               else round_half_even (Zpos m) (2 ^ (- e)) in
      Some (if s then - v else v)
  | S754_infinity _ | S754_nan => None
  end.

#[export] Instance binary64 : Arith spec_float := {|
  of_int := b64_of_int;
  add := SFadd prec emax;
  mul := SFmul prec emax;
  truediv := b64_truediv;
  ltb := SFltb;
  leb := SFleb;
  round := b64_round
|}.

(** *** Builtins over numbers *)

Section Builtins.
Context {F : Type} `{Arith F}.

(** [sum(xs)]: the fold of [+] from the integer 0, left to right. (From
    version 3.12 CPython carries a compensation term when the items are
    floats; on the sums evaluated below both give the same float.) *)
Definition py_sum (xs : list F) : F := fold_left add xs (of_int 0).

(** [max(xs)]: the first maximal item; [None] is the [ValueError] on an
    empty sequence. *)
Definition py_max (xs : list F) : option F :=
  match xs with
  | [] => None
  | x :: rest => Some (fold_left (λ m y, if ltb m y then y else m) rest x)
  end.

(** [min(xs)]: the first minimal item. *)
Definition py_min (xs : list F) : option F :=
  match xs with
  | [] => None
  | x :: rest => Some (fold_left (λ m y, if ltb y m then y else m) rest x)
  end.

(** [min(a, b)] on two arguments. *)
Definition py_min2 (a b : F) : F := if ltb b a then b else a.

(** [sum(xs) / len(xs)] *)
Definition py_mean (xs : list F) : option F :=
  truediv (py_sum xs) (of_int (Z.of_nat (length xs))).
End Builtins.

End PyNum.

(** ** Python dicts in insertion order *)

Module PyDict.

Section Dict.
Context {V : Type}.

Definition dict := list (string * V).

(** [d.get(k)] *)
Fixpoint get (k : string) (d : dict) : option V :=
  match d with
  | [] => None
  | (k', v) :: rest => if String.eqb k k' then Some v else get k rest
  end.

(** [d[k] = f(d.get(k))]: an existing key keeps its position, a new key
    goes last. *)
Fixpoint upsert (f : option V → V) (k : string) (d : dict) : dict :=
  match d with
  | [] => [(k, f None)]
  | (k', v) :: rest =>
      if String.eqb k k' then (k', f (Some v)) :: rest
      else (k', v) :: upsert f k rest
  end.

Definition keys (d : dict) : list string := map fst d.
End Dict.

Arguments dict V : clear implicits.

End PyDict.


(** ** Python values decoded from JSON *)

Module PyJson.

(** What [json.loads] returns: [None], [bool], [int], [float], [str],
    [list] and [dict] (keys in document order). *)
#[warnings="-register-all"]
Inductive json :=
  | JNull
  | JBool (b : bool)
  | JInt (n : Z)
  | JFloat (x : spec_float)
  | JStr (s : string)
  | JList (items : list json)
  | JDict (fields : list (string * json)).

End PyJson.

(** ** utils/db.py *)

Module Db.
Import PyNum PyDict PyJson.

(** A [datetime]: the proleptic Gregorian ordinal of its calendar day
    ([date.toordinal()]) and the microseconds elapsed within that day. *)
Record datetime := { dt_ordinal : Z; dt_micros : Z }.

(** [t.date()], as its ordinal. *)
Definition date (t : datetime) : Z := dt_ordinal t.

(** [date.min] and [date.max] as ordinals (0001-01-01 and 9999-12-31). *)
Definition date_min : Z := 1.
Definition date_max : Z := 3652059.

(** [d - timedelta(days=n)]; [None] is the [OverflowError] raised when the
    result leaves the range of [date]. *)
Definition date_sub_days (d n : Z) : option Z :=
  let r := d - n in
  if (date_min <=? r) && (r <=? date_max) then Some r else None.

(** [quiz_dates.sort(reverse=True)] orders calendar days from the newest. *)
Definition newer_first (a b : Z) : Prop := b ≤ a.

#[export] Instance newer_first_dec : RelDecision newer_first.
Proof. intros a b. unfold newer_first. apply _. Defined.

(** [topic.replace(' ', '+')] *)
Fixpoint replace_spaces (s : string) : string :=
  match s with
  | EmptyString => EmptyString
  | String c rest =>
      String (if Ascii.eqb c " "%char then "+"%char else c) (replace_spaces rest)
  end.

Record Remediation := {
  video_url : string;
  article_url : string;
  practice_url : string;
  description : string
}.

(** [get_remediation_resources(topic)]. Its body cannot raise on a [str], so
    the handler's [None] is never returned. *)
Definition get_remediation_resources (topic : string) : option Remediation :=
  let topic_clean := replace_spaces topic in
  Some {|
    video_url := "https://www.youtube.com/results?search_query=" +:+ topic_clean +:+ "+tutorial";
    article_url := "https://www.google.com/search?q=" +:+ topic_clean +:+ "+comprehensive+guide";
    practice_url := "https://www.google.com/search?q=" +:+ topic_clean +:+ "+practice+exercises";
    description := "Additional learning resources for " +:+ topic
  |}.

(** A study plan document of the [plans] collection, with its [id]. *)
Record StudyPlan := {
  plan_id : string;
  goal : option string;
  content : option json;
  created_at : option datetime;
  completed : option bool
}.

Section Analytics.
Context {F : Type} `{Arith F}.

(** A document of the [quiz_scores] collection. *)
Record QuizScore := {
  topic : option string;
  score : option Z;
  total_questions : option Z;
  percentage : option F;
  completed_at : option datetime
}.

(** The documents of one user. Each field is what the Firestore client
    streams for the query of that name ([None]: the client raised):
    [quiz_scores] in stored order, [quiz_scores_desc] after
    [order_by('completed_at', DESCENDING)], [plans_desc] after
    [order_by('created_at', DESCENDING)]. *)
Record Firestore := {
  quiz_scores : option (list QuizScore);
  quiz_scores_desc : option (list QuizScore);
  plans_desc : option (list StudyPlan)
}.

(** [.limit(n)] on a query. *)
Definition limit (n : nat) (docs : option (list QuizScore)) : option (list QuizScore) :=
  firstn n <$> docs.

(** [get_user_plans] *)
Definition get_user_plans (db : Firestore) : list StudyPlan :=
  default [] (plans_desc db).

(** The document [save_quiz_score] builds; [None] is the
    [ZeroDivisionError] of [score / total_questions]. *)
Definition score_data (topic : string) (score total_questions : Z)
    (server_timestamp : datetime) : option QuizScore :=
  ratio ← truediv (of_int score) (of_int total_questions);
  Some {|
    topic := Some topic;
    score := Some score;
    total_questions := Some total_questions;
    percentage := Some (mul ratio (of_int 100));
    completed_at := Some server_timestamp
  |}.

(** [save_quiz_score]: the success flag and the collection afterwards. *)
Definition save_quiz_score (collection : list QuizScore) (topic : string)
    (score total_questions : Z) (server_timestamp : datetime)
    : bool * list QuizScore :=
  match score_data topic score total_questions server_timestamp with
  | Some doc => (true, collection ++ [doc])
  | None => (false, collection)
  end.

(** [quiz.get('topic', 'Unknown')] and [quiz.get('percentage', 0)] *)
Definition topic_of (quiz : QuizScore) : string := default "Unknown" (topic quiz).
Definition percentage_of (quiz : QuizScore) : F := default (of_int 0) (percentage quiz).

Record Analytics := {
  total_quizzes : Z;
  average_score : F;
  topics_studied : list string;
  quiz_history : list QuizScore;
  best_topic : option string;
  worst_topic : option string;
  current_streak : Z
}.

(** [topic_scores[quiz.get('topic', 'Unknown')].append(quiz.get('percentage', 0))]
    on a [defaultdict(list)]. *)
Definition add_topic_score (topic_scores : dict (list F)) (quiz : QuizScore)
    : dict (list F) :=
  upsert (λ old, default [] old ++ [percentage_of quiz]) (topic_of quiz) topic_scores.

(** [topic_scores]: the percentages of each topic, topics in first-seen
    order. *)
Definition topic_scores (quiz_list : list QuizScore) : dict (list F) :=
  fold_left add_topic_score quiz_list [].

(** [{topic: sum(scores)/len(scores) for topic, scores in topic_scores.items()}] *)
Definition topic_averages (ts : dict (list F)) : option (dict F) :=
  mapM (λ '(topic, scores), avg ← py_mean scores; Some (topic, avg)) ts.

(** [max(d, key=d.get)]: the first key, in iteration order, whose value no
    later value exceeds; [d.get] of a key is the value stored with it. *)
Definition max_key (d : dict F) : option string :=
  match d with
  | [] => None
  | kv :: rest =>
      Some (fst (fold_left (λ best kv', if ltb (snd best) (snd kv') then kv' else best) rest kv))
  end.

(** [min(d, key=d.get)] *)
Definition min_key (d : dict F) : option string :=
  match d with
  | [] => None
  | kv :: rest =>
      Some (fst (fold_left (λ best kv', if ltb (snd kv') (snd best) then kv' else best) rest kv))
  end.

(** The [try] body of [get_user_analytics] once the query has streamed
    [quiz_list]. *)
Definition analytics_of (quiz_list : list QuizScore) : option Analytics :=
  let topics : gset string :=
    fold_left (λ s quiz, s ∪ {[ topic_of quiz ]}) quiz_list ∅ in
  match quiz_list with
  | [] =>
      Some {|
        total_quizzes := 0;
        average_score := of_int 0;
        topics_studied := elements topics;
        quiz_history := [];
        best_topic := None;
        worst_topic := None;
        current_streak := 0
      |}
  | _ :: _ =>
      avg ← py_mean (map percentage_of quiz_list);
      averages ← topic_averages (topic_scores quiz_list);
      Some {|
        total_quizzes := Z.of_nat (length quiz_list);
        average_score := avg;
        topics_studied := elements topics;
        quiz_history := quiz_list;
        best_topic := max_key averages;
        worst_topic := min_key averages;
        current_streak := 0
      |}
  end.

(** [get_user_analytics]: [None] is the handler's return value. *)
Definition get_user_analytics (db : Firestore) : option Analytics :=
  quiz_list ← quiz_scores_desc db;
  analytics_of quiz_list.

(** [get_user_quiz_history] *)
Definition get_user_quiz_history (db : Firestore) (n : nat) : list QuizScore :=
  default [] (limit n (quiz_scores_desc db)).

(** One turn of the loop that collects [quiz_dates]: a document without a
    truthy [completed_at] is skipped, a day already seen is not added
    again. *)
Definition add_quiz_date (quiz_dates : list Z) (doc : QuizScore) : list Z :=
  match completed_at doc with
  | Some t =>
      let quiz_date := date t in
      if bool_decide (quiz_date ∈ quiz_dates) then quiz_dates
      else quiz_dates ++ [quiz_date]
  | None => quiz_dates
  end.

(** The calendar days of the streamed documents, each once, in the order
    first seen. *)
Definition quiz_dates_of (recent_scores : list QuizScore) : list Z :=
  fold_left add_quiz_date recent_scores [].

(** The loop [for quiz_date in quiz_dates] of [get_learning_streak]; [None]
    is an exception raised by the date arithmetic. The second disjunct of
    the condition is only evaluated when the first is false. *)
Fixpoint streak_loop (quiz_dates : list Z) (current_streak expected_date : Z)
    : option Z :=
  match quiz_dates with
  | [] => Some current_streak
  | quiz_date :: rest =>
      if quiz_date =? expected_date then
        next ← date_sub_days quiz_date 1;
        streak_loop rest (current_streak + 1) next
      else
        day_before ← date_sub_days expected_date 1;
        if quiz_date =? day_before then
          next ← date_sub_days quiz_date 1;
          streak_loop rest (current_streak + 1) next
        else Some current_streak
  end.

(** The [try] body of [get_learning_streak], where [today] is
    [datetime.now().date()]. *)
Definition learning_streak_of (today : Z) (db : Firestore) : option Z :=
  recent_scores ← limit 30 (quiz_scores_desc db);
  let quiz_dates := quiz_dates_of recent_scores in
  match quiz_dates with
  | [] => Some 0
  | _ :: _ => streak_loop (merge_sort newer_first quiz_dates) 0 today
  end.

(** [get_learning_streak]: the handler returns 0. *)
Definition get_learning_streak (today : Z) (db : Firestore) : Z :=
  default 0 (learning_streak_of today db).

(** The entry of one topic while [get_topic_performance] reads the
    documents, and after its second loop. *)
Record TopicAcc := { acc_scores : list F; acc_total_quizzes : Z }.

Record TopicStats := {
  tp_scores : list F;
  tp_total_quizzes : Z;
  tp_average_score : F;
  tp_best_score : F;
  tp_worst_score : F
}.

(** One turn of the first loop: [topic_data[topic]['scores'].append(percentage)]
    and [topic_data[topic]['total_quizzes'] += 1], creating the entry first
    when the topic is new. *)
Definition add_topic_entry (topic_data : dict TopicAcc) (doc : QuizScore)
    : dict TopicAcc :=
  upsert
    (λ old,
       let entry := default {| acc_scores := []; acc_total_quizzes := 0 |} old in
       {| acc_scores := acc_scores entry ++ [percentage_of doc];
          acc_total_quizzes := acc_total_quizzes entry + 1 |})
    (topic_of doc) topic_data.

Definition topic_data_of (docs : list QuizScore) : dict TopicAcc :=
  fold_left add_topic_entry docs [].

(** The second loop, on one entry. *)
Definition topic_stats (entry : TopicAcc) : option TopicStats :=
  let scores := acc_scores entry in
  avg ← (match scores with [] => Some (of_int 0) | _ :: _ => py_mean scores end);
  best ← (match scores with [] => Some (of_int 0) | _ :: _ => py_max scores end);
  worst ← (match scores with [] => Some (of_int 0) | _ :: _ => py_min scores end);
  Some {|
    tp_scores := scores;
    tp_total_quizzes := acc_total_quizzes entry;
    tp_average_score := avg;
    tp_best_score := best;
    tp_worst_score := worst
  |}.

(** The [try] body of [get_topic_performance]. *)
Definition topic_performance_of (db : Firestore) : option (dict TopicStats) :=
  docs ← quiz_scores db;
  mapM (λ '(topic, entry), stats ← topic_stats entry; Some (topic, stats))
       (topic_data_of docs).

(** [get_topic_performance]: the handler returns the empty dict. *)
Definition get_topic_performance (db : Firestore) : dict TopicStats :=
  default [] (topic_performance_of db).

(** *** Report builder *)

Section Report.
(** Everything [generate_analytics_pdf] does after its guard is layout with
    reportlab and aggregation with pandas, ending in [doc.build(story)]:
    a function of the values read so far that yields the bytes of the
    document ([inr]) or raises ([inl], the text of the exception). *)
Variable build_document :
  Analytics → list QuizScore → list StudyPlan → string → option string →
  datetime → string + list Byte.byte.

(** [generate_analytics_pdf]: the pair [(pdf_data, error)]. *)
Definition generate_analytics_pdf (db : Firestore) (now : datetime)
    (user_name : string) (user_email : option string)
    : option (list Byte.byte) * option string :=
  let analytics := get_user_analytics db in
  let quiz_history := get_user_quiz_history db 50 in
  let user_plans := get_user_plans db in
  match analytics, quiz_history with
  | None, _ | _, [] => (None, Some "No data available for PDF generation")
  | Some a, _ :: _ =>
      match build_document a quiz_history user_plans user_name user_email now with
      | inr pdf_data => (Some pdf_data, None)
      | inl e => (None, Some ("Error generating PDF: " +:+ e))
      end
  end.
End Report.

End Analytics.

Arguments QuizScore F : clear implicits.
Arguments Firestore F : clear implicits.
Arguments Analytics F : clear implicits.
Arguments TopicAcc F : clear implicits.
Arguments TopicStats F : clear implicits.

(** *** Recommendations and the dashboard *)

(** Python's truth value of a [str]. *)
Definition str_truthy (s : string) : bool :=
  match s with EmptyString => false | String _ _ => true end.

Record StudyRecommendation := {
  sr_type : string;
  sr_title : string;
  sr_description : string;
  sr_action : string
}.

Definition focus_on_fundamentals : StudyRecommendation := {|
  sr_type := "improvement";
  sr_title := "Focus on Fundamentals";
  sr_description := "Your average score suggests reviewing basic concepts before advancing.";
  sr_action := "Review study materials and retake quizzes"
|}.

Definition ready_for_advanced : StudyRecommendation := {|
  sr_type := "advancement";
  sr_title := "Ready for Advanced Topics";
  sr_description := "Excellent performance! Consider exploring more challenging subjects.";
  sr_action := "Create study plans for advanced topics"
|}.

Definition improve_topic (worst_topic : string) : StudyRecommendation := {|
  sr_type := "focus_area";
  sr_title := "Improve " +:+ worst_topic;
  sr_description := worst_topic +:+ " appears to be your weakest area.";
  sr_action := "Take more quizzes on " +:+ worst_topic +:+ " and review related materials"
|}.

Section Dashboard.
Context {F : Type} `{Arith F}.

(** [get_study_recommendations]. The analytics dict is never empty, so
    [if not analytics] only catches the [None] of a failed read. *)
Definition get_study_recommendations (db : Firestore F) : list StudyRecommendation :=
  match get_user_analytics db with
  | None => []
  | Some analytics =>
      let avg_score := average_score analytics in
      (if ltb avg_score (of_int 60) then [focus_on_fundamentals]
       else if leb (of_int 80) avg_score then [ready_for_advanced]
       else [])
      ++
      match worst_topic analytics with
      | Some worst_topic =>
          if str_truthy worst_topic then [improve_topic worst_topic] else []
      | None => []
      end
  end.

(** An entry of [recent_performance]. *)
Record RecentQuiz := {
  rq_topic : string;
  rq_percentage : F;
  rq_date : option datetime
}.

Record DashboardSummary := {
  ds_total_quizzes : Z;
  ds_average_performance : F;
  ds_recent_performance : list RecentQuiz;
  ds_learning_streak : Z
}.

Definition recent_quiz (doc : QuizScore F) : RecentQuiz := {|
  rq_topic := topic_of doc;
  rq_percentage := percentage_of doc;
  rq_date := completed_at doc
|}.

(** [get_dashboard_summary], where [today] is the day [get_learning_streak]
    reads from the clock; [None] is the handler's return value. The loop
    over [all_scores] counts the documents and adds their percentages to
    the integer 0. *)
Definition get_dashboard_summary (today : Z) (db : Firestore F)
    : option DashboardSummary :=
  recent_scores ← limit 5 (quiz_scores_desc db);
  let recent_performance := recent_quiz <$> recent_scores in
  all_scores ← quiz_scores db;
  let total_quizzes := Z.of_nat (length all_scores) in
  let total_percentage := fold_left add (percentage_of <$> all_scores) (of_int 0) in
  average_performance ←
    (if 0 <? total_quizzes then truediv total_percentage (of_int total_quizzes)
     else Some (of_int 0));
  Some {|
    ds_total_quizzes := total_quizzes;
    ds_average_performance := average_performance;
    ds_recent_performance := recent_performance;
    ds_learning_streak := get_learning_streak today db
  |}.
End Dashboard.

Arguments RecentQuiz F : clear implicits.
Arguments DashboardSummary F : clear implicits.

(** *** Integration documents *)

(** A value stored in a document: what JSON can hold, or a timestamp. *)
Inductive field :=
  | FJson (v : json)
  | FTimestamp (t : datetime).

(** A document of the [integrations] collection, and the collection: its
    documents by document id. *)
Definition document : Type := dict field.
Definition integrations : Type := gmap string document.

(** The id [f"{user_id}_{platform}"] of the document of a platform. *)
Definition integration_key (user_id platform : string) : string :=
  user_id +:+ "_" +:+ platform.

(** [save_integration_data]: it stamps [data['updated_at']] (in the dict of
    the caller) and overwrites the document. The collection afterwards;
    the function returns [True] unless the client raises. *)
Definition save_integration_data (store : integrations) (user_id platform : string)
    (data : document) (now : datetime) : integrations :=
  let data := upsert (λ _, FTimestamp now) "updated_at" data in
  <[integration_key user_id platform := data]> store.

(** [get_integration_data]: the document, or [None] when it does not
    exist. *)
Definition get_integration_data (store : integrations) (user_id platform : string)
    : option document :=
  store !! integration_key user_id platform.

(** [delete_integration_data] *)
Definition delete_integration_data (store : integrations) (user_id platform : string)
    : integrations :=
  delete (integration_key user_id platform) store.

End Db.


(** ** utils/ai.py *)

Module Ai.
Import PyDict PyJson Db.

Section Plan.
(** [json.loads]: [None] is the exception it raises on text that is not a
    JSON document. *)
Variable json_loads : string → option json.

(** One entry of a plan's [resources]. *)
Definition resource (type title url : string) : json :=
  JDict [("type", JStr type); ("title", JStr title); ("url", JStr url)].

(** The three links both branches build from the remediation resources of
    the subject; [url_of] is how each branch reads a url. *)
Definition resource_links (subject : string) (url_of : (Remediation → string) → string)
    : list json :=
  [ resource "video" ("YouTube Tutorials for " +:+ subject) (url_of video_url);
    resource "article" ("Comprehensive Guides for " +:+ subject) (url_of article_url);
    resource "practice" ("Practice Exercises for " +:+ subject) (url_of practice_url) ].

(** [plan_data.setdefault('resources', [])] followed by
    [plan_data['resources'].extend(links)]; [None] is the [AttributeError]
    raised when [plan_data] is not a dict or its [resources] is not a list. *)
Definition extend_resources (links : list json) (plan_data : json) : option json :=
  match plan_data with
  | JDict fields =>
      let fields := upsert (λ old, default (JList []) old) "resources" fields in
      match get "resources" fields with
      | Some (JList items) =>
          Some (JDict (upsert (λ _, JList (items ++ links)) "resources" fields))
      | _ => None
      end
  | _ => None
  end.

(** The inner [try] body: decode the response and add the resource links. *)
Definition structured_plan (subject content : string) : option json :=
  plan_data ← json_loads content;
  match get_remediation_resources subject with
  | Some remediation =>
      extend_resources (resource_links subject (λ field, field remediation)) plan_data
  | None => Some plan_data
  end.

(** The plan the bare [except:] builds around the raw response. *)
Definition text_plan (subject current_level time_commitment content : string) : json :=
  let remediation := get_remediation_resources subject in
  JDict [
    ("title", JStr ("Study Plan: " +:+ subject));
    ("overview", JStr content);
    ("duration", JStr time_commitment);
    ("difficulty", JStr current_level);
    ("modules", JList []);
    ("milestones", JList []);
    ("resources",
      JList (resource_links subject
               (λ field, match remediation with Some r => field r | None => "" end)));
    ("tips", JList [])
  ].

(** [generate_plan_with_groq]. [response] is what the chat-completion call
    gave: the text of the first choice ([inr]) or an exception ([inl], its
    text). The result is the pair the function returns, a [str] being
    [JStr]. *)
Definition generate_plan_with_groq (response : string + string)
    (subject learning_goal current_level time_commitment additional_context : string)
    : bool * json :=
  match response with
  | inl e => (false, JStr e)
  | inr content =>
      match structured_plan subject content with
      | Some plan_data => (true, plan_data)
      | None => (true, text_plan subject current_level time_commitment content)
      end
  end.
End Plan.

End Ai.

(** ** utils/integrations.py *)

Module Integrations.
Import PyNum PyDict.

(** The document [get_integration_data] returns for a platform. *)
Record IntegrationData := {
  authenticated : option bool;
  token : option string;
  username : option string
}.

(** A [(success, payload)] pair of a platform client. *)
Inductive fetched (A : Type) :=
  | Fetched (data : A)
  | NotFetched (reason : string).
Arguments Fetched {A} data.
Arguments NotFetched {A} reason.

Record Commit := {
  commit_repo : string;
  commit_message : string;
  commit_date : string;
  commit_sha : string
}.

Record Recommendation := {
  rec_type : string;
  rec_title : string;
  rec_reason : string
}.

#[export] Instance Recommendation_eq_dec : EqDecision Recommendation.
Proof. solve_decision. Defined.

Section Insights.
Context {F : Type} `{Arith F}.

(** What [GitHubIntegration.get_real_time_activity] reports, as far as
    [get_user_learning_insights] reads it. *)
Record GithubActivity := {
  total_commits : Z;
  active_repos : list string;
  languages_used : dict Z;
  recent_commits : list Commit
}.

Record CategoryStats := {
  cat_count : Z;
  cat_avg_progress : F;
  cat_total_progress : F
}.

(** What [UdemyIntegration.get_detailed_analytics] reports. *)
Record UdemyAnalytics := {
  completion_rate : F;
  total_courses : Z;
  completed_learning_hours : F;
  categories : dict CategoryStats
}.

(** [insights['github']] and [insights['udemy']] *)
Record GithubInsight := {
  gh_total_commits : Z;
  gh_active_repos : Z;
  gh_languages : list string;
  gh_recent_activity : list Commit
}.

Record UdemyInsight := {
  ud_completion_rate : F;
  ud_total_courses : Z;
  ud_learning_hours : F;
  ud_categories : list string
}.

Record Insights := {
  github : option GithubInsight;
  udemy : option UdemyInsight;
  recommendations : list Recommendation;
  overall_score : Z
}.

Definition github_insight (activity : GithubActivity) : GithubInsight := {|
  gh_total_commits := total_commits activity;
  gh_active_repos := Z.of_nat (length (active_repos activity));
  gh_languages := keys (languages_used activity);
  gh_recent_activity := firstn 5 (recent_commits activity)
|}.

Definition udemy_insight (analytics : UdemyAnalytics) : UdemyInsight := {|
  ud_completion_rate := completion_rate analytics;
  ud_total_courses := total_courses analytics;
  ud_learning_hours := completed_learning_hours analytics;
  ud_categories := keys (categories analytics)
|}.

Definition data_science_suggestion : Recommendation := {|
  rec_type := "course_suggestion";
  rec_title := "Complete a Data Science course";
  rec_reason := "You are active in Python - perfect for Data Science!"
|}.

Definition devops_suggestion : Recommendation := {|
  rec_type := "skill_development";
  rec_title := "Learn DevOps and CI/CD";
  rec_reason := "Your high coding activity suggests you'd benefit from DevOps skills"
|}.

Definition connect_github_suggestion : Recommendation := {|
  rec_type := "platform_integration";
  rec_title := "Connect your GitHub account";
  rec_reason := "Track your coding progress alongside your courses"
|}.

Definition add_courses_suggestion : Recommendation := {|
  rec_type := "learning_enhancement";
  rec_title := "Add structured learning with online courses";
  rec_reason := "Complement your coding with formal education"
|}.

(** The recommendations block of [get_user_learning_insights]. *)
Definition recommendations_of (github : option GithubInsight)
    (udemy : option UdemyInsight) : list Recommendation :=
  match github, udemy with
  | Some g, Some u =>
      let github_languages : gset string := list_to_set (gh_languages g) in
      let udemy_categories : gset string := list_to_set (ud_categories u) in
      (if bool_decide ("Python" ∈ github_languages)
          && negb (bool_decide ("Data Science" ∈ udemy_categories))
       then [data_science_suggestion] else [])
      ++
      (if (50 <? gh_total_commits g)
          && negb (bool_decide ("DevOps" ∈ udemy_categories))
       then [devops_suggestion] else [])
  | None, Some _ => [connect_github_suggestion]
  | Some _, None => [add_courses_suggestion]
  | None, None => []
  end.

(** [score += min(total_commits / 10, 30)] then
    [score += len(languages) * 5] *)
Definition add_github_points (score : F) (g : GithubInsight) : option F :=
  tenth ← truediv (of_int (gh_total_commits g)) (of_int 10);
  let score := add score (py_min2 tenth (of_int 30)) in
  Some (add score (of_int (Z.of_nat (length (gh_languages g)) * 5))).

(** [score += completion_rate / 2] then [score += len(categories) * 3] *)
Definition add_udemy_points (score : F) (u : UdemyInsight) : option F :=
  half ← truediv (ud_completion_rate u) (of_int 2);
  let score := add score half in
  Some (add score (of_int (Z.of_nat (length (ud_categories u)) * 3))).

(** The value of [score] before it is rounded. *)
Definition learning_score (github : option GithubInsight)
    (udemy : option UdemyInsight) : option F :=
  let score := of_int 0 in
  score ← (match github with Some g => add_github_points score g | None => Some score end);
  match udemy with Some u => add_udemy_points score u | None => Some score end.

(** [min(round(score), 100)] *)
Definition overall_score_of (github : option GithubInsight)
    (udemy : option UdemyInsight) : option Z :=
  score ← learning_score github udemy;
  rounded ← round score;
  Some (Z.min rounded 100).

Section Clients.
(** The two platform clients. *)
Variable get_real_time_activity : string → string → fetched GithubActivity.
Variable get_detailed_analytics : string → fetched UdemyAnalytics.

(** [github_data and github_data.get('authenticated')] *)
Definition is_authenticated (data : option IntegrationData) : bool :=
  match data with
  | Some d => default false (authenticated d)
  | None => false
  end.

(** The GitHub block; the outer [None] is the [KeyError] of
    [github_data['token']] or [github_data['username']]. *)
Definition fetch_github (github_data : option IntegrationData)
    : option (option GithubInsight) :=
  match github_data with
  | Some d =>
      if is_authenticated github_data then
        tok ← token d;
        user ← username d;
        match get_real_time_activity tok user with
        | Fetched activity => Some (Some (github_insight activity))
        | NotFetched _ => Some None
        end
      else Some None
  | None => Some None
  end.

(** The Udemy block. *)
Definition fetch_udemy (udemy_data : option IntegrationData) (user_email : string)
    : option UdemyInsight :=
  if is_authenticated udemy_data then
    match get_detailed_analytics user_email with
    | Fetched analytics => Some (udemy_insight analytics)
    | NotFetched _ => None
    end
  else None.

(** [get_user_learning_insights], given the stored integration documents of
    the user: [Some insights] is [(True, insights)], [None] is the handler's
    [(False, str(e))]. *)
Definition get_user_learning_insights (github_data udemy_data : option IntegrationData)
    (user_email : string) : option Insights :=
  github ← fetch_github github_data;
  let udemy := fetch_udemy udemy_data user_email in
  score ← overall_score_of github udemy;
  Some {|
    github := github;
    udemy := udemy;
    recommendations := recommendations_of github udemy;
    overall_score := score
  |}.
End Clients.

End Insights.

Arguments GithubActivity : clear implicits.
Arguments CategoryStats F : clear implicits.
Arguments UdemyAnalytics F : clear implicits.
Arguments GithubInsight : clear implicits.
Arguments UdemyInsight F : clear implicits.
Arguments Insights F : clear implicits.

(** *** Learning paths *)

(** The [language_suggestions] table of [suggest_learning_paths]. *)
Definition language_suggestions : dict (list string) := [
  ("Python", ["Data Science with Python"; "Django Web Development"; "Machine Learning"]);
  ("JavaScript", ["React.js"; "Node.js"; "TypeScript"]);
  ("Java", ["Spring Framework"; "Android Development"; "Microservices"]);
  ("C++", ["System Programming"; "Game Development"; "Competitive Programming"]);
  ("Go", ["Cloud Computing"; "Microservices"; "DevOps"]);
  ("Rust", ["System Programming"; "WebAssembly"; "Blockchain Development"])
].

(** [GitHubIntegration.suggest_learning_paths]. It returns
    [list(set(suggestions))], a list in the iteration order of a Python set
    of strings, which the language leaves open; the embedding keeps the
    set. *)
Definition suggest_learning_paths (languages_used : list string) : gset string :=
  let suggestions :=
    fold_left (λ suggestions lang,
                 match get lang language_suggestions with
                 | Some paths => suggestions ++ paths
                 | None => suggestions
                 end) languages_used [] in
  list_to_set suggestions.

(** *** Status of the integrations *)

(** [status[platform]] *)
Record PlatformStatus := {
  connected : Db.field;
  last_sync : option Db.field
}.

(** The entry [get_integration_status] builds from what
    [get_integration_data] returned: [data is not None and
    data.get('authenticated', False)], and [data.get('last_sync') if data
    else None]. *)
Definition platform_status (data : option Db.document) : PlatformStatus := {|
  connected :=
    match data with
    | Some d => default (Db.FJson (PyJson.JBool false)) (get "authenticated" d)
    | None => Db.FJson (PyJson.JBool false)
    end;
  last_sync :=
    match data with
    | Some d => if bool_decide (d = []) then None else get "last_sync" d
    | None => None
    end
|}.

(** [get_integration_status] *)
Definition get_integration_status (store : Db.integrations) (user_id : string)
    : dict PlatformStatus :=
  fold_left
    (λ status platform,
       let data := Db.get_integration_data store user_id platform in
       upsert (λ _, platform_status data) platform status)
    ["github"; "google_calendar"; "udemy"] [].

(** *** Synchronisation *)

(** The exceptions [sync_all_integrations] lets through. *)
Inductive raised :=
  | KeyError (key : string)
  | AttributeError (name : string).

Section Sync.
Context {F : Type} `{Arith F}.
Variable get_real_time_activity : string → string → fetched GithubActivity.
Variable get_detailed_analytics : string → fetched (UdemyAnalytics F).

Inductive SyncData :=
  | GithubData (activity : GithubActivity)
  | UdemyData (analytics : UdemyAnalytics F).

(** [{'success': success, 'data': payload if success else None}] *)
Record SyncResult := {
  sync_success : bool;
  sync_data : option SyncData
}.

Definition sync_result {A : Type} (wrap : A → SyncData) (answer : fetched A)
    : SyncResult :=
  match answer with
  | Fetched payload => {| sync_success := true; sync_data := Some (wrap payload) |}
  | NotFetched _ => {| sync_success := false; sync_data := None |}
  end.

(** The GitHub block of [sync_all_integrations]; nothing catches the
    [KeyError] of [github_data['token']] or [github_data['username']]. *)
Definition sync_github (github_data : option IntegrationData)
    (results : dict SyncResult) : raised + dict SyncResult :=
  match github_data with
  | Some d =>
      if is_authenticated github_data then
        match token d with
        | None => inl (KeyError "token")
        | Some tok =>
            match username d with
            | None => inl (KeyError "username")
            | Some user =>
                let answer := get_real_time_activity tok user in
                inr (upsert (λ _, sync_result GithubData answer) "github" results)
            end
        end
      else inr results
  | None => inr results
  end.

(** The Google Calendar block: it calls [calendar.get_upcoming_events()],
    and [GoogleCalendarIntegration] has no such attribute (it defines
    [get_upcoming_events_firebase]). *)
Definition sync_google_calendar (calendar_data : option IntegrationData)
    (results : dict SyncResult) : raised + dict SyncResult :=
  if is_authenticated calendar_data then inl (AttributeError "get_upcoming_events")
  else inr results.

(** The Udemy block. *)
Definition sync_udemy (udemy_data : option IntegrationData) (user_email : string)
    (results : dict SyncResult) : dict SyncResult :=
  if is_authenticated udemy_data then
    let answer := get_detailed_analytics user_email in
    upsert (λ _, sync_result UdemyData answer) "udemy" results
  else results.

(** [sync_all_integrations], given [st.session_state.get('user_email')] and
    the stored integration documents of the user: [inr results] is the
    dict it returns, [inl e] the exception that leaves it. *)
Definition sync_all_integrations (session_email : option string)
    (github_data calendar_data udemy_data : option IntegrationData)
    : raised + dict SyncResult :=
  let results := [] in
  let user_email := default "" session_email in
  match sync_github github_data results with
  | inl e => inl e
  | inr results =>
      match sync_google_calendar calendar_data results with
      | inl e => inl e
      | inr results => inr (sync_udemy udemy_data user_email results)
      end
  end.
End Sync.

Arguments SyncData F : clear implicits.
Arguments SyncResult F : clear implicits.

(** *** GitHub activity *)

(** What [requests.get] gives: an exception, by its text, or a response
    with its status code and what [.json()] gives; [inl] is the text of the
    exception [.json()] raises. *)
Inductive response (A : Type) :=
  | Raised (error : string)
  | Answered (status_code : Z) (json : string + A).
Arguments Raised {A} error.
Arguments Answered {A} status_code json.

(** A repository object of the API with every key the loop reads, of which
    the activity keeps the name and the language ([None] for [null]). *)
Record Repo := {
  repo_name : string;
  repo_language : option string
}.

(** A commit object of the API with the keys [commit.message],
    [commit.author.date] and [sha]. *)
Record ApiCommit := {
  api_message : string;
  api_date : string;
  api_sha : string
}.

(** [s[:n]], a character of the string standing for a code point. *)
Fixpoint str_prefix (n : nat) (s : string) : string :=
  match n, s with
  | S n, String c rest => String c (str_prefix n rest)
  | _, _ => EmptyString
  end.

(** [commit_data] *)
Definition commit_data (repo : Repo) (commit : ApiCommit) : Commit := {|
  commit_repo := repo_name repo;
  commit_message := str_prefix 100 (api_message commit);
  commit_date := api_date commit;
  commit_sha := str_prefix 7 (api_sha commit)
|}.

(** The loop [for commit in commits[:5]] on its slice: the entries appended
    before the first object that lacks a key ([inl], the text of its
    [KeyError]), and whether the loop came to its end. *)
Fixpoint collect_commits (repo : Repo) (commits : list (string + ApiCommit))
    : list Commit * bool :=
  match commits with
  | [] => ([], true)
  | inl _ :: _ => ([], false)
  | inr commit :: rest =>
      let '(entries, finished) := collect_commits repo rest in
      (commit_data repo commit :: entries, finished)
  end.

(** [if repo['language']: languages_used[language] =
    languages_used.get(language, 0) + 1] *)
Definition count_language (repo : Repo) (languages : dict Z) : dict Z :=
  match repo_language repo with
  | Some language =>
      if Db.str_truthy language
      then upsert (λ old, default 0 old + 1) language languages
      else languages
  | None => languages
  end.

(** One turn of the loop over the repositories, given what the request for
    the commits of the repository gave. The inner [try] ends the turn at
    the first exception: of the request, of [.json()], or of a commit
    object that lacks a key; what was added before stays. *)
Definition process_repo (repo : Repo)
    (commits_response : response (list (string + ApiCommit)))
    (activity : GithubActivity) : GithubActivity :=
  let languages := count_language repo (languages_used activity) in
  match commits_response with
  | Answered status_code (inr commits) =>
      if status_code =? 200 then
        let total := total_commits activity + Z.of_nat (length commits) in
        let '(entries, finished) := collect_commits repo (firstn 5 commits) in
        let recent := recent_commits activity ++ entries in
        {| total_commits := total;
           active_repos :=
             if finished && (0 <? Z.of_nat (length commits))
             then active_repos activity ++ [repo_name repo]
             else active_repos activity;
           languages_used := languages;
           recent_commits := recent |}
      else
        {| total_commits := total_commits activity;
           active_repos := active_repos activity;
           languages_used := languages;
           recent_commits := recent_commits activity |}
  | _ =>
      {| total_commits := total_commits activity;
         active_repos := active_repos activity;
         languages_used := languages;
         recent_commits := recent_commits activity |}
  end.

(** The loop over the repositories, each with what its commits request
    gave. A repository object that lacks a key ([inl], the text of its
    [KeyError]) is outside the inner [try] and ends the function. *)
Fixpoint process_repos
    (repos : list (string + Repo * response (list (string + ApiCommit))))
    (activity : GithubActivity) : string + GithubActivity :=
  match repos with
  | [] => inr activity
  | inl error :: _ => inl error
  | inr (repo, commits_response) :: rest =>
      process_repos rest (process_repo repo commits_response activity)
  end.

(** [sorted(recent_commits, key=lambda x: x['date'], reverse=True)]: from the
    latest date, commits of one date in the order they had. *)
Fixpoint insert_by_date (commit : Commit) (sorted : list Commit) : list Commit :=
  match sorted with
  | [] => [commit]
  | c :: rest =>
      if String.ltb (commit_date commit) (commit_date c)
      then c :: insert_by_date commit rest
      else commit :: sorted
  end.

Definition sorted_by_date_reverse (commits : list Commit) : list Commit :=
  foldr insert_by_date [] commits.

(** [GitHubIntegration.get_real_time_activity], as far as
    [get_user_learning_insights] reads its result, given what the network
    answers to the token and the user name: [repos_response] for the list of
    repositories, each repository with the response for its commits; and
    given [st.session_state.user_id] ([inl] is the text of the
    [AttributeError] of a session without it), which the function reads
    before it stores the activity in the integration document. The request
    for the events only fills [contribution_stats], inside a [try] of its
    own. *)
Definition get_real_time_activity (session_user_id : string + string)
    (repos_response :
       response (list (string + Repo * response (list (string + ApiCommit)))))
    : fetched GithubActivity :=
  match repos_response with
  | Raised error => NotFetched error
  | Answered status_code json =>
      if negb (status_code =? 200) then NotFetched "Failed to fetch repositories"
      else
        match json with
        | inl error => NotFetched error
        | inr repos =>
            let activity_data := {|
              total_commits := 0;
              active_repos := [];
              languages_used := [];
              recent_commits := []
            |} in
            match process_repos repos activity_data with
            | inl error => NotFetched error
            | inr activity_data =>
                let activity_data := {|
                  total_commits := total_commits activity_data;
                  active_repos := active_repos activity_data;
                  languages_used := languages_used activity_data;
                  recent_commits :=
                    firstn 20 (sorted_by_date_reverse (recent_commits activity_data))
                |} in
                match session_user_id with
                | inl error => NotFetched error
                | inr _ => Fetched activity_data
                end
            end
        end
  end.

End Integrations.


(** * Vocabulary of the properties *)

Module Statements.
Import PyNum PyDict PyJson Db Ai Integrations.

(** ** Numbers that compare *)

(** The part of the order of numbers that [max] and [min] rely on.
    [comparable] holds of every rational, and of every binary64 value but
    nan. *)
Class OrderLaws (F : Type) `{Arith F} := {
  comparable : F → Prop;
  comparable_zero : comparable (of_int 0);
  leb_refl (x : F) : comparable x → leb x x = true;
  leb_trans (x y z : F) : leb x y = true → leb y z = true → leb x z = true;
  ltb_leb (x y : F) : ltb x y = true → leb x y = true;
  ltb_false (x y : F) : comparable x → comparable y → ltb x y = false → leb y x = true
}.

(** ** Quiz records *)

Section Records.
Context {F : Type} `{Arith F}.

(** The calendar day of a document that has a [completed_at]. *)
Definition day_of (doc : QuizScore F) : option Z := date <$> completed_at doc.

(** An entry of the first loop of [get_topic_performance] holds at least one
    score and counts the scores it holds. *)
Definition counted (entry : TopicAcc F) : Prop :=
  acc_scores entry ≠ [] ∧
  acc_total_quizzes entry = Z.of_nat (length (acc_scores entry)).

(** A record written by [save_quiz_score] for a score between 0 and the
    number of questions. *)
Definition scored (quiz : QuizScore F) : Prop :=
  ∃ (topic : string) (score total_questions : Z) (t : datetime),
    0 ≤ score ≤ total_questions ∧
    score_data topic score total_questions t = Some quiz.

(** Every percentage of the [quiz_scores] collection compares. *)
Definition comparable_scores `{!OrderLaws F} (db : Firestore F) : Prop :=
  ∀ docs, quiz_scores db = Some docs →
          Forall (λ doc, comparable (percentage_of doc)) docs.

(** A document without any field. *)
Definition blank : QuizScore F := {|
  topic := None; score := None; total_questions := None;
  percentage := None; completed_at := None
|}.

(** The records [{Python, 80}, {Python, 60}, {SQL, 50}]; their other fields,
    taken from [untouched], are not read by the aggregation. *)
Definition three_records (untouched : QuizScore F) : list (QuizScore F) :=
  let record (t : string) (p : Z) :=
    {| topic := Some t; score := score untouched;
       total_questions := total_questions untouched;
       percentage := Some (of_int p); completed_at := completed_at untouched |} in
  [record "Python" 80; record "Python" 60; record "SQL" 50].

Definition three_records_db (untouched : QuizScore F)
    (plans : option (list StudyPlan)) : Firestore F := {|
  quiz_scores := Some (three_records untouched);
  quiz_scores_desc := Some (three_records untouched);
  plans_desc := plans
|}.

(** The collection after [n] quizzes on one topic, each saved by
    [save_quiz_score] with the same score. *)
Fixpoint saved_quizzes (n : nat) (topic : string) (score total_questions : Z)
    (t : datetime) : list (QuizScore F) :=
  match n with
  | O => []
  | S n =>
      (save_quiz_score (saved_quizzes n topic score total_questions t)
         topic score total_questions t).2
  end.
End Records.

(** The number of items of a list, as a rational. *)
Definition len (xs : list Q) : Q := inject_Z (Z.of_nat (length xs)).

(** 3 November 2026 at midnight ([date(2026, 11, 3).toordinal()] is 739923). *)
Definition nov_3 : datetime := {| dt_ordinal := 739923; dt_micros := 0 |}.

(** A user with one study plan and no quiz yet. *)
Definition planned_only : Firestore Q := {|
  quiz_scores := Some [];
  quiz_scores_desc := Some [];
  plans_desc :=
    Some [ {| plan_id := "p1"; goal := Some "Python: build a web application";
              content := Some (JDict [("overview", JStr "Weekly roadmap")]);
              created_at := Some {| dt_ordinal := 739920; dt_micros := 0 |};
              completed := Some false |} ]
|}.

(** A user who answered 1 question of 9 in three quizzes on recursion. *)
Definition nine_question_quizzes : Firestore spec_float :=
  let collection := saved_quizzes 3 "Recursion" 1 9 nov_3 in
  {| quiz_scores := Some collection;
     quiz_scores_desc := Some collection;
     plans_desc := Some [] |}.

(** ** Plans *)

(** [plan[key]] of a plan object. *)
Definition plan_field (key : string) (plan : json) : option json :=
  match plan with
  | JDict fields => get key fields
  | _ => None
  end.

(** A decoder that accepts the empty object and nothing else. *)
Definition loads_empty_object (text : string) : option json :=
  if String.eqb text "{}" then Some (JDict []) else None.

(** ** Insights *)

(** How many times a recommendation occurs in a list. *)
Definition occurrences (r : Recommendation) (rs : list Recommendation) : nat :=
  length (filter (λ r', r' = r) rs).

(** A GitHub snapshot with 100 commits and the three languages given; a
    Udemy snapshot with a completion rate of 80 and the two categories
    given. *)
Definition github_100 (l1 l2 l3 : string) (repos : Z) (recent : list Commit)
    : GithubInsight := {|
  gh_total_commits := 100;
  gh_active_repos := repos;
  gh_languages := [l1; l2; l3];
  gh_recent_activity := recent
|}.

Definition udemy_80 {F : Type} `{Arith F} (c1 c2 : string) (courses : Z) (hours : F)
    : UdemyInsight F := {|
  ud_completion_rate := of_int 80;
  ud_total_courses := courses;
  ud_learning_hours := hours;
  ud_categories := [c1; c2]
|}.

End Statements.

(** * Vocabulary of the further properties *)

Module MoreStatements.
Import PyNum PyDict PyJson Db Ai Integrations Statements.

(** ** Streaks *)

(** The days [ds], newest first, form a chain from the expected day [e]:
    the first is [e] or the day before [e], and so on from the day before
    each day. Such a chain may skip every other day. *)
Fixpoint chain (e : Z) (ds : list Z) : Prop :=
  match ds with
  | [] => True
  | d :: rest => (d = e ∨ d = e - 1) ∧ chain (d - 1) rest
  end.

(** A quiz document completed at midnight of the day [d]. *)
Definition quiz_on {F : Type} (d : Z) : QuizScore F := {|
  topic := None; score := None; total_questions := None; percentage := None;
  completed_at := Some {| dt_ordinal := d; dt_micros := 0 |}
|}.

(** A user whose [quiz_scores] documents, newest first, are [docs]. *)
Definition history {F : Type} (docs : list (QuizScore F)) : Firestore F := {|
  quiz_scores := Some docs;
  quiz_scores_desc := Some docs;
  plans_desc := Some []
|}.

(** ** Topics *)

(** One turn of a grouping loop: the value stored under the key of the item
    [a] becomes [step a] of what was stored there. *)
Definition group {A V : Type} (key : A → string) (step : A → option V → V)
    (d : dict V) (a : A) : dict V :=
  upsert (step a) (key a) d.

Section Topics.
Context {F : Type} `{Arith F}.

(** The steps of the two grouping loops of utils/db.py. *)
Definition score_step (quiz : QuizScore F) (old : option (list F)) : list F :=
  default [] old ++ [percentage_of quiz].

Definition entry_step (doc : QuizScore F) (old : option (TopicAcc F)) : TopicAcc F :=
  let entry := default {| acc_scores := []; acc_total_quizzes := 0 |} old in
  {| acc_scores := acc_scores entry ++ [percentage_of doc];
     acc_total_quizzes := acc_total_quizzes entry + 1 |}.

(** The documents of a topic, in stream order, and their percentages. *)
Definition quizzes_on (t : string) (docs : list (QuizScore F)) : list (QuizScore F) :=
  filter (λ doc, topic_of doc = t) docs.

Definition percentages_on (t : string) (docs : list (QuizScore F)) : list F :=
  percentage_of <$> quizzes_on t docs.
End Topics.

(** [k] is the first key of [d] with the largest value: the values before
    it are smaller, the values after it are not larger. *)
Definition first_largest (d : dict Q) (k : string) : Prop :=
  ∃ pre v post, d = pre ++ (k, v) :: post ∧
    Forall (λ kv, (kv.2 < v)%Q) pre ∧ Forall (λ kv, (kv.2 <= v)%Q) post.

(** [k] is the first key of [d] with the smallest value. *)
Definition first_smallest (d : dict Q) (k : string) : Prop :=
  ∃ pre v post, d = pre ++ (k, v) :: post ∧
    Forall (λ kv, (v < kv.2)%Q) pre ∧ Forall (λ kv, (v <= kv.2)%Q) post.

(** ** Integration documents *)

(** The platforms the application stores a document for (the list
    [get_integration_status] walks). *)
Definition known_platform (platform : string) : Prop :=
  platform = "github" ∨ platform = "google_calendar" ∨ platform = "udemy".

(** The document [save_integration_data] stores for [data]. *)
Definition stamped (now : datetime) (data : document) : document :=
  upsert (λ _, FTimestamp now) "updated_at" data.

(** ** Plans *)

(** The characters of a string. *)
Definition chars (s : string) : list ascii := list_ascii_of_string s.

(** The items of [plan_data['resources']] before the links are added: none
    when the key is missing. *)
Definition resources_of (fields : dict json) : list json :=
  match get "resources" fields with
  | Some (JList items) => items
  | _ => []
  end.

(** A decoded response the inner [try] can extend: an object whose
    [resources], if any, is a list. *)
Definition extensible (plan_data : json) : Prop :=
  match plan_data with
  | JDict fields =>
      get "resources" fields = None ∨ ∃ items, get "resources" fields = Some (JList items)
  | _ => False
  end.

(** A decoder that accepts the text of one array and nothing else. *)
Definition loads_week_list (text : string) : option json :=
  if String.eqb text "[1, 2]" then Some (JList [JInt 1; JInt 2]) else None.

(** ** Integrations *)

(** A stored document with both credentials [sync_all_integrations] and
    [get_user_learning_insights] index. *)
Definition with_credentials (data : option IntegrationData) : Prop :=
  ∃ d, data = Some d ∧ is_Some (token d) ∧ is_Some (username d).

(** The value [False] of a status entry. *)
Definition not_connected : field := FJson (JBool false).

(** An authenticated document with a token and a user name, and one that
    lacks the token. *)
Definition connected_account : IntegrationData := {|
  authenticated := Some true; token := Some "t0ken"; username := Some "ann"
|}.

Definition account_without_token : IntegrationData := {|
  authenticated := Some true; token := None; username := Some "ann"
|}.

(** A GitHub client that is refused, and a Udemy client that reports one
    completed course. *)
Definition refused_github (token username : string) : fetched GithubActivity :=
  NotFetched "Failed to fetch repositories".

Definition one_course_udemy (email : string) : fetched (UdemyAnalytics Q) :=
  Fetched {|
    completion_rate := 100%Q; total_courses := 1;
    completed_learning_hours := 12%Q;
    categories := [("Design", {| cat_count := 1; cat_avg_progress := 100%Q;
                                 cat_total_progress := 100%Q |})]
  |}.

(** ** GitHub activity *)

(** The repository objects that have every key, each with the response for
    its commits. *)
Definition listed
    (repos : list (string + Repo * response (list (string + ApiCommit))))
    : list (Repo * response (list (string + ApiCommit))) :=
  omap (λ r, match r with inr item => Some item | inl _ => None end) repos.

(** The commits the loop reads for a repository: those of a response with
    status 200 whose body decodes. *)
Definition commits_of (answer : response (list (string + ApiCommit)))
    : list (string + ApiCommit) :=
  match answer with
  | Answered status_code (inr commits) => if status_code =? 200 then commits else []
  | _ => []
  end.

(** One turn of the loop over the repositories. *)
Definition turn (activity : GithubActivity)
    (item : Repo * response (list (string + ApiCommit))) : GithubActivity :=
  process_repo item.1 item.2 activity.

(** [activity_data] before the loop. *)
Definition no_activity : GithubActivity := {|
  total_commits := 0; active_repos := []; languages_used := []; recent_commits := []
|}.

(** The step of the language count. *)
Definition one_more (language : string) (old : option Z) : Z := default 0 old + 1.

(** The languages the loop counts: one for each repository that has a
    language other than the empty string. *)
Definition languages_of (repos : list (Repo * response (list (string + ApiCommit))))
    : list string :=
  omap (λ item, match repo_language item.1 with
                | Some language => if str_truthy language then Some language else None
                | None => None
                end) repos.

(** How many times a language occurs. *)
Definition times (language : string) (languages : list string) : nat :=
  length (filter (λ l, l = language) languages).

(** The commit [a] is not older than the commit [b]. *)
Definition not_older (a b : Commit) : Prop :=
  String.ltb (commit_date a) (commit_date b) = false.

(** Two repositories in Python and one without language; the first
    answered with one commit, the request for the second failed. *)
Definition three_repos : list (string + Repo * response (list (string + ApiCommit))) :=
  [ inr ({| repo_name := "notes"; repo_language := Some "Python" |},
         Answered 200 (inr [inr {| api_message := "Add notes";
                                   api_date := "2026-11-02T10:00:00Z";
                                   api_sha := "0123456789abcdef" |}]));
    inr ({| repo_name := "quiz"; repo_language := Some "Python" |}, Raised "timed out");
    inr ({| repo_name := "docs"; repo_language := None |}, Answered 200 (inr [])) ].

(** The activity [get_real_time_activity] reports for [three_repos]. *)
Definition three_repos_activity : GithubActivity := {|
  total_commits := 1;
  active_repos := ["notes"];
  languages_used := [("Python", 2)];
  recent_commits :=
    [ {| commit_repo := "notes"; commit_message := "Add notes";
         commit_date := "2026-11-02T10:00:00Z"; commit_sha := "0123456" |} ]
|}.

(** A network that answers every token and user name with [three_repos]. *)
Definition three_repos_network (token username : string)
    : response (list (string + Repo * response (list (string + ApiCommit)))) :=
  Answered 200 (inr three_repos).

End MoreStatements.

(** * Properties *)

(** ** The learning streak *)

Module StreakFacts.
Import PyNum PyDict Db Statements.

#[local] Instance newer_first_trans : Transitive newer_first.
Proof. unfold newer_first. intros a b c ? ?. lia. Qed.

#[local] Instance newer_first_antisymm : AntiSymm (=) newer_first.
Proof. unfold newer_first. intros a b ? ?. lia. Qed.

#[local] Instance newer_first_total : Total newer_first.
Proof. unfold newer_first. intros a b. lia. Qed.

(** Sorting puts the days in the one descending order there is. *)
Lemma sort_newer_first (l sorted : list Z) :
  Sorted newer_first sorted → sorted ≡ₚ l → merge_sort newer_first l = sorted.
Proof.
  intros Hs Hp. apply (Sorted_unique newer_first).
  - apply Sorted_merge_sort, _.
  - exact Hs.
  - rewrite merge_sort_Permutation. symmetry. exact Hp.
Qed.

Section Dates.
Context {F : Type}.

Lemma fold_add_quiz_date_spec (docs : list (QuizScore F)) (acc : list Z) :
  NoDup acc →
  NoDup (fold_left add_quiz_date docs acc) ∧
  ∀ d, d ∈ fold_left add_quiz_date docs acc ↔
       d ∈ acc ∨ ∃ doc t, doc ∈ docs ∧ completed_at doc = Some t ∧ date t = d.
Proof.
  revert acc. induction docs as [|doc docs IH]; intros acc Hacc; simpl.
  - split; [done|]. intros d. split; [auto|]. intros [?|(doc & t & Hin & _)]; [done|].
    by apply elem_of_nil in Hin.
  - assert (Hstep : NoDup (add_quiz_date acc doc) ∧
        ∀ d, d ∈ add_quiz_date acc doc ↔ d ∈ acc ∨ ∃ t, completed_at doc = Some t ∧ date t = d).
    { unfold add_quiz_date. destruct (completed_at doc) as [t|].
      - case_bool_decide as Hd.
        + split; [done|]. intros d. split; [auto|].
          intros [?|(t' & [= <-] & <-)]; done.
        + split.
          * apply NoDup_app. split_and!; [done| |apply NoDup_singleton].
            intros x Hx ->%list_elem_of_singleton. done.
          * intros d. rewrite elem_of_app, list_elem_of_singleton.
            split; [intros [?| ->]; eauto|].
            intros [?|(t' & [= <-] & <-)]; auto.
      - split; [done|]. intros d. split; [auto|]. intros [?|(t' & ? & _)]; done. }
    destruct Hstep as [Hnd Hel]. destruct (IH _ Hnd) as [IH1 IH2].
    split; [done|]. intros d. rewrite IH2, Hel. split.
    + intros [[?|(t & ? & ?)]|(doc' & t & ? & ? & ?)]; [by left| |].
      * right. exists doc, t. split_and!; [apply elem_of_cons; by left|done|done].
      * right. exists doc', t. split_and!; [apply elem_of_cons; by right|done|done].
    + intros [?|(doc' & t & [-> |?]%elem_of_cons & ? & ?)]; [by left;left| |].
      * left. right. eauto.
      * right. eauto.
Qed.

Lemma quiz_dates_of_NoDup (docs : list (QuizScore F)) : NoDup (quiz_dates_of docs).
Proof. apply (fold_add_quiz_date_spec docs []), NoDup_nil_2. Qed.

Lemma elem_of_quiz_dates_of (docs : list (QuizScore F)) (d : Z) :
  d ∈ quiz_dates_of docs ↔
  ∃ doc t, doc ∈ docs ∧ completed_at doc = Some t ∧ date t = d.
Proof.
  unfold quiz_dates_of.
  destruct (fold_add_quiz_date_spec docs [] (NoDup_nil_2)) as [_ ->].
  split; [intros [Hn|?]; [by apply elem_of_nil in Hn|done]|auto].
Qed.
End Dates.

Lemma date_sub_days_in_range (d n : Z) :
  date_min ≤ d - n ≤ date_max → date_sub_days d n = Some (d - n).
Proof.
  intros [H1 H2]. unfold date_sub_days. cbv zeta.
  apply Z.leb_le in H1, H2. by rewrite H1, H2.
Qed.

(** One turn of the loop: the day is the expected one; it is the day before
    the expected one; it is neither. *)
Lemma streak_loop_expected (d e n : Z) (rest : list Z) :
  d = e → date_min ≤ d - 1 ≤ date_max →
  streak_loop (d :: rest) n e = streak_loop rest (n + 1) (d - 1).
Proof.
  intros <- Hd. simpl. rewrite Z.eqb_refl.
  by rewrite (date_sub_days_in_range d 1).
Qed.

Lemma streak_loop_day_before (d e n : Z) (rest : list Z) :
  d = e - 1 → date_min ≤ d - 1 ≤ date_max → e - 1 ≤ date_max →
  streak_loop (d :: rest) n e = streak_loop rest (n + 1) (d - 1).
Proof.
  intros -> Hd He. simpl.
  replace (e - 1 =? e) with false by (symmetry; apply Z.eqb_neq; lia).
  rewrite (date_sub_days_in_range e 1) by lia. simpl.
  rewrite Z.eqb_refl. by rewrite (date_sub_days_in_range (e - 1) 1).
Qed.

Lemma streak_loop_break (d e n : Z) (rest : list Z) :
  d ≠ e → d ≠ e - 1 → date_min ≤ e - 1 ≤ date_max →
  streak_loop (d :: rest) n e = Some n.
Proof.
  intros H1 H2 He. simpl.
  apply Z.eqb_neq in H1, H2. rewrite H1.
  rewrite (date_sub_days_in_range e 1) by lia. simpl. by rewrite H2.
Qed.

Section Streak.
Context {F : Type}.
Implicit Types (db : Firestore F) (doc : QuizScore F).

Lemma elem_of_quiz_dates_day (docs : list (QuizScore F)) (d : Z) :
  d ∈ quiz_dates_of docs ↔ ∃ doc, doc ∈ docs ∧ day_of doc = Some d.
Proof.
  rewrite elem_of_quiz_dates_of. unfold day_of. split.
  - intros (doc & t & ? & Ht & <-). exists doc. by rewrite Ht.
  - intros (doc & ? & Hd). destruct (completed_at doc) as [t|] eqn:Ht; [|done].
    injection Hd as <-. eauto.
Qed.

(** Quizzes today, yesterday and the day before, and on no other day among
    the thirty most recent documents: the streak is 3. *)
Lemma get_learning_streak_three_days db (docs : list (QuizScore F)) (today : Z) :
  date_min + 3 ≤ today ≤ date_max →
  quiz_scores_desc db = Some docs →
  (∀ d, (∃ doc, doc ∈ take 30 docs ∧ day_of doc = Some d) ↔
        d = today ∨ d = today - 1 ∨ d = today - 2) →
  get_learning_streak today db = 3.
Proof.
  unfold date_min, date_max. intros Hrange Hdb Hdays.
  unfold get_learning_streak, learning_streak_of, limit. rewrite Hdb. simpl.
  assert (Hsort : merge_sort newer_first (quiz_dates_of (take 30 docs))
                  = [today; today - 1; today - 2]).
  { apply sort_newer_first.
    - unfold newer_first. repeat constructor; lia.
    - apply NoDup_Permutation.
      + repeat (apply NoDup_cons; split;
                [rewrite ?not_elem_of_cons; split_and?; try lia; apply not_elem_of_nil|]).
        apply NoDup_nil_2.
      + apply quiz_dates_of_NoDup.
      + intros d. rewrite elem_of_quiz_dates_day, Hdays.
        rewrite !elem_of_cons, elem_of_nil. tauto. }
  destruct (quiz_dates_of (take 30 docs)) as [|d0 ds] eqn:Hq.
  { vm_compute in Hsort. discriminate. }
  rewrite Hsort.
  rewrite !streak_loop_expected by (unfold date_min, date_max; lia).
  reflexivity.
Qed.

(** C1. With quizzes on [today] and on [today - 2] only (no quiz on
    [today - 1]), [get_learning_streak] returns 2, not 1: after counting
    [today] it expects [today - 1], and its condition also accepts the day
    before the expected one. *)
Theorem get_learning_streak_skips_a_day db doc0 doc2 (today : Z) :
  date_min + 3 ≤ today ≤ date_max →
  quiz_scores_desc db = Some [doc0; doc2] →
  day_of doc0 = Some today →
  day_of doc2 = Some (today - 2) →
  get_learning_streak today db = 2.
Proof.
  unfold date_min, date_max. intros Hrange Hdb H0 H2.
  unfold get_learning_streak, learning_streak_of, limit. rewrite Hdb. simpl.
  assert (Hq : quiz_dates_of [doc0; doc2] = [today; today - 2]).
  { unfold day_of in H0, H2. unfold quiz_dates_of. simpl. unfold add_quiz_date.
    destruct (completed_at doc0) as [t0|]; [|done].
    destruct (completed_at doc2) as [t2|]; [|done].
    injection H0 as ->. injection H2 as ->.
    rewrite (bool_decide_eq_false_2 (today - 2 ∈ [today]))
      by (rewrite list_elem_of_singleton; lia).
    reflexivity. }
  rewrite Hq.
  rewrite (sort_newer_first _ [today; today - 2]).
  2: { unfold newer_first. repeat constructor; lia. }
  2: done.
  rewrite streak_loop_expected by (unfold date_min, date_max; lia).
  rewrite streak_loop_day_before by (unfold date_min, date_max; lia).
  reflexivity.
Qed.
End Streak.

(** [get_learning_streak_skips_a_day] on 3 November 2026 (ordinal 739923):
    quizzes that day and on 1 November. *)
Lemma get_learning_streak_skips_a_day_witness :
  let stamp d := Some {| dt_ordinal := d; dt_micros := 0 |} in
  let doc d : QuizScore Q :=
    {| topic := Some "Python"; score := Some 4; total_questions := Some 5;
       percentage := Some 80%Q; completed_at := stamp d |} in
  get_learning_streak 739923
    {| quiz_scores := Some [doc 739923; doc 739921];
       quiz_scores_desc := Some [doc 739923; doc 739921];
       plans_desc := Some [] |} = 2.
Proof.
  intros stamp doc.
  apply (get_learning_streak_skips_a_day _ (doc 739923) (doc 739921) 739923).
  - unfold date_min, date_max. lia.
  - reflexivity.
  - reflexivity.
  - reflexivity.
Defined.

End StreakFacts.

(** ** Analytics and the report builder *)

Module AnalyticsFacts.
Import PyNum PyDict PyJson Db Statements.

Section AnyArithmetic.
Context {F : Type} `{Arith F}.
Implicit Types (db : Firestore F) (doc : QuizScore F).

(** C4. On an empty quiz history [get_user_analytics] raises nothing and
    returns the zeroed summary: [total_quizzes] is 0, [average_score] is 0,
    no topic, no best or worst topic. *)
Theorem get_user_analytics_empty db :
  quiz_scores_desc db = Some [] →
  get_user_analytics db =
    Some {| total_quizzes := 0;
            average_score := of_int 0;
            topics_studied := [];
            quiz_history := [];
            best_topic := None;
            worst_topic := None;
            current_streak := 0 |}.
Proof.
  intros Hdb. unfold get_user_analytics. rewrite Hdb. simpl.
  by rewrite elements_empty.
Qed.

Section Report.
Variable build_document :
  Analytics F → list (QuizScore F) → list StudyPlan → string → option string →
  datetime → string + list Byte.byte.

(** C5. With an empty quiz history [generate_analytics_pdf] returns no
    document and the message "No data available for PDF generation",
    whatever study plans the user has. *)
Theorem generate_analytics_pdf_no_history db (now : datetime)
    (user_name : string) (user_email : option string) :
  get_user_quiz_history db 50 = [] →
  generate_analytics_pdf build_document db now user_name user_email
  = (None, Some "No data available for PDF generation").
Proof.
  intros Hhist. unfold generate_analytics_pdf. rewrite Hhist.
  by destruct (get_user_analytics db).
Qed.
End Report.

End AnyArithmetic.

(** [get_user_analytics_empty] for a user without any document, in binary64. *)
Lemma get_user_analytics_empty_witness :
  (a ← get_user_analytics (F:=spec_float)
         {| quiz_scores := Some []; quiz_scores_desc := Some []; plans_desc := Some [] |};
   Some (total_quizzes a, average_score a))
  = Some (0, S754_zero false).
Proof.
  rewrite (get_user_analytics_empty (F:=spec_float)
             {| quiz_scores := Some []; quiz_scores_desc := Some []; plans_desc := Some [] |}).
  - reflexivity.
  - reflexivity.
Defined.

(** [generate_analytics_pdf_no_history] at [planned_only], for a builder
    that would always deliver a document. *)
Lemma generate_analytics_pdf_no_history_witness :
  get_user_plans planned_only ≠ [] ∧
  generate_analytics_pdf (λ _ _ _ _ _ _, inr []) planned_only
    {| dt_ordinal := 739923; dt_micros := 0 |} "Ada" (Some "ada@example.org")
  = (None, Some "No data available for PDF generation").
Proof.
  split.
  - discriminate.
  - apply (generate_analytics_pdf_no_history (λ _ _ _ _ _ _, inr []) planned_only).
    reflexivity.
Defined.

(** *** Topic grouping on three records *)

(** C6. On the records [{Python, 80}, {Python, 60}, {SQL, 50}],
    [get_topic_performance] gives Python the average 70 and SQL the average
    50, and [get_user_analytics] reports SQL as the worst topic; in binary64
    and in exact arithmetic alike. *)
Theorem topic_grouping_three_records :
  (∀ (untouched : QuizScore spec_float) plans,
     let db := three_records_db untouched plans in
     tp_average_score <$> get "Python" (get_topic_performance db) = Some (of_int 70) ∧
     tp_average_score <$> get "SQL" (get_topic_performance db) = Some (of_int 50) ∧
     worst_topic <$> get_user_analytics db = Some (Some "SQL")) ∧
  (∀ (untouched : QuizScore Q) plans,
     let db := three_records_db untouched plans in
     (∃ avg, tp_average_score <$> get "Python" (get_topic_performance db) = Some avg
             ∧ (avg == 70)%Q) ∧
     (∃ avg, tp_average_score <$> get "SQL" (get_topic_performance db) = Some avg
             ∧ (avg == 50)%Q) ∧
     worst_topic <$> get_user_analytics db = Some (Some "SQL")).
Proof.
  split; intros untouched plans db.
  - split_and!; vm_compute; reflexivity.
  - split_and!.
    + eexists. split; [vm_compute; reflexivity|reflexivity].
    + eexists. split; [vm_compute; reflexivity|reflexivity].
    + vm_compute. reflexivity.
Qed.

(** *** Invariants of the grouping loops *)

Section Grouping.
Context {V : Type}.
Implicit Types (d : dict V) (f : option V → V).

Lemma upsert_Forall (P : V → Prop) f (k : string) d :
  Forall (λ kv, P kv.2) d →
  P (f None) → (∀ v, P v → P (f (Some v))) →
  Forall (λ kv, P kv.2) (upsert f k d).
Proof.
  intros Hd Hnew Hold. induction Hd as [|[k' v] d Hv Hd IH]; simpl.
  - by repeat constructor.
  - destruct (String.eqb k k'); constructor; simpl in *; auto.
Qed.

Lemma get_Some_elem_of (k : string) (v : V) d : get k d = Some v → (k, v) ∈ d.
Proof.
  induction d as [|[k' v'] d IH]; simpl; [done|].
  destruct (String.eqb k k') eqn:Hk.
  - intros [= ->]. apply String.eqb_eq in Hk as ->. apply elem_of_cons. by left.
  - intros Hg. apply elem_of_cons. right. auto.
Qed.
End Grouping.

Section GroupingInvariants.
Context {F : Type} `{Arith F}.

(** Every topic of [topic_scores] has at least one percentage. *)
Lemma topic_scores_nonempty (quiz_list : list (QuizScore F)) :
  Forall (λ kv, kv.2 ≠ []) (topic_scores quiz_list).
Proof.
  unfold topic_scores.
  assert (Hgen : ∀ d : dict (list F), Forall (λ kv, kv.2 ≠ []) d →
    Forall (λ kv, kv.2 ≠ []) (fold_left add_topic_score quiz_list d)).
  { induction quiz_list as [|quiz l IH]; intros d Hd; simpl; [done|].
    apply IH. apply (upsert_Forall (λ v, v ≠ [])); [done|done|].
    intros v _. simpl. by destruct v. }
  apply Hgen. constructor.
Qed.

(** The scores of every entry of [topic_data_of] are percentages of the
    documents. *)
Lemma topic_data_of_scores (P : F → Prop) (docs : list (QuizScore F)) :
  Forall (λ doc, P (percentage_of doc)) docs →
  Forall (λ kv, Forall P (acc_scores kv.2)) (topic_data_of docs).
Proof.
  unfold topic_data_of. intros Hdocs.
  assert (Hgen : ∀ d : dict (TopicAcc F),
    Forall (λ kv, Forall P (acc_scores kv.2)) d →
    Forall (λ kv, Forall P (acc_scores kv.2)) (fold_left add_topic_entry docs d)).
  { induction Hdocs as [|doc l Hdoc Hdocs IH]; intros d Hd; simpl; [done|].
    apply IH. apply (upsert_Forall (λ v, Forall P (acc_scores v))); [done| |].
    - simpl. by repeat constructor.
    - intros v Hv. simpl. apply Forall_app. split; [done|]. by repeat constructor. }
  apply Hgen. constructor.
Qed.

Lemma topic_data_of_counted (docs : list (QuizScore F)) :
  Forall (λ kv, counted kv.2) (topic_data_of docs).
Proof.
  unfold topic_data_of.
  assert (Hgen : ∀ d : dict (TopicAcc F), Forall (λ kv, counted kv.2) d →
    Forall (λ kv, counted kv.2) (fold_left add_topic_entry docs d)).
  { induction docs as [|doc l IH]; intros d Hd; simpl; [done|].
    apply IH. apply (upsert_Forall counted); [done| |].
    - split; simpl; [discriminate|done].
    - intros v [Hne Hcount]. split; simpl.
      + by destruct (acc_scores v).
      + rewrite length_app, Hcount. simpl. lia. }
  apply Hgen. constructor.
Qed.

(** What an entry of the result of [get_topic_performance] was computed
    from: a counted entry whose scores are percentages of the documents. *)
Lemma get_topic_performance_entry (P : F → Prop) (db : Firestore F)
    (topic : string) (stats : TopicStats F) :
  (∀ docs, quiz_scores db = Some docs → Forall (λ doc, P (percentage_of doc)) docs) →
  get topic (get_topic_performance db) = Some stats →
  ∃ entry, counted entry ∧ Forall P (acc_scores entry) ∧ topic_stats entry = Some stats.
Proof.
  unfold get_topic_performance, topic_performance_of. intros HP.
  destruct (quiz_scores db) as [docs|]; simpl; [|done].
  destruct (mapM _ (topic_data_of docs)) as [result|] eqn:Hm; simpl; [|done].
  intros Hget%get_Some_elem_of.
  apply mapM_Some_1 in Hm.
  pose proof (topic_data_of_counted docs) as Hinv.
  pose proof (topic_data_of_scores P docs (HP docs eq_refl)) as Hscores.
  induction Hm as [|[t entry] y data result Hy Hm IH].
  - by apply elem_of_nil in Hget.
  - apply Forall_cons in Hinv as [Hentry Hinv].
    apply Forall_cons in Hscores as [Hsc Hscores].
    apply elem_of_cons in Hget as [<-|Hget]; [|by apply IH].
    simpl in Hy. destruct (topic_stats entry) as [st|] eqn:Hs; simpl in Hy; [|done].
    injection Hy as _ ->. eauto.
Qed.

(** The fields of the entry the second loop completes. *)
Lemma topic_stats_Some (entry : TopicAcc F) (stats : TopicStats F) :
  acc_scores entry ≠ [] → topic_stats entry = Some stats →
  tp_scores stats = acc_scores entry ∧
  tp_total_quizzes stats = acc_total_quizzes entry ∧
  py_mean (tp_scores stats) = Some (tp_average_score stats) ∧
  py_max (tp_scores stats) = Some (tp_best_score stats) ∧
  py_min (tp_scores stats) = Some (tp_worst_score stats).
Proof.
  unfold topic_stats. intros Hne Hstats.
  destruct (acc_scores entry) as [|x xs] eqn:Hacc; [done|].
  destruct (py_mean (x :: xs)) as [avg|] eqn:Havg; [|done].
  simpl in Hstats. injection Hstats as <-. simpl. by rewrite Havg.
Qed.

(** The number of quizzes of a topic is the number of its scores, and at
    least 1, in any arithmetic. *)
Lemma get_topic_performance_total_quizzes (db : Firestore F) (topic : string)
    (stats : TopicStats F) :
  get topic (get_topic_performance db) = Some stats →
  1 ≤ tp_total_quizzes stats ∧
  tp_total_quizzes stats = Z.of_nat (length (tp_scores stats)).
Proof.
  intros Hget.
  destruct (get_topic_performance_entry (λ _, True) db topic stats)
    as (entry & [Hne Hcount] & _ & Hstats); [|done|].
  { intros docs _. by apply Forall_forall. }
  destruct (topic_stats_Some entry stats Hne Hstats) as (Hscores & -> & _).
  rewrite Hscores, Hcount. split; [|done].
  destruct (acc_scores entry); [done|]. simpl. lia.
Qed.
End GroupingInvariants.

(** *** Maximum and minimum *)

Section Ordered.
Context {F : Type} `{OrderLaws F}.
Implicit Types (xs : list F) (m : F).

Lemma fold_max_bounds xs m :
  comparable m → Forall comparable xs →
  let r := fold_left (λ m y, if ltb m y then y else m) xs m in
  leb m r = true ∧ Forall (λ x, leb x r = true) xs.
Proof.
  intros Hm Hxs. revert m Hm.
  induction Hxs as [|x xs Hx Hxs IH]; intros m Hm; simpl.
  - split; [by apply leb_refl|constructor].
  - destruct (ltb m x) eqn:Hc.
    + destruct (IH x Hx) as [H1 H2]. split; [|by constructor].
      apply (leb_trans m x); [by apply ltb_leb|done].
    + destruct (IH m Hm) as [H1 H2]. split; [done|]. constructor; [|done].
      apply (leb_trans x m); [by apply ltb_false|done].
Qed.

Lemma fold_min_bounds xs m :
  comparable m → Forall comparable xs →
  let r := fold_left (λ m y, if ltb y m then y else m) xs m in
  leb r m = true ∧ Forall (λ x, leb r x = true) xs.
Proof.
  intros Hm Hxs. revert m Hm.
  induction Hxs as [|x xs Hx Hxs IH]; intros m Hm; simpl.
  - split; [by apply leb_refl|constructor].
  - destruct (ltb x m) eqn:Hc.
    + destruct (IH x Hx) as [H1 H2]. split; [|by constructor].
      apply (leb_trans _ x); [done|by apply ltb_leb].
    + destruct (IH m Hm) as [H1 H2]. split; [done|]. constructor; [|done].
      apply (leb_trans _ m); [done|by apply ltb_false].
Qed.

(** [min(xs)] is below and [max(xs)] above every item, hence the first below
    the second. *)
Lemma py_min_max_bounds xs (lo hi : F) :
  Forall comparable xs → py_min xs = Some lo → py_max xs = Some hi →
  Forall (λ x, leb lo x = true ∧ leb x hi = true) xs ∧ leb lo hi = true.
Proof.
  destruct xs as [|x xs]; [done|]. simpl.
  intros [Hx Hxs]%Forall_cons [= <-] [= <-].
  destruct (fold_max_bounds xs x Hx Hxs) as [Hx1 Hmax].
  destruct (fold_min_bounds xs x Hx Hxs) as [Hx0 Hmin].
  split; [|by apply (leb_trans _ x)].
  constructor; [done|].
  rewrite Forall_forall in *. intros y Hy. split; [by apply Hmin|by apply Hmax].
Qed.

(** The best and the worst score of a topic are the maximum and the minimum
    of at least one score, so the worst is not above the best. *)
Lemma get_topic_performance_worst_best (db : Firestore F) (topic : string)
    (stats : TopicStats F) :
  comparable_scores db →
  get topic (get_topic_performance db) = Some stats →
  1 ≤ tp_total_quizzes stats ∧
  Forall (λ x, leb (tp_worst_score stats) x = true ∧ leb x (tp_best_score stats) = true)
         (tp_scores stats) ∧
  leb (tp_worst_score stats) (tp_best_score stats) = true.
Proof.
  intros Hdb Hget.
  destruct (get_topic_performance_total_quizzes db topic stats Hget) as [Htotal _].
  destruct (get_topic_performance_entry comparable db topic stats Hdb Hget)
    as (entry & [Hne Hcount] & Hscores & Hstats).
  split; [done|].
  destruct (topic_stats_Some entry stats Hne Hstats) as (Hsc & _ & _ & Hmax & Hmin).
  apply py_min_max_bounds; [by rewrite Hsc|done|done].
Qed.
End Ordered.

(** The rationals satisfy the laws. *)
Lemma Q_ltb_true (a b : Q) : Q_ltb a b = true → (a < b)%Q.
Proof.
  unfold Q_ltb. destruct (a ?= b)%Q eqn:Hc; try discriminate.
  intros _. by apply Qlt_alt.
Qed.

Lemma Q_ltb_false (a b : Q) : Q_ltb a b = false → (b <= a)%Q.
Proof.
  unfold Q_ltb. destruct (a ?= b)%Q eqn:Hc; try discriminate; intros _.
  - apply Qeq_alt in Hc. rewrite Hc. apply Qle_refl.
  - apply Qlt_le_weak. by apply Qgt_alt.
Qed.

Lemma exact_leb_refl (x : Q) : True → leb x x = true.
Proof. intros _. apply Qle_bool_iff, Qle_refl. Qed.

Lemma exact_leb_trans (x y z : Q) : leb x y = true → leb y z = true → leb x z = true.
Proof.
  intros Hxy%Qle_bool_iff Hyz%Qle_bool_iff.
  apply Qle_bool_iff. by apply Qle_trans with y.
Qed.

Lemma exact_ltb_leb (x y : Q) : ltb x y = true → leb x y = true.
Proof. intros Hxy%Q_ltb_true. by apply Qle_bool_iff, Qlt_le_weak. Qed.

Lemma exact_ltb_false (x y : Q) : True → True → ltb x y = false → leb y x = true.
Proof. intros _ _ Hxy%Q_ltb_false. by apply Qle_bool_iff. Qed.

#[export] Instance exact_order : @OrderLaws Q exact := {|
  comparable := λ _, True;
  comparable_zero := I;
  leb_refl := exact_leb_refl;
  leb_trans := exact_leb_trans;
  ltb_leb := exact_ltb_leb;
  ltb_false := exact_ltb_false
|}.

(** So does binary64 away from nan: [SFcompare] orders signs, then
    exponents, then mantissas. *)
Ltac compare_cases :=
  repeat match goal with
  | H : context [PosDef.Pos.compare_cont Eq ?a ?b] |- _ =>
      change (PosDef.Pos.compare_cont Eq a b) with (Pos.compare a b) in H
  | |- context [PosDef.Pos.compare_cont Eq ?a ?b] =>
      change (PosDef.Pos.compare_cont Eq a b) with (Pos.compare a b)
  end;
  repeat match goal with
  | H : context [Z.compare ?a ?b] |- _ => destruct (Z.compare_spec a b); simpl in H
  | H : context [Pos.compare ?a ?b] |- _ => destruct (Pos.compare_spec a b); simpl in H
  | |- context [Z.compare ?a ?b] => destruct (Z.compare_spec a b); simpl
  | |- context [Pos.compare ?a ?b] => destruct (Pos.compare_spec a b); simpl
  end;
  try done; try lia.

Lemma SFleb_trans (x y z : spec_float) :
  SFleb x y = true → SFleb y z = true → SFleb x z = true.
Proof.
  unfold SFleb, SFcompare.
  destruct x as [sx|sx| |sx mx ex], y as [sy|sy| |sy my ey], z as [sz|sz| |sz mz ez];
    try done;
    try destruct sx; try destruct sy; try destruct sz; try done;
    intros Hxy Hyz; compare_cases.
Qed.

Lemma SFleb_refl (x : spec_float) : x ≠ S754_nan → SFleb x x = true.
Proof.
  unfold SFleb, SFcompare. destruct x as [s|s| |s m e]; try done; intros _.
  - by destruct s.
  - destruct s; compare_cases.
Qed.

Lemma SFltb_leb (x y : spec_float) : SFltb x y = true → SFleb x y = true.
Proof.
  unfold SFltb, SFleb. by destruct (SFcompare x y) as [[]|].
Qed.

Lemma SFltb_false_leb (x y : spec_float) :
  x ≠ S754_nan → y ≠ S754_nan → SFltb x y = false → SFleb y x = true.
Proof.
  unfold SFltb, SFleb, SFcompare.
  destruct x as [sx|sx| |sx mx ex], y as [sy|sy| |sy my ey];
    try done; intros _ _;
    try destruct sx; try destruct sy; try done;
    intros Hxy; compare_cases.
Qed.

Lemma b64_zero_not_nan : b64_of_int 0 ≠ S754_nan.
Proof. discriminate. Qed.

#[export] Instance binary64_order : @OrderLaws spec_float binary64 := {|
  comparable := λ x, x ≠ S754_nan;
  comparable_zero := b64_zero_not_nan;
  leb_refl := SFleb_refl;
  leb_trans := SFleb_trans;
  ltb_leb := SFltb_leb;
  ltb_false := SFltb_false_leb
|}.

(** *** Exact arithmetic *)

Section Exact.
Local Open Scope Q_scope.
Implicit Types (xs : list Q) (db : Firestore Q).

Lemma len_cons (x : Q) xs : len (x :: xs) == len xs + 1.
Proof.
  unfold len. simpl length. rewrite Nat2Z.inj_succ, <- Z.add_1_r.
  by rewrite inject_Z_plus.
Qed.

Lemma len_pos xs : xs ≠ [] → 0 < len xs.
Proof.
  intros Hne. unfold len. destruct xs as [|x xs]; [done|].
  change 0 with (inject_Z 0). rewrite <- Zlt_Qlt. simpl length. lia.
Qed.

(** A sum of items between [lo] and [hi]. *)
Lemma fold_sum_bounds (lo hi : Q) xs (acc : Q) :
  Forall (λ x, lo <= x <= hi) xs →
  acc + lo * len xs <= fold_left Qplus xs acc <= acc + hi * len xs.
Proof.
  intros Hxs. revert acc. induction Hxs as [|x xs [Hlo Hhi] Hxs IH]; intros acc.
  - change (len []) with 0. simpl fold_left. split; lra.
  - simpl fold_left. destruct (IH (acc + x)) as [IH1 IH2].
    rewrite len_cons. split; lra.
Qed.

Lemma py_sum_bounds (lo hi : Q) xs :
  Forall (λ x, lo <= x <= hi) xs →
  lo * len xs <= py_sum xs <= hi * len xs.
Proof.
  intros Hxs. destruct (fold_sum_bounds lo hi xs (inject_Z 0) Hxs) as [H1 H2].
  unfold py_sum. simpl. change (inject_Z 0) with 0 in *. split; lra.
Qed.

(** The mean of a non-empty list is defined, and lies between any bounds of
    the items. *)
Lemma py_mean_bounds (lo hi : Q) xs :
  xs ≠ [] → Forall (λ x, lo <= x <= hi) xs →
  ∃ m, py_mean xs = Some m ∧ lo <= m <= hi.
Proof.
  intros Hne Hxs. pose proof (len_pos xs Hne) as Hlen.
  destruct (py_sum_bounds lo hi xs Hxs) as [H1 H2].
  unfold py_mean. simpl. unfold Q_truediv. fold (len xs).
  destruct (Qeq_bool (len xs) 0) eqn:Hz.
  - apply Qeq_bool_eq in Hz. lra.
  - eexists. split; [reflexivity|]. split.
    + by apply Qle_shift_div_l.
    + apply Qle_shift_div_r; [done|]. lra.
Qed.

Lemma py_mean_is_Some xs : xs ≠ [] → is_Some (py_mean xs).
Proof.
  intros Hne. pose proof (len_pos xs Hne) as Hlen.
  unfold py_mean. simpl. unfold Q_truediv. fold (len xs).
  destruct (Qeq_bool (len xs) 0) eqn:Hz; [|by eexists].
  apply Qeq_bool_eq in Hz. lra.
Qed.

(** Its percentage lies between 0 and 100. *)
Lemma scored_percentage (quiz : QuizScore Q) :
  scored quiz → 0 <= percentage_of quiz <= 100.
Proof.
  intros (topic & score & total & t & [H0 H1] & Hdoc).
  unfold score_data in Hdoc. simpl in Hdoc. unfold Q_truediv in Hdoc.
  destruct (Qeq_bool (inject_Z total) 0) eqn:Hz; simpl in Hdoc; [done|].
  injection Hdoc as <-. unfold percentage_of. simpl.
  apply Qeq_bool_neq in Hz.
  assert (Htotal : 0 < inject_Z total).
  { change 0 with (inject_Z 0). rewrite <- Zlt_Qlt.
    destruct (decide (total = 0%Z)) as [->|]; [by destruct Hz|lia]. }
  assert (Hs0 : 0 <= inject_Z score).
  { change 0 with (inject_Z 0). by rewrite <- Zle_Qle. }
  assert (Hs1 : inject_Z score <= inject_Z total) by by rewrite <- Zle_Qle.
  assert (Hr0 : 0 <= inject_Z score / inject_Z total).
  { apply Qle_shift_div_l; [done|]. lra. }
  assert (Hr1 : inject_Z score / inject_Z total <= 1).
  { apply Qle_shift_div_r; [done|]. lra. }
  change (inject_Z 100) with 100. split; lra.
Qed.



(** In exact arithmetic the average of a topic lies between its worst and
    its best score. *)
Lemma get_topic_performance_average db (topic : string) (stats : TopicStats Q) :
  get topic (get_topic_performance db) = Some stats →
  tp_worst_score stats <= tp_average_score stats <= tp_best_score stats.
Proof.
  intros Hget.
  assert (Hcomparable : comparable_scores db).
  { intros docs _. by apply Forall_forall. }
  destruct (get_topic_performance_worst_best db topic stats Hcomparable Hget)
    as (Htotal & Hbounds & _).
  destruct (get_topic_performance_entry (λ _, True) db topic stats)
    as (entry & [Hne Hcount] & _ & Hstats); [|done|].
  { intros docs _. by apply Forall_forall. }
  destruct (topic_stats_Some entry stats Hne Hstats) as (Hsc & _ & Hmean & _).
  destruct (py_mean_bounds (tp_worst_score stats) (tp_best_score stats) (tp_scores stats))
    as (m & Hm & Hrange).
  - by rewrite Hsc.
  - eapply Forall_impl; [exact Hbounds|]. simpl.
    intros x [H1%Qle_bool_iff H2%Qle_bool_iff]. done.
  - rewrite Hmean in Hm. by injection Hm as <-.
Qed.
End Exact.

(** *** Binary64 *)

(** C10. As stated, the bound fails in binary64: after three quizzes with 1
    answer of 9 right, each percentage is 11.11111111111111 and so is the
    worst score of the topic, but [sum(scores) / len(scores)] is
    11.111111111111109, below the worst score. *)
Lemma average_below_worst_score :
  ∃ stats,
    get "Recursion" (get_topic_performance nine_question_quizzes) = Some stats ∧
    tp_total_quizzes stats = 3 ∧
    tp_worst_score stats = S754_finite false 6254999482459022 (-49) ∧
    tp_average_score stats = S754_finite false 6254999482459021 (-49) ∧
    leb (tp_worst_score stats) (tp_average_score stats) = false.
Proof. eexists. split_and!; vm_compute; reflexivity. Qed.

(** C10. Amended: for every topic of [get_topic_performance],
    [total_quizzes] is at least 1 and [worst_score ≤ best_score], in
    binary64 when no percentage is nan; [worst_score ≤ average_score ≤
    best_score] when the arithmetic is exact. *)
Theorem topic_performance_bounds :
  (∀ (db : Firestore spec_float) (topic : string) (stats : TopicStats spec_float),
     comparable_scores db →
     get topic (get_topic_performance db) = Some stats →
     1 ≤ tp_total_quizzes stats ∧
     SFleb (tp_worst_score stats) (tp_best_score stats) = true) ∧
  (∀ (db : Firestore Q) (topic : string) (stats : TopicStats Q),
     get topic (get_topic_performance db) = Some stats →
     1 ≤ tp_total_quizzes stats ∧
     (tp_worst_score stats <= tp_average_score stats <= tp_best_score stats)%Q).
Proof.
  split.
  - intros db topic stats Hdb Hget.
    destruct (get_topic_performance_worst_best db topic stats Hdb Hget) as (? & _ & ?).
    done.
  - intros db topic stats Hget. split.
    + by destruct (get_topic_performance_total_quizzes db topic stats Hget).
    + by apply (get_topic_performance_average db topic).
Qed.

(** [topic_performance_bounds] on the three 1-of-9 quizzes in binary64, and
    on the records [{Python, 80}, {Python, 60}, {SQL, 50}] in exact
    arithmetic. *)
Lemma topic_performance_bounds_witness :
  (∃ stats,
     get "Recursion" (get_topic_performance nine_question_quizzes) = Some stats ∧
     1 ≤ tp_total_quizzes stats ∧
     SFleb (tp_worst_score stats) (tp_best_score stats) = true) ∧
  (∃ stats,
     get "Python" (get_topic_performance (three_records_db (F:=Q) blank None))
     = Some stats ∧
     1 ≤ tp_total_quizzes stats ∧
     (tp_worst_score stats <= tp_average_score stats <= tp_best_score stats)%Q).
Proof.
  destruct topic_performance_bounds as [Hfloat Hexact]. split.
  - eexists. split; [vm_compute; reflexivity|].
    eapply (Hfloat nine_question_quizzes "Recursion").
    + intros docs [= <-]. vm_compute. repeat constructor; discriminate.
    + vm_compute. reflexivity.
  - eexists. split; [vm_compute; reflexivity|].
    eapply (Hexact (three_records_db blank None) "Python"). vm_compute. reflexivity.
Defined.

End AnalyticsFacts.

(** ** Plan generation *)

Module PlanFacts.
Import PyDict PyJson Db Ai Statements.

Section Fallback.
Variable json_loads : string → option json.

(** Whatever goes wrong in the inner [try], the function still succeeds,
    with the text plan. *)
Lemma generate_plan_with_groq_text_plan
    (content subject learning_goal current_level time_commitment additional_context : string) :
  structured_plan json_loads subject content = None →
  generate_plan_with_groq json_loads (inr content) subject learning_goal
    current_level time_commitment additional_context
  = (true, text_plan subject current_level time_commitment content).
Proof. intros Hplan. unfold generate_plan_with_groq. by rewrite Hplan. Qed.

(** C7. When the response of the text service is not a JSON document,
    [generate_plan_with_groq] returns success with the text plan: its
    [overview] is the raw response, its [modules] and [milestones] are
    empty lists. *)
Theorem generate_plan_with_groq_not_json
    (content subject learning_goal current_level time_commitment additional_context : string) :
  json_loads content = None →
  let result :=
    generate_plan_with_groq json_loads (inr content) subject learning_goal
      current_level time_commitment additional_context in
  result.1 = true ∧
  result.2 = text_plan subject current_level time_commitment content ∧
  plan_field "overview" result.2 = Some (JStr content) ∧
  plan_field "modules" result.2 = Some (JList []) ∧
  plan_field "milestones" result.2 = Some (JList []).
Proof.
  intros Hloads result. subst result.
  rewrite generate_plan_with_groq_text_plan.
  - split_and!; reflexivity.
  - unfold structured_plan. by rewrite Hloads.
Qed.
End Fallback.

(** [generate_plan_with_groq_not_json] on a Markdown answer, for a decoder
    that only accepts the empty object. *)
Lemma generate_plan_with_groq_not_json_witness :
  let result :=
    generate_plan_with_groq loads_empty_object (inr "## Roadmap: week 1, variables")
      "Python" "Build a web application" "Beginner" "3-5 hours/week" "" in
  result.1 = true ∧
  plan_field "overview" result.2 = Some (JStr "## Roadmap: week 1, variables") ∧
  plan_field "modules" result.2 = Some (JList []) ∧
  plan_field "milestones" result.2 = Some (JList []).
Proof.
  intros result.
  destruct (generate_plan_with_groq_not_json loads_empty_object
              "## Roadmap: week 1, variables"
              "Python" "Build a web application" "Beginner" "3-5 hours/week" "")
    as (H1 & _ & H2 & H3 & H4).
  - reflexivity.
  - split_and!; [exact H1|exact H2|exact H3|exact H4].
Defined.

End PlanFacts.

(** ** Learning insights *)

Module InsightsFacts.
Import PyNum PyDict Integrations Statements.

Section AnyArithmetic.
Context {F : Type} `{Arith F}.

(** The blocks of [get_user_learning_insights] in its result. *)
Lemma get_user_learning_insights_blocks
    (get_real_time_activity : string → string → fetched GithubActivity)
    (get_detailed_analytics : string → fetched (UdemyAnalytics F))
    (github_data udemy_data : option IntegrationData) (user_email : string)
    (insights : Insights F) :
  get_user_learning_insights get_real_time_activity get_detailed_analytics
    github_data udemy_data user_email = Some insights →
  recommendations insights = recommendations_of (github insights) (udemy insights) ∧
  overall_score_of (github insights) (udemy insights) = Some (overall_score insights).
Proof.
  unfold get_user_learning_insights.
  destruct (fetch_github _ github_data) as [g|]; simpl; [|done].
  destruct (overall_score_of g _) as [score|] eqn:Hscore; simpl; [|done].
  intros [= <-]. simpl. done.
Qed.

(** C3. With both snapshots present, "Python" among the GitHub languages
    and "Data Science" not among the Udemy categories, the recommendations
    contain the data-science suggestion exactly once. *)
Theorem data_science_suggested_once (g : GithubInsight) (u : UdemyInsight F) :
  "Python" ∈ gh_languages g →
  "Data Science" ∉ ud_categories u →
  occurrences data_science_suggestion (recommendations_of (Some g) (Some u)) = 1%nat.
Proof.
  intros Hpython Hds. unfold recommendations_of, occurrences.
  rewrite bool_decide_eq_true_2 by (by apply elem_of_list_to_set).
  rewrite bool_decide_eq_false_2 by (by rewrite elem_of_list_to_set).
  simpl andb. cbv iota.
  destruct (_ && _); reflexivity.
Qed.
End AnyArithmetic.

(** [data_science_suggested_once] for a Python and Go programmer with a
    course on web development. *)
Lemma data_science_suggested_once_witness :
  occurrences data_science_suggestion
    (recommendations_of
       (Some {| gh_total_commits := 120; gh_active_repos := 2;
                gh_languages := ["Go"; "Python"]; gh_recent_activity := [] |})
       (Some {| ud_completion_rate := 50%Q; ud_total_courses := 2;
                ud_learning_hours := 12%Q; ud_categories := ["Web Development"] |}))
  = 1%nat.
Proof.
  apply (data_science_suggested_once (F:=Q)).
  - simpl. apply elem_of_cons. right. apply elem_of_cons. by left.
  - simpl. rewrite list_elem_of_singleton. discriminate.
Defined.

(** C2. A GitHub snapshot with 100 commits and 3 languages scores
    min(100/10, 30) + 3×5 = 25, a Udemy snapshot with a completion rate of
    80 and 2 categories scores 80/2 + 2×3 = 46, and together their
    [overall_score] is 71; in binary64 and in exact arithmetic alike. *)
Theorem overall_score_example :
  (∀ (l1 l2 l3 c1 c2 : string) (repos courses : Z) (recent : list Commit)
     (hours : spec_float),
     let g := github_100 l1 l2 l3 repos recent in
     let u := udemy_80 c1 c2 courses hours in
     learning_score (Some g) None = Some (of_int 25) ∧
     learning_score None (Some u) = Some (of_int 46) ∧
     learning_score (Some g) (Some u) = Some (of_int 71) ∧
     overall_score_of (Some g) (Some u) = Some 71) ∧
  (∀ (l1 l2 l3 c1 c2 : string) (repos courses : Z) (recent : list Commit)
     (hours : Q),
     let g := github_100 l1 l2 l3 repos recent in
     let u := udemy_80 c1 c2 courses hours in
     (∃ s, learning_score (Some g) None = Some s ∧ (s == 25)%Q) ∧
     (∃ s, learning_score None (Some u) = Some s ∧ (s == 46)%Q) ∧
     (∃ s, learning_score (Some g) (Some u) = Some s ∧ (s == 71)%Q) ∧
     overall_score_of (Some g) (Some u) = Some 71).
Proof.
  split; intros l1 l2 l3 c1 c2 repos courses recent hours g u.
  - split_and!; vm_compute; reflexivity.
  - split_and!; try (eexists; split; [vm_compute; reflexivity|reflexivity]).
    vm_compute. reflexivity.
Qed.

(** *** The range of the overall score *)

Lemma round_half_even_nonneg (n d : Z) : 0 ≤ n → 0 < d → 0 ≤ round_half_even n d.
Proof.
  intros Hn Hd. unfold round_half_even.
  assert (0 ≤ n / d) by (apply Z.div_pos; lia).
  destruct (2 * (n mod d) ?= d); [destruct (Z.even (n / d))|..]; lia.
Qed.

Section Exact.
Local Open Scope Q_scope.

Lemma Q_round_nonneg (s : Q) :
  0 <= s → round s = Some (round_half_even (Qnum s) (Zpos (Qden s)))
           ∧ (0 ≤ round_half_even (Qnum s) (Zpos (Qden s)))%Z.
Proof.
  intros Hs. split; [reflexivity|].
  apply round_half_even_nonneg; [|done].
  unfold Qle in Hs. simpl in Hs. lia.
Qed.

Lemma py_min2_nonneg (a b : Q) : 0 <= a → 0 <= b → 0 <= py_min2 a b.
Proof. intros Ha Hb. unfold py_min2. by destruct (ltb b a). Qed.

Lemma inject_Z_nonneg (n : Z) : (0 ≤ n)%Z → 0 <= inject_Z n.
Proof. intros Hn. change 0 with (inject_Z 0). by rewrite <- Zle_Qle. Qed.

Lemma add_github_points_nonneg (score : Q) (g : GithubInsight) :
  0 <= score → (0 ≤ gh_total_commits g)%Z →
  ∃ s, add_github_points score g = Some s ∧ 0 <= s.
Proof.
  intros Hscore Hcommits. unfold add_github_points. simpl.
  unfold Q_truediv. change (Qeq_bool (inject_Z 10) 0) with false. simpl.
  eexists. split; [reflexivity|].
  assert (Htenth : 0 <= inject_Z (gh_total_commits g) / inject_Z 10).
  { apply Qle_shift_div_l; [done|]. pose proof (inject_Z_nonneg _ Hcommits). lra. }
  pose proof (py_min2_nonneg _ (inject_Z 30) Htenth ltac:(done)) as Hmin.
  pose proof (inject_Z_nonneg (Z.of_nat (length (gh_languages g)) * 5) ltac:(lia)).
  lra.
Qed.

Lemma add_udemy_points_nonneg (score : Q) (u : UdemyInsight Q) :
  0 <= score → 0 <= ud_completion_rate u →
  ∃ s, add_udemy_points score u = Some s ∧ 0 <= s.
Proof.
  intros Hscore Hrate. unfold add_udemy_points. simpl.
  unfold Q_truediv. change (Qeq_bool (inject_Z 2) 0) with false. simpl.
  eexists. split; [reflexivity|].
  assert (Hhalf : 0 <= ud_completion_rate u / inject_Z 2).
  { apply Qle_shift_div_l; [done|]. lra. }
  pose proof (inject_Z_nonneg (Z.of_nat (length (ud_categories u)) * 3) ltac:(lia)).
  lra.
Qed.

Lemma learning_score_nonneg (github : option GithubInsight)
    (udemy : option (UdemyInsight Q)) :
  (∀ g, github = Some g → (0 ≤ gh_total_commits g)%Z) →
  (∀ u, udemy = Some u → 0 <= ud_completion_rate u) →
  ∃ s, learning_score github udemy = Some s ∧ 0 <= s.
Proof.
  intros Hg Hu. unfold learning_score.
  assert (H1 : ∃ s1,
    match github with
    | Some g => add_github_points (of_int 0) g
    | None => Some (of_int 0)
    end = Some s1 ∧ 0 <= s1).
  { destruct github as [g|].
    - apply add_github_points_nonneg; [done|]. by apply Hg.
    - by eexists. }
  destruct H1 as (s1 & -> & Hs1). simpl.
  destruct udemy as [u|].
  - apply add_udemy_points_nonneg; [done|]. by apply Hu.
  - by eexists.
Qed.

End Exact.


End InsightsFacts.

(** * Further properties *)

(** ** More on the learning streak *)

Module StreakMore.
Import PyNum PyDict Db Statements MoreStatements StreakFacts.

#[local] Instance newer_first_transitive : Transitive newer_first.
Proof. unfold newer_first. intros a b c ? ?. lia. Qed.

#[local] Instance newer_first_is_total : Total newer_first.
Proof. unfold newer_first. intros a b. lia. Qed.

(** The loop neither loses nor invents days: from a counter [n] it ends
    between [n] and [n] plus the number of days, and it raises nothing when
    the expected day is far enough from [date.min]. *)
Lemma streak_loop_bounds (ds : list Z) (n e : Z) :
  date_min + 2 * Z.of_nat (length ds) + 1 ≤ e ≤ date_max →
  ∃ r, streak_loop ds n e = Some r ∧ n ≤ r ≤ n + Z.of_nat (length ds).
Proof.
  unfold date_min, date_max. revert n e.
  induction ds as [|d ds IH]; intros n e He.
  - exists n. simpl. split; [done|lia].
  - simpl length in *. destruct (decide (d = e)) as [->|Hne].
    + rewrite streak_loop_expected by (unfold date_min, date_max; lia).
      destruct (IH (n + 1) (e - 1)) as (r & -> & Hr); [lia|].
      exists r. split; [done|lia].
    + destruct (decide (d = e - 1)) as [->|Hne'].
      * rewrite streak_loop_day_before by (unfold date_min, date_max; lia).
        destruct (IH (n + 1) (e - 1 - 1)) as (r & -> & Hr); [lia|].
        exists r. split; [done|lia].
      * rewrite streak_loop_break by (unfold date_min, date_max; lia).
        exists n. split; [done|lia].
Qed.

(** When it does raise, the handler answers 0; so whatever happens the loop
    contributes at most one per day. *)
Lemma streak_loop_at_most (ds : list Z) (n e : Z) :
  0 ≤ n → 0 ≤ default 0 (streak_loop ds n e) ≤ n + Z.of_nat (length ds).
Proof.
  revert n e. induction ds as [|d ds IH]; intros n e Hn; simpl.
  - lia.
  - destruct (d =? e).
    + destruct (date_sub_days d 1) as [next|]; simpl; [|lia].
      specialize (IH (n + 1) next). lia.
    + destruct (date_sub_days e 1) as [day_before|]; simpl; [|lia].
      destruct (d =? day_before); simpl; [|lia].
      destruct (date_sub_days d 1) as [next|]; simpl; [|lia].
      specialize (IH (n + 1) next). lia.
Qed.

Section Streak.
Context {F : Type}.
Implicit Types (db : Firestore F) (docs : list (QuizScore F)).

Lemma quiz_dates_of_length docs : (length (quiz_dates_of docs) ≤ length docs)%nat.
Proof.
  unfold quiz_dates_of.
  assert (Hgen : ∀ acc, (length (fold_left add_quiz_date docs acc)
                         ≤ length acc + length docs)%nat).
  { induction docs as [|doc docs IH]; intros acc; simpl; [lia|].
    specialize (IH (add_quiz_date acc doc)).
    assert ((length (add_quiz_date acc doc) ≤ S (length acc))%nat).
    { unfold add_quiz_date. destruct (completed_at doc); [|lia].
      case_bool_decide; [lia|]. rewrite length_app. simpl. lia. }
    lia. }
  specialize (Hgen []). simpl in Hgen. lia.
Qed.

(** X1. Whatever the documents and the day, [get_learning_streak] returns
    an integer between 0 and 30: it only looks at the 30 most recent
    documents, so a longer streak is reported as 30 at most. *)
Theorem get_learning_streak_at_most_30 db (today : Z) :
  0 ≤ get_learning_streak today db ≤ 30.
Proof.
  unfold get_learning_streak, learning_streak_of, limit.
  destruct (quiz_scores_desc db) as [docs|]; simpl; [|lia].
  pose proof (quiz_dates_of_length (take 30 docs)) as Hlen.
  rewrite length_take in Hlen.
  destruct (quiz_dates_of (take 30 docs)) as [|d ds] eqn:Hq; simpl; [lia|].
  pose proof (streak_loop_at_most (merge_sort newer_first (d :: ds)) 0 today) as Hloop.
  rewrite (Permutation_length (merge_sort_Permutation newer_first (d :: ds))) in Hloop.
  simpl length in *. lia.
Qed.

(** The newest day comes first after sorting. *)
Lemma sort_newer_first_head (l : list Z) (newest : Z) :
  newest ∈ l → (∀ d, d ∈ l → d ≤ newest) →
  ∃ rest, merge_sort newer_first l = newest :: rest.
Proof.
  intros Hin Hmax.
  pose proof (merge_sort_Permutation newer_first l) as Hperm.
  pose proof (StronglySorted_merge_sort newer_first l) as Hsorted.
  destruct (merge_sort newer_first l) as [|h t].
  - rewrite <- Hperm in Hin. by apply elem_of_nil in Hin.
  - exists t. f_equal.
    assert (h ≤ newest) by (apply Hmax; rewrite <- Hperm; apply elem_of_cons; by left).
    rewrite <- Hperm in Hin. apply elem_of_cons in Hin as [->|Hin]; [done|].
    apply StronglySorted_inv in Hsorted as [_ Hall].
    rewrite Forall_forall in Hall. specialize (Hall _ Hin).
    unfold newer_first in Hall. lia.
Qed.

(** X2. The streak is 0 exactly when the newest quiz day among the 30 most
    recent documents is neither today nor yesterday; a newest day in the
    future (a timestamp ahead of the local clock) also gives 0. *)
Theorem get_learning_streak_zero_iff db docs (today newest : Z) :
  date_min + 61 ≤ today ≤ date_max →
  quiz_scores_desc db = Some docs →
  (∃ doc, doc ∈ take 30 docs ∧ day_of doc = Some newest) →
  (∀ doc d, doc ∈ take 30 docs → day_of doc = Some d → d ≤ newest) →
  get_learning_streak today db = 0 ↔ newest ≠ today ∧ newest ≠ today - 1.
Proof.
  unfold date_min, date_max. intros Htoday Hdb Hnewest Hmax.
  unfold get_learning_streak, learning_streak_of, limit. rewrite Hdb. simpl.
  pose proof (quiz_dates_of_length (take 30 docs)) as Hlen.
  rewrite length_take in Hlen.
  destruct (sort_newer_first_head (quiz_dates_of (take 30 docs)) newest)
    as [rest Hsort].
  { by apply elem_of_quiz_dates_day. }
  { intros d (doc & Hdoc & Hd)%elem_of_quiz_dates_day. by apply (Hmax doc). }
  assert (Hrest : (length rest ≤ 29)%nat).
  { pose proof (Permutation_length
      (merge_sort_Permutation newer_first (quiz_dates_of (take 30 docs)))) as Hl.
    rewrite Hsort in Hl. simpl in Hl. lia. }
  destruct (quiz_dates_of (take 30 docs)) as [|d0 ds] eqn:Hq.
  { vm_compute in Hsort. discriminate. }
  rewrite Hsort.
  destruct (decide (newest = today)) as [->|Hne].
  { rewrite streak_loop_expected by (unfold date_min, date_max; lia).
    destruct (streak_loop_bounds rest (0 + 1) (today - 1)) as (r & -> & Hr).
    { unfold date_min, date_max. lia. }
    simpl. split; [lia|]. intros [? _]. done. }
  destruct (decide (newest = today - 1)) as [->|Hne'].
  { rewrite streak_loop_day_before by (unfold date_min, date_max; lia).
    destruct (streak_loop_bounds rest (0 + 1) (today - 1 - 1)) as (r & -> & Hr).
    { unfold date_min, date_max. lia. }
    simpl. split; [lia|]. intros [_ ?]. done. }
  rewrite streak_loop_break by (unfold date_min, date_max; lia).
  simpl. done.
Qed.

(** Along a chain every day counts. *)
Lemma streak_loop_chain (ds : list Z) (n e : Z) :
  chain e ds →
  date_min + 2 * Z.of_nat (length ds) + 1 ≤ e ≤ date_max →
  streak_loop ds n e = Some (n + Z.of_nat (length ds)).
Proof.
  unfold date_min, date_max. revert n e.
  induction ds as [|d ds IH]; intros n e Hchain He.
  - simpl. f_equal. lia.
  - destruct Hchain as [Hd Hchain]. simpl length in *.
    destruct Hd as [->| ->].
    + rewrite streak_loop_expected by (unfold date_min, date_max; lia).
      rewrite IH by (done || lia). f_equal. lia.
    + rewrite streak_loop_day_before by (unfold date_min, date_max; lia).
      rewrite IH by (done || lia). f_equal. lia.
Qed.

(** The days of a chain decrease strictly, and lie at or below the expected
    day. *)
Lemma chain_sorted (ds : list Z) (e : Z) :
  chain e ds → Forall (λ d, d ≤ e) ds ∧ Sorted newer_first ds ∧ NoDup ds.
Proof.
  revert e. induction ds as [|d ds IH]; intros e Hchain.
  - split_and!; constructor.
  - destruct Hchain as [Hd Hchain]. destruct (IH _ Hchain) as (Hle & Hsorted & Hnd).
    assert (Hbelow : Forall (λ d', d' ≤ d - 1) ds) by done.
    split_and!.
    + constructor; [lia|]. eapply Forall_impl; [exact Hbelow|]. simpl. lia.
    + constructor; [done|]. destruct ds as [|d' ds']; constructor.
      apply Forall_cons in Hbelow as [? _]. unfold newer_first. lia.
    + apply NoDup_cons. split; [|done]. intros Hin.
      rewrite Forall_forall in Hbelow. specialize (Hbelow _ Hin). lia.
Qed.

(** Documents of pairwise different days yield exactly these days. *)
Lemma quiz_dates_of_distinct docs (ds : list Z) :
  day_of <$> docs = Some <$> ds → NoDup ds → quiz_dates_of docs = ds.
Proof.
  unfold quiz_dates_of. intros Hdays Hnd.
  assert (Hgen : ∀ acc, NoDup (acc ++ ds) → fold_left add_quiz_date docs acc = acc ++ ds).
  { clear Hnd. revert ds Hdays.
    induction docs as [|doc docs IH]; intros ds Hdays acc Hnd.
    - destruct ds; [|done]. simpl. by rewrite app_nil_r.
    - destruct ds as [|d ds]; [done|]. simpl in Hdays.
      injection Hdays as Hdoc Hdays. simpl.
      assert (Hstep : add_quiz_date acc doc = acc ++ [d]).
      { unfold add_quiz_date. unfold day_of in Hdoc.
        destruct (completed_at doc) as [t|]; [|done].
        injection Hdoc as ->. simpl.
        rewrite bool_decide_eq_false_2; [done|].
        apply NoDup_app in Hnd as (_ & Hdisj & _). intros Hin.
        apply (Hdisj _ Hin). apply elem_of_cons. by left. }
      rewrite Hstep. rewrite (IH ds Hdays); [by rewrite <- app_assoc|].
      by rewrite <- app_assoc. }
  by apply (Hgen []).
Qed.

(** X3. A streak may skip days. When the (at most 30) documents have one
    quiz day each and every quiz day is the expected day or the day before
    it (the newest being today or yesterday, the next one or two days
    before it, and so on), every quiz day counts: the streak is the number
    of quiz days, although up to every other day is missing. *)
Theorem get_learning_streak_chain db docs (ds : list Z) (today : Z) :
  date_min + 61 ≤ today ≤ date_max →
  quiz_scores_desc db = Some docs →
  (length docs ≤ 30)%nat →
  day_of <$> docs = Some <$> ds →
  chain today ds →
  get_learning_streak today db = Z.of_nat (length ds).
Proof.
  unfold date_min, date_max. intros Htoday Hdb Hlen Hdays Hchain.
  unfold get_learning_streak, learning_streak_of, limit. rewrite Hdb. simpl.
  rewrite take_ge by lia.
  destruct (chain_sorted ds today Hchain) as (_ & Hsorted & Hnd).
  rewrite (quiz_dates_of_distinct docs ds Hdays Hnd).
  assert (Hlen' : length ds = length docs).
  { apply (f_equal length) in Hdays. by rewrite !length_fmap in Hdays. }
  destruct ds as [|d ds']; [done|].
  rewrite (sort_newer_first _ (d :: ds')) by done.
  rewrite streak_loop_chain; [done|done|].
  unfold date_min, date_max. lia.
Qed.
End Streak.

(** [get_learning_streak_zero_iff] on 3 November 2026: a last quiz on 31
    October gives 0. *)
Lemma get_learning_streak_zero_iff_witness :
  get_learning_streak 739923 (history (F:=Q) [quiz_on 739920; quiz_on 739919]) = 0.
Proof.
  apply (get_learning_streak_zero_iff (history [quiz_on 739920; quiz_on 739919])
           [quiz_on 739920; quiz_on 739919] 739923 739920).
  - unfold date_min, date_max. lia.
  - reflexivity.
  - exists (quiz_on 739920). split; [apply elem_of_cons; by left|reflexivity].
  - intros doc d Hdoc Hd. simpl in Hdoc.
    apply elem_of_cons in Hdoc as [->|Hdoc].
    + injection Hd as <-. lia.
    + apply list_elem_of_singleton in Hdoc as ->. injection Hd as <-. lia.
  - lia.
Defined.

(** [get_learning_streak_chain] on 3 November 2026: quizzes on 3 November,
    1 November and 30 October count as a streak of 3. *)
Lemma get_learning_streak_chain_witness :
  get_learning_streak 739923
    (history (F:=Q) [quiz_on 739923; quiz_on 739921; quiz_on 739919]) = 3.
Proof.
  apply (get_learning_streak_chain
           (history [quiz_on 739923; quiz_on 739921; quiz_on 739919])
           [quiz_on 739923; quiz_on 739921; quiz_on 739919]
           [739923; 739921; 739919] 739923).
  - unfold date_min, date_max. lia.
  - reflexivity.
  - simpl. lia.
  - reflexivity.
  - simpl. lia.
Defined.

End StreakMore.

(** ** Dicts in insertion order *)

Module DictFacts.
Import PyDict MoreStatements.

Section Dict.
Context {V : Type}.
Implicit Types (d : dict V) (f : option V → V) (k : string).

Lemma get_upsert_eq f k d : get k (upsert f k d) = Some (f (get k d)).
Proof.
  induction d as [|[k' v] d IH]; simpl.
  - by rewrite String.eqb_refl.
  - destruct (String.eqb k k') eqn:Hk; simpl; rewrite Hk; [done|exact IH].
Qed.

Lemma get_upsert_ne f k k' d : k ≠ k' → get k' (upsert f k d) = get k' d.
Proof.
  intros Hne.
  assert (Hk' : String.eqb k' k = false) by (apply String.eqb_neq; congruence).
  induction d as [|[k0 v] d IH]; simpl.
  - by rewrite Hk'.
  - destruct (String.eqb k k0) eqn:Hk; simpl.
    + apply String.eqb_eq in Hk as <-. by rewrite Hk'.
    + by rewrite IH.
Qed.

Lemma get_None_keys k d : get k d = None ↔ k ∉ keys d.
Proof.
  unfold keys. induction d as [|[k' v] d IH]; simpl.
  - split; [intros _; apply not_elem_of_nil|done].
  - rewrite not_elem_of_cons. destruct (String.eqb k k') eqn:Hk.
    + apply String.eqb_eq in Hk. split; [done|]. by intros [? _].
    + apply String.eqb_neq in Hk. rewrite IH. tauto.
Qed.

(** A key that is present keeps its place, a new key goes last. *)
Lemma keys_upsert f k d :
  keys (upsert f k d) = if bool_decide (k ∈ keys d) then keys d else keys d ++ [k].
Proof.
  induction d as [|[k' v] d IH].
  - reflexivity.
  - unfold keys in *. cbn [upsert map fst].
    destruct (String.eqb k k') eqn:Hk; cbn [map fst].
    + apply String.eqb_eq in Hk as ->.
      rewrite bool_decide_eq_true_2; [done|]. apply elem_of_cons. by left.
    + apply String.eqb_neq in Hk. rewrite IH.
      destruct (decide (k ∈ map fst d)) as [Hin|Hin].
      * rewrite (bool_decide_eq_true_2 (k ∈ map fst d)) by done.
        rewrite (bool_decide_eq_true_2 (k ∈ k' :: map fst d)); [done|].
        apply elem_of_cons. by right.
      * rewrite (bool_decide_eq_false_2 (k ∈ map fst d)) by done.
        rewrite (bool_decide_eq_false_2 (k ∈ k' :: map fst d)); [done|].
        by apply not_elem_of_cons.
Qed.

Lemma keys_upsert_NoDup f k d : NoDup (keys d) → NoDup (keys (upsert f k d)).
Proof.
  intros Hnd. rewrite keys_upsert. case_bool_decide as Hin; [done|].
  apply NoDup_app. split_and!; [done| |apply NoDup_singleton].
  intros x Hx ->%list_elem_of_singleton. done.
Qed.

Lemma elem_of_get k (v : V) d : NoDup (keys d) → (k, v) ∈ d → get k d = Some v.
Proof.
  unfold keys. induction d as [|[k' v'] d IH]; simpl; intros Hnd Hin.
  - by apply elem_of_nil in Hin.
  - apply NoDup_cons in Hnd as [Hk' Hnd].
    apply elem_of_cons in Hin as [[= <- <-]|Hin].
    + by rewrite String.eqb_refl.
    + destruct (String.eqb k k') eqn:Hk; [|by apply IH].
      apply String.eqb_eq in Hk as ->. destruct Hk'.
      apply list_elem_of_fmap. by exists (k', v).
Qed.
End Dict.

(** Grouping the items of a list by key: what is stored under a key is the
    fold of the steps of the items with that key. *)
Section Grouping.
Context {A V : Type}.
Variable key : A → string.
Variable step : A → option V → V.
Local Abbreviation group := (group key step).

Lemma get_fold_group (l : list A) (d : dict V) (t : string) :
  get t (fold_left group l d)
  = fold_left (λ o a, Some (step a o)) (filter (λ a, key a = t) l) (get t d).
Proof.
  revert d. induction l as [|a l IH]; intros d; simpl; [done|].
  rewrite IH. unfold group.
  destruct (decide (key a = t)) as [<-|Hne].
  - rewrite filter_cons_True by done. simpl. by rewrite get_upsert_eq.
  - rewrite filter_cons_False by done. by rewrite get_upsert_ne.
Qed.

Lemma keys_fold_group_NoDup (l : list A) (d : dict V) :
  NoDup (keys d) → NoDup (keys (fold_left group l d)).
Proof.
  revert d. induction l as [|a l IH]; intros d Hd; simpl; [done|].
  apply IH. by apply keys_upsert_NoDup.
Qed.

Lemma keys_fold_group (l : list A) (d : dict V) (t : string) :
  t ∈ keys (fold_left group l d) ↔ t ∈ keys d ∨ ∃ a, a ∈ l ∧ key a = t.
Proof.
  revert d. induction l as [|a l IH]; intros d; simpl.
  - split; [auto|]. intros [?|(a & Ha & _)]; [done|]. by apply elem_of_nil in Ha.
  - rewrite IH. unfold group. rewrite keys_upsert.
    setoid_rewrite elem_of_cons. case_bool_decide as Hin.
    + split; [intros [?|(a' & ? & ?)]; eauto|].
      intros [?|(a' & [->|?] & <-)]; eauto.
    + rewrite elem_of_app, list_elem_of_singleton.
      split; [intros [[?| ->]|(a' & ? & ?)]; eauto|].
      intros [?|(a' & [->|?] & <-)]; eauto.
Qed.
End Grouping.

(** Mapping the values of a dict with a function that may fail. *)
Lemma get_mapM {V W : Type} (g : V → option W) (d : dict V) (d' : dict W) (t : string) :
  mapM (λ '(k, x), y ← g x; Some (k, y)) d = Some d' →
  get t d' = get t d ≫= g ∧ keys d' = keys d.
Proof.
  intros Hm%mapM_Some_1. induction Hm as [|[k x] [k' y] d d' Hy Hm [IH1 IH2]]; [done|].
  simpl in Hy. destruct (g x) as [y'|] eqn:Hg; simpl in Hy; [|done].
  injection Hy as <- <-. simpl. split; [|by rewrite IH2].
  destruct (String.eqb t k); simpl; [by rewrite Hg|done].
Qed.

End DictFacts.

(** ** More on the analytics *)

Module AnalyticsMore.
Import PyNum PyDict PyJson Db Statements MoreStatements DictFacts AnalyticsFacts.

Section AnyArithmetic.
Context {F : Type} `{Arith F}.
Implicit Types (db : Firestore F) (docs : list (QuizScore F)) (t : string).

Lemma fold_append_scores (qs : list (QuizScore F)) (o : option (list F)) :
  fold_left (λ o quiz, Some (default [] o ++ [percentage_of quiz])) qs o
  = match qs with
    | [] => o
    | _ :: _ => Some (default [] o ++ (percentage_of <$> qs))
    end.
Proof.
  revert o. induction qs as [|q qs IH]; intros o; [done|].
  simpl. rewrite IH. destruct qs as [|q' qs]; simpl; [done|].
  by rewrite <- app_assoc.
Qed.

(** Both grouping loops are instances of [group]. *)
Lemma topic_scores_group docs :
  topic_scores docs = fold_left (group topic_of score_step) docs [].
Proof. reflexivity. Qed.

Lemma topic_data_of_group docs :
  topic_data_of docs = fold_left (group topic_of entry_step) docs [].
Proof. reflexivity. Qed.

(** The scores grouped under a topic are the percentages of its documents,
    in stream order. *)
Lemma topic_scores_get docs t :
  get t (topic_scores docs)
  = match percentages_on t docs with [] => None | ps => Some ps end.
Proof.
  rewrite topic_scores_group, get_fold_group. unfold percentages_on, quizzes_on.
  unfold score_step. rewrite fold_append_scores. simpl.
  by destruct (filter _ docs).
Qed.

Lemma fold_append_entries (qs : list (QuizScore F)) (o : option (TopicAcc F)) :
  fold_left
    (λ o doc,
       Some (let entry := default {| acc_scores := []; acc_total_quizzes := 0 |} o in
             {| acc_scores := acc_scores entry ++ [percentage_of doc];
                acc_total_quizzes := acc_total_quizzes entry + 1 |})) qs o
  = match qs with
    | [] => o
    | _ :: _ =>
        let entry := default {| acc_scores := []; acc_total_quizzes := 0 |} o in
        Some {| acc_scores := acc_scores entry ++ (percentage_of <$> qs);
                acc_total_quizzes := acc_total_quizzes entry + Z.of_nat (length qs) |}
    end.
Proof.
  revert o. induction qs as [|q qs IH]; intros o; [done|].
  simpl fold_left. rewrite IH. destruct qs as [|q' qs].
  - simpl. do 2 f_equal.
  - cbn [default]. cbv zeta. f_equal. f_equal.
    + simpl. by rewrite <- app_assoc.
    + simpl length. simpl acc_total_quizzes. lia.
Qed.

Lemma topic_data_of_get docs t :
  get t (topic_data_of docs)
  = match quizzes_on t docs with
    | [] => None
    | qs => Some {| acc_scores := percentage_of <$> qs;
                    acc_total_quizzes := Z.of_nat (length qs) |}
    end.
Proof.
  rewrite topic_data_of_group, get_fold_group. unfold quizzes_on.
  unfold entry_step. rewrite fold_append_entries. simpl.
  by destruct (filter _ docs).
Qed.

Lemma topic_data_of_keys_NoDup docs : NoDup (keys (topic_data_of docs)).
Proof.
  rewrite topic_data_of_group. apply keys_fold_group_NoDup. constructor.
Qed.

Lemma topic_scores_keys_NoDup docs : NoDup (keys (topic_scores docs)).
Proof.
  rewrite topic_scores_group. apply keys_fold_group_NoDup. constructor.
Qed.

(** The result of [get_topic_performance], when it is not the handler's
    empty dict, maps the entries of the first loop. *)
Lemma get_topic_performance_get db docs t (stats : TopicStats F) :
  quiz_scores db = Some docs →
  get t (get_topic_performance db) = Some stats →
  ∃ entry, get t (topic_data_of docs) = Some entry ∧ topic_stats entry = Some stats.
Proof.
  unfold get_topic_performance, topic_performance_of. intros ->. simpl.
  destruct (mapM _ (topic_data_of docs)) as [result|] eqn:Hm; simpl; [|done].
  destruct (get_mapM topic_stats (topic_data_of docs) result t Hm) as [Hget _].
  rewrite Hget. destruct (get t (topic_data_of docs)) as [entry|]; simpl; [|done].
  eauto.
Qed.

(** X4. [get_topic_performance] groups faithfully: the [scores] of a topic
    are the percentages of the documents of that topic (a missing topic
    being 'Unknown', a missing percentage 0), in stream order, and
    [total_quizzes] is the number of these documents, of which there is at
    least one. *)
Theorem get_topic_performance_groups db docs t (stats : TopicStats F) :
  quiz_scores db = Some docs →
  get t (get_topic_performance db) = Some stats →
  tp_scores stats = percentages_on t docs ∧
  tp_total_quizzes stats = Z.of_nat (length (quizzes_on t docs)) ∧
  quizzes_on t docs ≠ [].
Proof.
  intros Hdb Hget.
  destruct (get_topic_performance_get db docs t stats Hdb Hget) as (entry & Hentry & Hstats).
  rewrite topic_data_of_get in Hentry. unfold percentages_on.
  destruct (quizzes_on t docs) as [|q qs] eqn:Hqs; [done|].
  injection Hentry as <-.
  apply topic_stats_Some in Hstats as (Hsc & Htotal & _); [|discriminate].
  rewrite Hsc, Htotal. done.
Qed.

Lemma fold_topics (docs : list (QuizScore F)) (s : gset string) t :
  t ∈ fold_left (λ s quiz, s ∪ {[ topic_of quiz ]}) docs s
  ↔ t ∈ s ∨ ∃ quiz, quiz ∈ docs ∧ topic_of quiz = t.
Proof.
  revert s. induction docs as [|doc docs IH]; intros s; simpl.
  - split; [auto|]. intros [?|(q & Hq & _)]; [done|]. by apply elem_of_nil in Hq.
  - rewrite IH, elem_of_union, elem_of_singleton. setoid_rewrite elem_of_cons.
    split.
    + intros [[?| ->]|(q & ? & ?)]; eauto.
    + intros [?|(q & [->|?] & <-)]; eauto.
Qed.

(** X5. [topics_studied] lists, each once, exactly the topics of the quiz
    documents ('Unknown' for a document without topic). *)
Theorem topics_studied_are_the_topics db docs (a : Analytics F) :
  quiz_scores_desc db = Some docs →
  get_user_analytics db = Some a →
  NoDup (topics_studied a) ∧
  ∀ t, t ∈ topics_studied a ↔ ∃ quiz, quiz ∈ docs ∧ topic_of quiz = t.
Proof.
  unfold get_user_analytics. intros ->. simpl. unfold analytics_of.
  intros Ha.
  assert (Htopics : topics_studied a
    = elements (fold_left (λ (s : gset string) quiz, s ∪ {[ topic_of quiz ]}) docs ∅)).
  { destruct docs as [|doc docs]; [by injection Ha as <-|].
    destruct (py_mean _) as [avg|]; simpl in Ha; [|done].
    destruct (topic_averages _) as [averages|]; simpl in Ha; [|done].
    by injection Ha as <-. }
  rewrite Htopics. split; [apply NoDup_elements|].
  intros t. rewrite elem_of_elements, fold_topics.
  split; [intros [Hin|?]; [by apply elem_of_empty in Hin|done]|auto].
Qed.
End AnyArithmetic.

(** [get_topic_performance_groups] on the records [{Python, 80},
    {Python, 60}, {SQL, 50}]. *)
Lemma get_topic_performance_groups_witness :
  ∃ stats,
    get "Python" (get_topic_performance (three_records_db (F:=Q) blank None)) = Some stats ∧
    tp_scores stats = [80%Q; 60%Q] ∧ tp_total_quizzes stats = 2.
Proof.
  eexists. split; [vm_compute; reflexivity|].
  destruct (get_topic_performance_groups (three_records_db (F:=Q) blank None)
              (three_records blank) "Python"
              {| tp_scores := [80%Q; 60%Q]; tp_total_quizzes := 2;
                 tp_average_score := (140 # 2)%Q; tp_best_score := 80%Q;
                 tp_worst_score := 60%Q |}) as (H1 & H2 & _).
  - reflexivity.
  - vm_compute. reflexivity.
  - split; [exact H1|exact H2].
Defined.

(** [topics_studied_are_the_topics] on the same records. *)
Lemma topics_studied_are_the_topics_witness :
  ∃ a, get_user_analytics (three_records_db (F:=Q) blank None) = Some a ∧
       NoDup (topics_studied a) ∧ "SQL" ∈ topics_studied a.
Proof.
  destruct (get_user_analytics (three_records_db (F:=Q) blank None)) as [a|] eqn:Ha;
    [|vm_compute in Ha; discriminate].
  exists a. split; [done|].
  destruct (topics_studied_are_the_topics (three_records_db (F:=Q) blank None)
              (three_records blank) a) as [Hnd Hin].
  - reflexivity.
  - exact Ha.
  - split; [exact Hnd|]. apply Hin. eexists. split.
    + apply elem_of_cons. right. apply elem_of_cons. right. apply elem_of_cons.
      left. reflexivity.
    + reflexivity.
Defined.

(** *** The best and the worst topic, in exact arithmetic *)

Section FirstExtremum.
(** [max(d, key=d.get)] and [min(d, key=d.get)] differ by the order they
    test: [below a b] stands for [a < b] in the first and for [b < a] in
    the second. *)
Variable below : Q → Q → Prop.
Variable not_above : Q → Q → Prop.
Variable test : Q → Q → bool.
Hypothesis test_true : ∀ a b, test a b = true → below a b.
Hypothesis test_false : ∀ a b, test a b = false → not_above b a.
Hypothesis below_trans : ∀ a b c, below a b → below b c → below a c.
Hypothesis not_above_below : ∀ a b c, not_above a b → below b c → below a c.

Lemma fold_first_extremum (rest pre mid : dict Q) (kb : string) (vb : Q) :
  Forall (λ kv, below kv.2 vb) pre →
  Forall (λ kv, not_above kv.2 vb) mid →
  let r := fold_left (λ best kv', if test best.2 kv'.2 then kv' else best) rest (kb, vb) in
  ∃ pre' post',
    pre ++ (kb, vb) :: mid ++ rest = pre' ++ r :: post' ∧
    Forall (λ kv, below kv.2 r.2) pre' ∧ Forall (λ kv, not_above kv.2 r.2) post'.
Proof.
  revert pre mid kb vb. induction rest as [|kv rest IH]; intros pre mid kb vb Hpre Hmid.
  - simpl. exists pre, mid. by rewrite app_nil_r.
  - simpl. destruct (test vb kv.2) eqn:Htest.
    + apply test_true in Htest. destruct kv as [k v]. simpl in *.
      destruct (IH (pre ++ (kb, vb) :: mid) [] k v) as (pre' & post' & Heq & H1 & H2).
      * apply Forall_app. split.
        { eapply Forall_impl; [exact Hpre|]. simpl. intros. by eapply below_trans. }
        constructor; [done|].
        eapply Forall_impl; [exact Hmid|]. simpl. intros. by eapply not_above_below.
      * constructor.
      * exists pre', post'. split; [|done]. rewrite <- Heq.
        by rewrite <- !app_assoc.
    + apply test_false in Htest.
      destruct (IH pre (mid ++ [kv]) kb vb) as (pre' & post' & Heq & H1 & H2).
      * done.
      * apply Forall_app. split; [done|]. by constructor.
      * exists pre', post'. split; [|done]. rewrite <- Heq.
        by rewrite <- !app_assoc.
Qed.
End FirstExtremum.

Section Exact.
Local Open Scope Q_scope.
Implicit Types (db : Firestore Q) (docs : list (QuizScore Q)).

Lemma max_key_first_largest (d : dict Q) :
  d ≠ [] → ∃ k, max_key d = Some k ∧ first_largest d k.
Proof.
  destruct d as [|[k0 v0] rest]; [done|]. intros _. simpl.
  destruct (fold_first_extremum Qlt Qle Q_ltb Q_ltb_true Q_ltb_false
              Qlt_trans Qle_lt_trans rest [] [] k0 v0)
    as (pre' & post' & Heq & H1 & H2); [constructor|constructor|].
  simpl in Heq, H1, H2. destruct (fold_left _ rest (k0, v0)) as [k v].
  exists k. split; [reflexivity|]. by exists pre', v, post'.
Qed.

Lemma min_key_first_smallest (d : dict Q) :
  d ≠ [] → ∃ k, min_key d = Some k ∧ first_smallest d k.
Proof.
  destruct d as [|[k0 v0] rest]; [done|]. intros _. simpl.
  destruct (fold_first_extremum (λ a b, b < a) (λ a b, b <= a) (λ a b, Q_ltb b a)
              (λ a b, Q_ltb_true b a) (λ a b, Q_ltb_false b a)
              (λ a b c Hab Hbc, Qlt_trans c b a Hbc Hab)
              (λ a b c Hab Hbc, Qlt_le_trans c b a Hbc Hab) rest [] [] k0 v0)
    as (pre' & post' & Heq & H1 & H2); [constructor|constructor|].
  simpl in Heq, H1, H2. destruct (fold_left _ rest (k0, v0)) as [k v].
  exists k. split; [reflexivity|]. by exists pre', v, post'.
Qed.

(** In exact arithmetic a non-empty history always yields a summary. *)
Lemma get_user_analytics_exact db docs :
  quiz_scores_desc db = Some docs → docs ≠ [] →
  ∃ a averages,
    get_user_analytics db = Some a ∧
    topic_averages (topic_scores docs) = Some averages ∧
    averages ≠ [] ∧
    best_topic a = max_key averages ∧ worst_topic a = min_key averages.
Proof.
  intros Hdb Hne. unfold get_user_analytics. rewrite Hdb. simpl. unfold analytics_of.
  destruct docs as [|r docs]; [done|].
  destruct (py_mean_is_Some (map percentage_of (r :: docs))) as [avg Havg]; [done|].
  rewrite Havg. simpl.
  assert (Hsome : is_Some (topic_averages (topic_scores (r :: docs)))).
  { apply mapM_is_Some_2.
    eapply Forall_impl; [apply topic_scores_nonempty|].
    intros [t scores] Hscores. simpl in Hscores.
    destruct (py_mean_is_Some scores Hscores) as [m Hm].
    unfold compose. cbv beta iota. rewrite Hm. by eexists. }
  destruct Hsome as [averages Hav]. rewrite Hav. simpl.
  eexists _, averages. split_and!; try reflexivity.
  intros ->. apply mapM_Some_1 in Hav. apply Forall2_nil_inv_r in Hav.
  pose proof (topic_scores_get (r :: docs) (topic_of r)) as Hget.
  rewrite Hav in Hget. unfold percentages_on, quizzes_on in Hget.
  rewrite filter_cons_True in Hget by done. done.
Qed.


Lemma topic_stats_is_Some (entry : TopicAcc Q) :
  acc_scores entry ≠ [] → is_Some (topic_stats entry).
Proof.
  intros Hne. unfold topic_stats.
  destruct (acc_scores entry) as [|x xs] eqn:Hacc; [done|].
  destruct (py_mean_is_Some (x :: xs)) as [m Hm]; [done|].
  rewrite Hm. simpl. by eexists.
Qed.

Lemma topic_stats_average (entry : TopicAcc Q) :
  acc_scores entry ≠ [] →
  tp_average_score <$> topic_stats entry = py_mean (acc_scores entry).
Proof.
  intros Hne. destruct (topic_stats_is_Some entry Hne) as [st Hst]. rewrite Hst.
  apply topic_stats_Some in Hst as (Hsc & _ & Hmean & _); [|done].
  rewrite <- Hsc, Hmean. done.
Qed.

(** In exact arithmetic [get_topic_performance] never takes its handler. *)
Lemma topic_performance_of_exact db docs :
  quiz_scores db = Some docs →
  ∃ result, topic_performance_of db = Some result ∧ get_topic_performance db = result.
Proof.
  intros Hdb. unfold get_topic_performance, topic_performance_of. rewrite Hdb. simpl.
  destruct (mapM _ (topic_data_of docs)) as [result|] eqn:Hm; [by exists result|].
  exfalso.
  assert (Hsome : is_Some (mapM
    (λ '(topic, entry), stats ← topic_stats entry; Some (topic, stats))
    (topic_data_of docs))).
  { apply mapM_is_Some_2.
    eapply Forall_impl; [apply topic_data_of_counted|].
    intros [t entry] [Hne _]. simpl in Hne.
    destruct (topic_stats_is_Some entry Hne) as [st Hst].
    unfold compose. cbv beta iota. rewrite Hst. by eexists. }
  rewrite Hm in Hsome. by destruct Hsome.
Qed.

(** The averages of the summary and those of the topic breakdown are the
    same numbers when both read the same stream. *)
Lemma topic_averages_match db docs (averages : dict Q) (t : string) :
  quiz_scores db = Some docs →
  topic_averages (topic_scores docs) = Some averages →
  get t averages = tp_average_score <$> get t (get_topic_performance db).
Proof.
  intros Hdb Hav.
  destruct (topic_performance_of_exact db docs Hdb) as (result & Hres & ->).
  unfold topic_performance_of in Hres. rewrite Hdb in Hres. simpl in Hres.
  destruct (get_mapM py_mean (topic_scores docs) averages t Hav) as [-> _].
  destruct (get_mapM topic_stats (topic_data_of docs) result t Hres) as [-> _].
  rewrite topic_scores_get, topic_data_of_get. unfold percentages_on.
  destruct (quizzes_on t docs) as [|q qs]; [done|].
  change (py_mean (percentage_of <$> q :: qs)
          = tp_average_score <$> topic_stats
              {| acc_scores := percentage_of <$> q :: qs;
                 acc_total_quizzes := Z.of_nat (length (q :: qs)) |}).
  symmetry. by apply topic_stats_average.
Qed.

Lemma topic_averages_keys_NoDup docs (averages : dict Q) :
  topic_averages (topic_scores docs) = Some averages → NoDup (keys averages).
Proof.
  intros Hav. destruct (get_mapM py_mean (topic_scores docs) averages "" Hav) as [_ ->].
  apply topic_scores_keys_NoDup.
Qed.

End Exact.



End AnalyticsMore.

(** ** Recommendations, dashboard and integration documents *)

Module DbMore.
Import PyNum PyDict PyJson Db Statements MoreStatements DictFacts AnalyticsFacts
  AnalyticsMore.

(** *** Document ids *)

Lemma list_ascii_of_string_app (s t : string) :
  list_ascii_of_string (s +:+ t) = list_ascii_of_string s ++ list_ascii_of_string t.
Proof. induction s as [|c s IH]; simpl; [done|]. by rewrite <- IH. Qed.

Lemma list_ascii_of_string_inj (s t : string) :
  list_ascii_of_string s = list_ascii_of_string t → s = t.
Proof.
  intros Heq. rewrite <- (string_of_list_ascii_of_string s).
  rewrite <- (string_of_list_ascii_of_string t). by rewrite Heq.
Qed.

(** The last character of the id tells the platform, the rest the user:
    the ids of two different (user, platform) pairs differ. *)
Lemma integration_key_inj (u u' p p' : string) :
  known_platform p → known_platform p' →
  integration_key u p = integration_key u' p' → u = u' ∧ p = p'.
Proof.
  unfold integration_key. intros Hp Hp' Heq.
  apply (f_equal list_ascii_of_string) in Heq.
  rewrite !list_ascii_of_string_app in Heq.
  assert (Hlast : last (list_ascii_of_string p) = last (list_ascii_of_string p')).
  { apply (f_equal last) in Heq.
    destruct Hp as [->|[->| ->]], Hp' as [->|[->| ->]]; simpl in Heq;
      rewrite ?app_assoc, ?last_app in Heq; simpl in Heq; done. }
  assert (p = p') as <-.
  { destruct Hp as [->|[->| ->]], Hp' as [->|[->| ->]]; done. }
  split; [|done].
  apply app_inv_tail in Heq. by apply list_ascii_of_string_inj.
Qed.

(** X8. Saving then reading: [get_integration_data] returns the saved
    document with its [updated_at] stamp for the same user and platform,
    and what it returned before for any other user or platform; the ids
    [user_id_platform] of the three platforms never collide, whatever the
    user ids. *)
Theorem save_then_get_integration_data (store : integrations) (u p u' p' : string)
    (data : document) (now : datetime) :
  known_platform p → known_platform p' →
  get_integration_data (save_integration_data store u p data now) u' p'
  = if decide (u = u' ∧ p = p') then Some (stamped now data)
    else get_integration_data store u' p'.
Proof.
  intros Hp Hp'. unfold get_integration_data, save_integration_data.
  unfold integrations, document in *.
  destruct (decide (u = u' ∧ p = p')) as [[-> ->]|Hne].
  - by rewrite lookup_insert_eq.
  - rewrite lookup_insert_ne; [done|].
    intros Heq. by apply integration_key_inj in Heq.
Qed.

(** X9. Deleting: afterwards [get_integration_data] finds no document for
    that user and platform, and still finds the documents of every other
    user and platform. *)
Theorem delete_then_get_integration_data (store : integrations) (u p u' p' : string) :
  known_platform p → known_platform p' →
  get_integration_data (delete_integration_data store u p) u' p'
  = if decide (u = u' ∧ p = p') then None else get_integration_data store u' p'.
Proof.
  intros Hp Hp'. unfold get_integration_data, delete_integration_data.
  unfold integrations, document in *.
  destruct (decide (u = u' ∧ p = p')) as [[-> ->]|Hne].
  - by rewrite lookup_delete_eq.
  - rewrite lookup_delete_ne; [done|].
    intros Heq. by apply integration_key_inj in Heq.
Qed.

(** Users "ann" and "ann_google": saving the Udemy document of the second
    leaves the calendar document of the first in place. *)
Lemma save_then_get_integration_data_witness :
  let token := [("token", FJson (JStr "t"))] in
  let store := save_integration_data ∅ "ann" "google_calendar" token nov_3 in
  get_integration_data
    (save_integration_data store "ann_google" "udemy" [] nov_3) "ann" "google_calendar"
  = Some (stamped nov_3 token).
Proof.
  intros token store.
  rewrite (save_then_get_integration_data store "ann_google" "udemy" "ann" "google_calendar").
  - simpl. unfold store.
    rewrite (save_then_get_integration_data ∅ "ann" "google_calendar" "ann" "google_calendar").
    + reflexivity.
    + right. by left.
    + right. by left.
  - right. by right.
  - right. by left.
Defined.

Lemma delete_then_get_integration_data_witness :
  let store := save_integration_data ∅ "ann" "github" [] nov_3 in
  get_integration_data (delete_integration_data store "ann" "github") "ann" "github" = None.
Proof.
  intros store.
  rewrite (delete_then_get_integration_data store "ann" "github" "ann" "github").
  - reflexivity.
  - by left.
  - by left.
Defined.

(** *** Recommendations *)

Section AnyArithmetic.
Context {F : Type} `{Arith F}.
Implicit Types (db : Firestore F) (docs : list (QuizScore F)).

Lemma fold_pick {A : Type} (better : A → A → bool) (rest : list A) (b : A) :
  fold_left (λ best x, if better best x then x else best) rest b ∈ b :: rest.
Proof.
  revert b. induction rest as [|x rest IH]; intros b; simpl.
  - apply elem_of_cons. by left.
  - destruct (better b x).
    + apply elem_of_cons. right. apply IH.
    + specialize (IH b). apply elem_of_cons in IH as [->|IH].
      * apply elem_of_cons. by left.
      * apply elem_of_cons. right. apply elem_of_cons. by right.
Qed.

Lemma min_key_in_keys (d : dict F) (k : string) : min_key d = Some k → k ∈ keys d.
Proof.
  destruct d as [|kv rest]; [done|]. unfold min_key. intros [= <-].
  change (keys (kv :: rest)) with (fst <$> kv :: rest).
  apply list_elem_of_fmap. eexists. split; [reflexivity|].
  apply (fold_pick (λ best kv', ltb kv'.2 best.2)).
Qed.

(** The worst topic of a summary is the topic of one of the documents. *)
Lemma worst_topic_studied db docs (a : Analytics F) (w : string) :
  quiz_scores_desc db = Some docs →
  get_user_analytics db = Some a → worst_topic a = Some w →
  ∃ quiz, quiz ∈ docs ∧ topic_of quiz = w.
Proof.
  unfold get_user_analytics. intros ->. simpl. unfold analytics_of.
  destruct docs as [|doc docs]; [by intros [= <-]|].
  destruct (py_mean _) as [avg|]; simpl; [|done].
  destruct (topic_averages _) as [averages|] eqn:Hav; simpl; [|done].
  intros [= <-]. simpl. intros Hw%min_key_in_keys.
  destruct (get_mapM py_mean _ averages "" Hav) as [_ Hkeys].
  rewrite Hkeys, topic_scores_group in Hw.
  apply keys_fold_group in Hw as [Hw|Hw]; [by apply elem_of_nil in Hw|done].
Qed.

(** X10. [get_study_recommendations] gives at most two recommendations,
    never both "Focus on Fundamentals" and "Ready for Advanced Topics", and
    a focus-area recommendation only names a non-empty topic of one of the
    user's quizzes. *)
Theorem study_recommendations_shape db docs :
  quiz_scores_desc db = Some docs →
  (length (get_study_recommendations db) ≤ 2)%nat ∧
  ¬ (focus_on_fundamentals ∈ get_study_recommendations db ∧
     ready_for_advanced ∈ get_study_recommendations db) ∧
  ∀ r, r ∈ get_study_recommendations db →
    r = focus_on_fundamentals ∨ r = ready_for_advanced ∨
    ∃ quiz, quiz ∈ docs ∧ topic_of quiz ≠ "" ∧ r = improve_topic (topic_of quiz).
Proof.
  intros Hdb. unfold get_study_recommendations.
  destruct (get_user_analytics db) as [a|] eqn:Ha.
  2: { split_and!; [simpl; lia|intros [Hin _]; by apply elem_of_nil in Hin|].
       intros r Hr. by apply elem_of_nil in Hr. }
  assert (Hfocus : ∀ r,
    r ∈ match worst_topic a with
        | Some w => if str_truthy w then [improve_topic w] else []
        | None => []
        end →
    ∃ quiz, quiz ∈ docs ∧ topic_of quiz ≠ "" ∧ r = improve_topic (topic_of quiz)).
  { intros r Hr. destruct (worst_topic a) as [w|] eqn:Hw; [|by apply elem_of_nil in Hr].
    destruct (str_truthy w) eqn:Htruthy; [|by apply elem_of_nil in Hr].
    apply list_elem_of_singleton in Hr as ->.
    destruct (worst_topic_studied db docs a w Hdb Ha Hw) as (quiz & Hquiz & <-).
    exists quiz. split_and!; [done| |done]. intros Heq. by rewrite Heq in Htruthy. }
  assert (Hother : ∀ r,
    r ∈ match worst_topic a with
        | Some w => if str_truthy w then [improve_topic w] else []
        | None => []
        end → sr_type r = "focus_area").
  { intros r Hr. destruct (worst_topic a) as [w|]; [|by apply elem_of_nil in Hr].
    destruct (str_truthy w); [|by apply elem_of_nil in Hr].
    by apply list_elem_of_singleton in Hr as ->. }
  split_and!.
  - rewrite length_app.
    assert ((length (match worst_topic a with
                     | Some w => if str_truthy w then [improve_topic w] else []
                     | None => []
                     end) ≤ 1)%nat).
    { destruct (worst_topic a) as [w|]; [destruct (str_truthy w)|]; simpl; lia. }
    destruct (ltb _ _); [|destruct (leb _ _)]; simpl; lia.
  - intros [H1 H2]. apply elem_of_app in H1, H2.
    destruct H1 as [H1|H1]; [|by apply Hother in H1].
    destruct H2 as [H2|H2]; [|by apply Hother in H2].
    destruct (ltb _ _); [|destruct (leb _ _)].
    + by apply list_elem_of_singleton in H2.
    + by apply list_elem_of_singleton in H1.
    + by apply elem_of_nil in H1.
  - intros r [Hr|Hr]%elem_of_app; [|right; right; by apply Hfocus].
    destruct (ltb _ _); [|destruct (leb _ _)].
    + apply list_elem_of_singleton in Hr. by left.
    + apply list_elem_of_singleton in Hr. right. by left.
    + by apply elem_of_nil in Hr.
Qed.
End AnyArithmetic.

(** [study_recommendations_shape] on the records [{Python, 80},
    {Python, 60}, {SQL, 50}]. *)
Lemma study_recommendations_shape_witness :
  (length (get_study_recommendations (three_records_db (F:=Q) blank None)) ≤ 2)%nat.
Proof.
  destruct (study_recommendations_shape (three_records_db (F:=Q) blank None)
              (three_records blank)) as [Hlen _].
  - reflexivity.
  - exact Hlen.
Defined.

(** X11. A user without any quiz is advised to focus on fundamentals: the
    average of an empty history is 0, which is below 60; in binary64 and in
    exact arithmetic alike. *)
Theorem study_recommendations_without_quiz :
  (∀ db : Firestore spec_float, quiz_scores_desc db = Some [] →
     get_study_recommendations db = [focus_on_fundamentals]) ∧
  (∀ db : Firestore Q, quiz_scores_desc db = Some [] →
     get_study_recommendations db = [focus_on_fundamentals]).
Proof.
  split; intros db Hdb; unfold get_study_recommendations, get_user_analytics;
    rewrite Hdb; reflexivity.
Qed.

Lemma study_recommendations_without_quiz_witness :
  get_study_recommendations planned_only = [focus_on_fundamentals].
Proof.
  destruct study_recommendations_without_quiz as [_ Hexact].
  apply Hexact. reflexivity.
Defined.

(** *** The dashboard summary *)

Lemma fold_add_proper (xs : list Q) (a b : Q) :
  a == b → fold_left Qplus xs a == fold_left Qplus xs b.
Proof.
  revert a b. induction xs as [|x xs IH]; intros a b Hab; simpl; [done|].
  apply IH. by rewrite Hab.
Qed.

(** A sum of rationals does not depend on the order of its terms. *)
Lemma fold_add_Permutation (xs ys : list Q) (a : Q) :
  xs ≡ₚ ys → fold_left Qplus xs a == fold_left Qplus ys a.
Proof.
  intros Hperm. revert a.
  induction Hperm as [|x xs ys _ IH|x y xs|xs ys zs _ IH1 _ IH2]; intros a; simpl.
  - reflexivity.
  - apply IH.
  - apply fold_add_proper. ring.
  - by rewrite IH1.
Qed.

Lemma Q_truediv_proper (a a' b m m' : Q) :
  a == a' → Q_truediv a b = Some m → Q_truediv a' b = Some m' → m == m'.
Proof.
  unfold Q_truediv. intros Ha. destruct (Qeq_bool b 0); [done|].
  intros [= <-] [= <-]. by rewrite Ha.
Qed.

(** What the summary of a non-empty history holds, in exact arithmetic. *)
Lemma get_user_analytics_average (db : Firestore Q) (docs : list (QuizScore Q)) :
  quiz_scores_desc db = Some docs → docs ≠ [] →
  ∃ a, get_user_analytics db = Some a ∧
       total_quizzes a = Z.of_nat (length docs) ∧
       py_mean (map percentage_of docs) = Some (average_score a) ∧
       quiz_history a = docs.
Proof.
  intros Hdb Hne. unfold get_user_analytics. rewrite Hdb. simpl. unfold analytics_of.
  destruct docs as [|r docs]; [done|].
  destruct (py_mean_is_Some (map percentage_of (r :: docs))) as [avg Havg]; [done|].
  rewrite Havg. simpl.
  assert (Hsome : is_Some (topic_averages (topic_scores (r :: docs)))).
  { apply mapM_is_Some_2.
    eapply Forall_impl; [apply topic_scores_nonempty|].
    intros [t scores] Hscores. simpl in Hscores.
    destruct (py_mean_is_Some scores Hscores) as [m Hm].
    unfold compose. cbv beta iota. rewrite Hm. by eexists. }
  destruct Hsome as [averages Hav]. rewrite Hav. simpl.
  eexists. split_and!; [reflexivity|reflexivity|exact Havg|reflexivity].
Qed.



End DbMore.

(** ** Study plans *)

Module PlanMore.
Import PyDict PyJson Db Ai Statements MoreStatements DictFacts DbMore.

(** *** Remediation links *)

Lemma chars_app (s t : string) : chars (s +:+ t) = chars s ++ chars t.
Proof. apply list_ascii_of_string_app. Qed.

Lemma replace_spaces_no_space (s : string) : " "%char ∉ chars (replace_spaces s).
Proof.
  induction s as [|c s IH]; simpl.
  - apply not_elem_of_nil.
  - apply not_elem_of_cons. split; [|exact IH].
    destruct (Ascii.eqb c " ") eqn:Hc; [done|].
    apply Ascii.eqb_neq in Hc. congruence.
Qed.

(** X13. [get_remediation_resources] always returns its links, and none of
    the three URLs contains a space, whatever the topic: the spaces of the
    topic are the only characters it replaces. *)
Theorem remediation_urls_without_space (topic : string) :
  ∃ r, get_remediation_resources topic = Some r ∧
       (" "%char ∉ chars (video_url r)) ∧
       (" "%char ∉ chars (article_url r)) ∧
       (" "%char ∉ chars (practice_url r)).
Proof.
  eexists. split; [reflexivity|].
  pose proof (replace_spaces_no_space topic) as Htopic.
  cbn [video_url article_url practice_url].
  split_and!; rewrite !chars_app, !elem_of_app; intros [Hin|[Hin|Hin]];
    try done; revert Hin; apply (bool_decide_unpack _); vm_compute; exact I.
Qed.

(** *** What a generated plan holds *)

Section Plans.
Variable json_loads : string → option json.
Implicit Types (content subject learning_goal current_level time_commitment : string).

Lemma extend_resources_spec (links : list json) (fields : dict json) :
  extensible (JDict fields) →
  ∃ fields', extend_resources links (JDict fields) = Some (JDict fields') ∧
    (∀ k, k ≠ "resources" → get k fields' = get k fields) ∧
    get "resources" fields' = Some (JList (resources_of fields ++ links)).
Proof.
  intros Hext. unfold extend_resources, resources_of. rewrite get_upsert_eq.
  destruct Hext as [Hnone|[items Hitems]].
  - rewrite Hnone. simpl. eexists. split; [reflexivity|]. split.
    + intros k Hk. by rewrite !get_upsert_ne.
    + by rewrite get_upsert_eq.
  - rewrite Hitems. simpl. eexists. split; [reflexivity|]. split.
    + intros k Hk. by rewrite !get_upsert_ne.
    + by rewrite get_upsert_eq.
Qed.

Lemma extend_resources_None (links : list json) (plan_data : json) :
  ¬ extensible plan_data → extend_resources links plan_data = None.
Proof.
  intros Hext. destruct plan_data as [| | | | | |fields]; try done.
  unfold extend_resources. rewrite get_upsert_eq.
  destruct (get "resources" fields) as [r|] eqn:Hr; simpl.
  - destruct r; try done. destruct Hext. right. by eexists.
  - destruct Hext. by left.
Qed.

Lemma extensible_or_not (plan_data : json) : extensible plan_data ∨ ¬ extensible plan_data.
Proof.
  destruct plan_data as [| | | | | |fields]; try (by right; intros []).
  simpl. destruct (get "resources" fields) as [r|]; [|left; by left].
  destruct r; try (right; intros [?|[? ?]]; done).
  left. right. by eexists.
Qed.

(** The inner [try] body once the response is decoded. *)
Lemma structured_plan_decoded content subject (plan_data : json) (r : Remediation) :
  json_loads content = Some plan_data →
  get_remediation_resources subject = Some r →
  structured_plan json_loads subject content
  = extend_resources (resource_links subject (λ field, field r)) plan_data.
Proof.
  intros Hloads Hr. unfold get_remediation_resources in Hr. injection Hr as <-.
  unfold structured_plan. rewrite Hloads. reflexivity.
Qed.

Lemma remediation_is_Some subject : is_Some (get_remediation_resources subject).
Proof. by eexists. Qed.

(** X14. Whatever text the service answers, [generate_plan_with_groq]
    returns success with a plan object whose [resources] is a list that
    ends with the three links for the subject. *)
Theorem generate_plan_with_groq_has_links
    (content subject learning_goal current_level time_commitment additional_context : string) :
  ∃ fields items remediation,
    get_remediation_resources subject = Some remediation ∧
    generate_plan_with_groq json_loads (inr content) subject learning_goal
      current_level time_commitment additional_context = (true, JDict fields) ∧
    get "resources" fields
    = Some (JList (items ++ resource_links subject (λ field, field remediation))).
Proof.
  destruct (remediation_is_Some subject) as [r Hr].
  unfold generate_plan_with_groq.
  destruct (json_loads content) as [plan_data|] eqn:Hloads.
  - rewrite (structured_plan_decoded content subject plan_data r Hloads Hr).
    destruct (extensible_or_not plan_data) as [Hext|Hext].
    + destruct plan_data as [| | | | | |fields]; try done.
      destruct (extend_resources_spec (resource_links subject (λ field, field r))
                  fields Hext) as (fields' & -> & _ & Hres).
      by eexists fields', _, r.
    + rewrite extend_resources_None by done.
      eexists _, [], r. split_and!; [done|reflexivity|].
      unfold get_remediation_resources in Hr. injection Hr as <-. reflexivity.
  - unfold structured_plan. rewrite Hloads.
    eexists _, [], r. split_and!; [done|reflexivity|].
    unfold get_remediation_resources in Hr. injection Hr as <-. reflexivity.
Qed.

(** X15. A decoded plan keeps its fields: when the response decodes to an
    object whose [resources] is missing or a list, the returned plan has
    every other field of the object unchanged, and its [resources] is the
    old list (empty if there was none) followed by the three links. *)
Theorem generate_plan_with_groq_keeps_fields
    (content subject learning_goal current_level time_commitment additional_context : string)
    (decoded : dict json) :
  json_loads content = Some (JDict decoded) →
  extensible (JDict decoded) →
  ∃ fields remediation,
    get_remediation_resources subject = Some remediation ∧
    generate_plan_with_groq json_loads (inr content) subject learning_goal
      current_level time_commitment additional_context = (true, JDict fields) ∧
    (∀ k, k ≠ "resources" → get k fields = get k decoded) ∧
    get "resources" fields
    = Some (JList (resources_of decoded
                   ++ resource_links subject (λ field, field remediation))).
Proof.
  intros Hloads Hext. destruct (remediation_is_Some subject) as [r Hr].
  unfold generate_plan_with_groq.
  rewrite (structured_plan_decoded content subject (JDict decoded) r Hloads Hr).
  destruct (extend_resources_spec (resource_links subject (λ field, field r))
              decoded Hext) as (fields' & -> & Hkeep & Hres).
  by eexists fields', r.
Qed.

(** X16. A decoded plan that cannot be extended is discarded: when the
    response is a JSON document other than an object, or an object whose
    [resources] is not a list, the result is the text plan around the raw
    response, as for a response that is not JSON at all. *)
Theorem generate_plan_with_groq_discards
    (content subject learning_goal current_level time_commitment additional_context : string)
    (plan_data : json) :
  json_loads content = Some plan_data →
  ¬ extensible plan_data →
  generate_plan_with_groq json_loads (inr content) subject learning_goal
    current_level time_commitment additional_context
  = (true, text_plan subject current_level time_commitment content).
Proof.
  intros Hloads Hext. destruct (remediation_is_Some subject) as [r Hr].
  unfold generate_plan_with_groq.
  rewrite (structured_plan_decoded content subject plan_data r Hloads Hr).
  by rewrite extend_resources_None.
Qed.
End Plans.

(** [generate_plan_with_groq_keeps_fields] on the empty object. *)
Lemma generate_plan_with_groq_keeps_fields_witness :
  ∃ fields remediation,
    get_remediation_resources "Python" = Some remediation ∧
    generate_plan_with_groq loads_empty_object (inr "{}") "Python"
      "Build a web application" "Beginner" "3-5 hours/week" "" = (true, JDict fields) ∧
    (∀ k, k ≠ "resources" → get k fields = get k []) ∧
    get "resources" fields
    = Some (JList (resources_of []
                   ++ resource_links "Python" (λ field, field remediation))).
Proof.
  apply (generate_plan_with_groq_keeps_fields loads_empty_object "{}" "Python"
           "Build a web application" "Beginner" "3-5 hours/week" "" []).
  - reflexivity.
  - left. reflexivity.
Defined.

(** [generate_plan_with_groq_discards] on a response that is a JSON array. *)
Lemma generate_plan_with_groq_discards_witness :
  generate_plan_with_groq loads_week_list (inr "[1, 2]") "Python"
    "Build a web application" "Beginner" "3-5 hours/week" ""
  = (true, text_plan "Python" "Beginner" "3-5 hours/week" "[1, 2]").
Proof.
  apply (generate_plan_with_groq_discards loads_week_list "[1, 2]" "Python"
           "Build a web application" "Beginner" "3-5 hours/week" ""
           (JList [JInt 1; JInt 2])).
  - reflexivity.
  - intros [].
Defined.

End PlanMore.

(** ** Integrations *)

Module IntegrationsMore.
Import PyNum PyDict PyJson Db Integrations Statements MoreStatements DictFacts DbMore.

(** *** Learning paths *)

Lemma elem_of_suggestions (languages_used acc : list string) (s : string) :
  s ∈ fold_left (λ suggestions lang,
                   match get lang language_suggestions with
                   | Some paths => suggestions ++ paths
                   | None => suggestions
                   end) languages_used acc
  ↔ s ∈ acc ∨ ∃ lang paths, lang ∈ languages_used ∧
                get lang language_suggestions = Some paths ∧ s ∈ paths.
Proof.
  revert acc. induction languages_used as [|l ls IH]; intros acc.
  - cbn [fold_left]. split; [by left|]. intros [?|(lang & ? & Hin & _)]; [done|].
    by apply elem_of_nil in Hin.
  - cbn [fold_left]. rewrite IH. split.
    + intros [Hacc|(lang & paths & Hin & Hget & Hs)].
      * destruct (get l language_suggestions) as [paths|] eqn:Hl; [|by left].
        apply elem_of_app in Hacc as [?|?]; [by left|].
        right. exists l, paths. split_and!; [apply elem_of_cons; by left|done..].
      * right. exists lang, paths. split_and!; [apply elem_of_cons; by right|done..].
    + intros [Hacc|(lang & paths & Hin & Hget & Hs)].
      * left. destruct (get l language_suggestions); [|done].
        apply elem_of_app. by left.
      * apply elem_of_cons in Hin as [->|Hin].
        -- left. rewrite Hget. apply elem_of_app. by right.
        -- right. by exists lang, paths.
Qed.

(** X17. [suggest_learning_paths] suggests exactly the paths the table lists
    for one of the languages used; a language the table does not know adds
    nothing, and neither does the order or the repetition of languages. *)
Theorem suggest_learning_paths_spec (languages_used : list string) (s : string) :
  s ∈ suggest_learning_paths languages_used
  ↔ ∃ lang paths, lang ∈ languages_used ∧
      get lang language_suggestions = Some paths ∧ s ∈ paths.
Proof.
  unfold suggest_learning_paths. rewrite elem_of_list_to_set, elem_of_suggestions.
  split; [|by right]. intros [Hnil|?]; [|done]. by apply elem_of_nil in Hnil.
Qed.

(** *** Status of the integrations *)

Lemma get_integration_status_get (store : integrations) (u p : string) :
  known_platform p →
  get p (get_integration_status store u)
  = Some (platform_status (get_integration_data store u p)).
Proof. intros [->|[->| ->]]; reflexivity. Qed.

Lemma platform_status_stamped (now : datetime) (data : document) :
  platform_status (Some (stamped now data))
  = {| connected := default not_connected (get "authenticated" data);
       last_sync := get "last_sync" data |}.
Proof.
  unfold platform_status, stamped. rewrite get_upsert_ne by done. f_equal.
  rewrite get_upsert_ne by done. rewrite bool_decide_eq_false_2; [done|].
  destruct data as [|[k v] data]; [done|]. cbn [upsert].
  destruct (String.eqb _ k); done.
Qed.

Lemma get_save_integration_data (store : integrations) (u p u' p' : string)
    (data : document) (now : datetime) :
  known_platform p → known_platform p' →
  get_integration_data (save_integration_data store u p data now) u' p'
  = if decide (u = u' ∧ p = p') then Some (stamped now data)
    else get_integration_data store u' p'.
Proof.
  intros Hp Hp'. unfold get_integration_data, save_integration_data.
  unfold integrations, document in *.
  destruct (decide (u = u' ∧ p = p')) as [[-> ->]|Hne].
  - by rewrite lookup_insert_eq.
  - rewrite lookup_insert_ne; [done|].
    intros Heq. by apply integration_key_inj in Heq.
Qed.

Lemma get_delete_integration_data (store : integrations) (u p u' p' : string) :
  known_platform p → known_platform p' →
  get_integration_data (delete_integration_data store u p) u' p'
  = if decide (u = u' ∧ p = p') then None else get_integration_data store u' p'.
Proof.
  intros Hp Hp'. unfold get_integration_data, delete_integration_data.
  unfold integrations, document in *.
  destruct (decide (u = u' ∧ p = p')) as [[-> ->]|Hne].
  - by rewrite lookup_delete_eq.
  - rewrite lookup_delete_ne; [done|].
    intros Heq. by apply integration_key_inj in Heq.
Qed.

(** X18. The status follows the store. After [save_integration_data] the
    status of that platform shows the [authenticated] value of the saved
    data ([False] if it has none) and its [last_sync]; after
    [delete_integration_data] it shows [False] and no [last_sync]; and
    neither changes the status of another platform or another user. *)
Theorem get_integration_status_follows (store : integrations) (u p : string)
    (data : document) (now : datetime) :
  known_platform p →
  get p (get_integration_status (save_integration_data store u p data now) u)
  = Some {| connected := default not_connected (get "authenticated" data);
            last_sync := get "last_sync" data |} ∧
  get p (get_integration_status (delete_integration_data store u p) u)
  = Some {| connected := not_connected; last_sync := None |} ∧
  ∀ u' p', known_platform p' → ¬ (u = u' ∧ p = p') →
    get p' (get_integration_status (save_integration_data store u p data now) u')
    = get p' (get_integration_status store u') ∧
    get p' (get_integration_status (delete_integration_data store u p) u')
    = get p' (get_integration_status store u').
Proof.
  intros Hp. split_and!.
  - rewrite get_integration_status_get, get_save_integration_data by done.
    rewrite decide_True by done. by rewrite platform_status_stamped.
  - rewrite get_integration_status_get, get_delete_integration_data by done.
    by rewrite decide_True.
  - intros u' p' Hp' Hne. rewrite !get_integration_status_get by done.
    rewrite get_save_integration_data, get_delete_integration_data by done.
    by rewrite !decide_False.
Qed.

(** [get_integration_status_follows] for a user who connects GitHub. *)
Lemma get_integration_status_follows_witness :
  get "github"
    (get_integration_status
       (save_integration_data ∅ "ann" "github"
          [("authenticated", FJson (JBool true))] nov_3) "ann")
  = Some {| connected := FJson (JBool true); last_sync := None |}.
Proof.
  destruct (get_integration_status_follows ∅ "ann" "github"
              [("authenticated", FJson (JBool true))] nov_3) as [Hsave _].
  - by left.
  - exact Hsave.
Defined.

(** *** Synchronisation *)

Section AnyArithmetic.
Context {F : Type} `{Arith F}.
Variable get_real_time_activity : string → string → fetched GithubActivity.
Variable get_detailed_analytics : string → fetched (UdemyAnalytics F).

Lemma sync_github_returns (github_data : option IntegrationData)
    (results : dict (SyncResult F)) :
  (∃ results', sync_github get_real_time_activity github_data results = inr results')
  ↔ (is_authenticated github_data = true → with_credentials github_data).
Proof.
  unfold sync_github, with_credentials. destruct github_data as [d|].
  - destruct (is_authenticated (Some d)) eqn:Hauth.
    + destruct (token d) as [tok|] eqn:Htok.
      * destruct (username d) as [user|] eqn:Huser.
        -- split; [|by eexists]. intros _ _. exists d. rewrite Htok, Huser.
           split_and!; [done|by eexists..].
        -- split; [by intros [? ?]|]. intros Hcred.
           destruct (Hcred eq_refl) as (d' & [= <-] & _ & [? Hu]).
           rewrite Huser in Hu. done.
      * split; [by intros [? ?]|]. intros Hcred.
        destruct (Hcred eq_refl) as (d' & [= <-] & [? Ht] & _).
        rewrite Htok in Ht. done.
    + split; [done|]. intros _. by eexists.
  - split; [done|]. intros _. by eexists.
Qed.

Lemma get_sync_github (github_data : option IntegrationData)
    (results results' : dict (SyncResult F)) (k : string) :
  sync_github get_real_time_activity github_data results = inr results' →
  k ≠ "github" → get k results' = get k results.
Proof.
  unfold sync_github. intros Hsync Hk. destruct github_data as [d|]; [|by injection Hsync as <-].
  destruct (is_authenticated (Some d)); [|by injection Hsync as <-].
  destruct (token d); [|done]. destruct (username d); [|done].
  injection Hsync as <-. by rewrite get_upsert_ne.
Qed.

(** X19. [sync_all_integrations] never synchronises the calendar. It
    returns its results exactly when the Google Calendar integration is
    not authenticated and an authenticated GitHub document holds a token
    and a username; otherwise an exception leaves it. The results it
    returns have no [google_calendar] entry. *)
Theorem sync_all_integrations_returns (session_email : option string)
    (github_data calendar_data udemy_data : option IntegrationData) :
  let outcome :=
    sync_all_integrations get_real_time_activity get_detailed_analytics
      session_email github_data calendar_data udemy_data in
  ((∃ results, outcome = inr results)
   ↔ is_authenticated calendar_data = false ∧
     (is_authenticated github_data = true → with_credentials github_data)) ∧
  (∀ results, outcome = inr results → get "google_calendar" results = None).
Proof.
  intros outcome. subst outcome. unfold sync_all_integrations.
  pose proof (sync_github_returns github_data []) as Hgithub.
  destruct (sync_github get_real_time_activity github_data []) as [e|results1] eqn:Hsync.
  - split; [|done]. split; [by intros [? ?]|]. intros [_ Hcred].
    apply Hgithub in Hcred as [? ?]. done.
  - unfold sync_google_calendar.
    destruct (is_authenticated calendar_data) eqn:Hcal.
    + split; [|done]. split; [by intros [? ?]|]. by intros [? _].
    + split.
      * split; [|by eexists]. intros _. split; [done|]. apply Hgithub. by eexists.
      * intros results [= <-]. unfold sync_udemy.
        destruct (is_authenticated udemy_data).
        -- rewrite get_upsert_ne by done.
           by rewrite (get_sync_github github_data [] results1 "google_calendar" Hsync).
        -- by rewrite (get_sync_github github_data [] results1 "google_calendar" Hsync).
Qed.
End AnyArithmetic.

(** [sync_all_integrations_returns] for a user with GitHub and Udemy
    connected and no calendar. *)
Lemma sync_all_integrations_returns_witness :
  ∃ results,
    sync_all_integrations refused_github one_course_udemy (Some "ann@example.org")
      (Some connected_account) None (Some connected_account) = inr results.
Proof.
  pose proof (sync_all_integrations_returns refused_github one_course_udemy
                (Some "ann@example.org") (Some connected_account) None
                (Some connected_account)) as Hsync.
  cbv zeta in Hsync. destruct Hsync as [Hreturns _]. apply Hreturns.
  split; [reflexivity|]. intros _. exists connected_account.
  split_and!; [reflexivity|by eexists..].
Defined.

(** *** Learning insights *)

Section Recommendations.
Context {F : Type} `{Arith F}.

(** X20. The recommendations of [get_user_learning_insights] never repeat,
    and each of the four is given in exactly one situation: the data
    science course with both snapshots, Python among the languages and no
    Data Science category; DevOps with both snapshots, more than 50 commits
    and no DevOps category; connecting GitHub with a Udemy snapshot and no
    GitHub snapshot; online courses with a GitHub snapshot and no Udemy
    snapshot. *)
Theorem recommendations_of_spec (g : option GithubInsight) (u : option (UdemyInsight F)) :
  NoDup (recommendations_of g u) ∧
  (data_science_suggestion ∈ recommendations_of g u
   ↔ ∃ g' u', g = Some g' ∧ u = Some u' ∧
       "Python" ∈ gh_languages g' ∧ "Data Science" ∉ ud_categories u') ∧
  (devops_suggestion ∈ recommendations_of g u
   ↔ ∃ g' u', g = Some g' ∧ u = Some u' ∧
       50 < gh_total_commits g' ∧ "DevOps" ∉ ud_categories u') ∧
  (connect_github_suggestion ∈ recommendations_of g u ↔ g = None ∧ is_Some u) ∧
  (add_courses_suggestion ∈ recommendations_of g u ↔ is_Some g ∧ u = None).
Proof.
  destruct g as [g'|], u as [u'|]; unfold recommendations_of.
  - assert (Hpython : bool_decide ("Python" ∈ (list_to_set (gh_languages g') : gset string))
                      = bool_decide ("Python" ∈ gh_languages g')).
    { apply bool_decide_ext. apply elem_of_list_to_set. }
    assert (Hcat : ∀ c, bool_decide (c ∈ (list_to_set (ud_categories u') : gset string))
                        = bool_decide (c ∈ ud_categories u')).
    { intros c. apply bool_decide_ext. apply elem_of_list_to_set. }
    rewrite Hpython, !Hcat.
    destruct (decide ("Python" ∈ gh_languages g')) as [Hp|Hp];
      [rewrite (bool_decide_eq_true_2 _ Hp)|rewrite (bool_decide_eq_false_2 _ Hp)];
    (destruct (decide ("Data Science" ∈ ud_categories u')) as [Hds|Hds];
      [rewrite (bool_decide_eq_true_2 _ Hds)|rewrite (bool_decide_eq_false_2 _ Hds)]);
    (destruct (decide ("DevOps" ∈ ud_categories u')) as [Hdo|Hdo];
      [rewrite (bool_decide_eq_true_2 _ Hdo)|rewrite (bool_decide_eq_false_2 _ Hdo)]);
    (destruct (50 <? gh_total_commits g') eqn:Hc;
      [apply Z.ltb_lt in Hc|apply Z.ltb_ge in Hc]);
    cbn [andb negb app];
    (split_and!;
     [ repeat constructor; rewrite ?elem_of_cons, ?elem_of_nil; intros Hin;
       repeat destruct Hin as [Hin|Hin]; done
     | try (split;
            [ rewrite ?elem_of_cons, ?elem_of_nil; intros Hin;
              repeat destruct Hin as [Hin|Hin]; try done;
              exists g', u'; split_and!; done
            | intros (g0 & u0 & [= <-] & [= <-] & ? & ?);
              rewrite ?elem_of_cons, ?elem_of_nil; first [done|lia|tauto] ])..
     | split; [|by intros [? _]];
       rewrite ?elem_of_cons, ?elem_of_nil; intros Hin;
       repeat destruct Hin as [Hin|Hin]; done
     | split; [|by intros [_ ?]];
       rewrite ?elem_of_cons, ?elem_of_nil; intros Hin;
       repeat destruct Hin as [Hin|Hin]; done ]).
  - split_and!.
    + apply NoDup_singleton.
    + split; [by intros ?%list_elem_of_singleton|]. by intros (? & ? & _ & ? & _).
    + split; [by intros ?%list_elem_of_singleton|]. by intros (? & ? & _ & ? & _).
    + split; [by intros ?%list_elem_of_singleton|]. by intros [? _].
    + split; [|intros _; by apply list_elem_of_singleton].
      intros _. split; [by eexists|done].
  - split_and!.
    + apply NoDup_singleton.
    + split; [by intros ?%list_elem_of_singleton|]. by intros (? & ? & ? & _).
    + split; [by intros ?%list_elem_of_singleton|]. by intros (? & ? & ? & _).
    + split; [|intros _; by apply list_elem_of_singleton].
      intros _. split; [done|by eexists].
    + split; [by intros ?%list_elem_of_singleton|]. by intros [[? ?] _].
  - split_and!.
    + apply NoDup_nil_2.
    + split; [by intros ?%elem_of_nil|]. by intros (? & ? & ? & _).
    + split; [by intros ?%elem_of_nil|]. by intros (? & ? & ? & _).
    + split; [by intros ?%elem_of_nil|]. by intros [_ [? ?]].
    + split; [by intros ?%elem_of_nil|]. by intros [[? ?] _].
Qed.
End Recommendations.

Section Exact.
Variable get_real_time_activity : string → string → fetched GithubActivity.
Variable get_detailed_analytics : string → fetched (UdemyAnalytics Q).

(** In exact arithmetic the score is always computed. *)
Lemma overall_score_of_exact (g : option GithubInsight) (u : option (UdemyInsight Q)) :
  is_Some (overall_score_of g u).
Proof.
  unfold overall_score_of, learning_score, add_github_points, add_udemy_points.
  destruct g, u; simpl; by eexists.
Qed.

Lemma fetch_github_fails (github_data : option IntegrationData) :
  fetch_github get_real_time_activity github_data = None
  ↔ is_authenticated github_data = true ∧ ¬ with_credentials github_data.
Proof.
  unfold fetch_github, with_credentials. destruct github_data as [d|].
  - destruct (is_authenticated (Some d)) eqn:Hauth.
    + destruct (token d) as [tok|] eqn:Htok; simpl.
      * destruct (username d) as [user|] eqn:Huser; simpl.
        -- split.
           ++ by destruct (get_real_time_activity tok user).
           ++ intros [_ Hcred]. destruct Hcred. exists d. rewrite Htok, Huser.
              split_and!; [done|by eexists..].
        -- split; [|done]. intros _. split; [done|].
           intros (d' & [= <-] & _ & [? Hu]). rewrite Huser in Hu. done.
      * split; [|done]. intros _. split; [done|].
        intros (d' & [= <-] & [? Ht] & _). rewrite Htok in Ht. done.
    + split; [done|]. by intros [? _].
  - split; [done|]. by intros [? _].
Qed.


(** The result when the GitHub block does not raise. *)
Lemma get_user_learning_insights_Some
    (github_data udemy_data : option IntegrationData) (user_email : string)
    (g : option GithubInsight) :
  fetch_github get_real_time_activity github_data = Some g →
  ∃ insights,
    get_user_learning_insights get_real_time_activity get_detailed_analytics
      github_data udemy_data user_email = Some insights ∧
    github insights = g ∧
    recommendations insights
    = recommendations_of g (fetch_udemy get_detailed_analytics udemy_data user_email).
Proof.
  intros Hg. unfold get_user_learning_insights. rewrite Hg. simpl.
  destruct (overall_score_of_exact g
              (fetch_udemy get_detailed_analytics udemy_data user_email)) as [score ->].
  simpl. by eexists.
Qed.

(** X22. A GitHub account that is connected but whose activity cannot be
    fetched counts as not connected: with a Udemy snapshot, the only
    recommendation is to connect the GitHub account. *)
Theorem failed_fetch_recommends_connecting
    (github_data udemy_data : option IntegrationData) (user_email : string)
    (d : IntegrationData) (tok user reason : string) (analytics : UdemyAnalytics Q) :
  github_data = Some d → is_authenticated github_data = true →
  token d = Some tok → username d = Some user →
  get_real_time_activity tok user = NotFetched reason →
  is_authenticated udemy_data = true →
  get_detailed_analytics user_email = Fetched analytics →
  ∃ insights,
    get_user_learning_insights get_real_time_activity get_detailed_analytics
      github_data udemy_data user_email = Some insights ∧
    github insights = None ∧
    recommendations insights = [connect_github_suggestion].
Proof.
  intros -> Hauth Htok Huser Hfetch Hudemy Hanalytics.
  assert (Hg : fetch_github get_real_time_activity (Some d) = Some None).
  { unfold fetch_github. rewrite Hauth, Htok. simpl. rewrite Huser. simpl.
    by rewrite Hfetch. }
  destruct (get_user_learning_insights_Some (Some d) udemy_data user_email None Hg)
    as (insights & Hinsights & Hgithub & Hrecs).
  exists insights. split_and!; [done..|].
  rewrite Hrecs. unfold fetch_udemy. by rewrite Hudemy, Hanalytics.
Qed.
End Exact.


(** [failed_fetch_recommends_connecting] on a client that is refused. *)
Lemma failed_fetch_recommends_connecting_witness :
  ∃ insights,
    get_user_learning_insights refused_github one_course_udemy
      (Some connected_account) (Some connected_account) "ann@example.org"
    = Some insights ∧
    github insights = None ∧
    recommendations insights = [connect_github_suggestion].
Proof.
  apply (failed_fetch_recommends_connecting refused_github one_course_udemy
           (Some connected_account) (Some connected_account) "ann@example.org"
           connected_account "t0ken" "ann" "Failed to fetch repositories"
           {| completion_rate := 100%Q; total_courses := 1;
              completed_learning_hours := 12%Q;
              categories := [("Design", {| cat_count := 1; cat_avg_progress := 100%Q;
                                           cat_total_progress := 100%Q |})] |});
    reflexivity.
Defined.

End IntegrationsMore.

(** ** GitHub activity *)

Module GithubFacts.
Import PyNum PyDict Db Integrations Statements MoreStatements DictFacts.

Implicit Types (repo : Repo) (answer : response (list (string + ApiCommit))).
Implicit Types (activity : GithubActivity).
Implicit Types (repos : list (string + Repo * response (list (string + ApiCommit)))).
Implicit Types (pairs : list (Repo * response (list (string + ApiCommit)))).

(** *** One repository *)

(** What a turn of the loop adds, in terms of the commits it reads. *)
Lemma process_repo_spec repo answer activity :
  process_repo repo answer activity
  = let commits := commits_of answer in
    let collected := collect_commits repo (take 5 commits) in
    {| total_commits := total_commits activity + Z.of_nat (length commits);
       active_repos :=
         active_repos activity
         ++ (if collected.2 && (0 <? Z.of_nat (length commits))
             then [repo_name repo] else []);
       languages_used := count_language repo (languages_used activity);
       recent_commits := recent_commits activity ++ collected.1 |}.
Proof.
  unfold process_repo, commits_of.
  destruct answer as [error|status_code [error|commits]];
    cbn zeta; rewrite ?Z.add_0_r, ?app_nil_r; try done.
  destruct (status_code =? 200).
  - destruct (collect_commits repo (take 5 commits)) as [entries finished].
    cbn [fst snd]. destruct (finished && _); [done|]. by rewrite app_nil_r.
  - simpl. by rewrite Z.add_0_r, !app_nil_r.
Qed.

Lemma collect_commits_entries repo (commits : list (string + ApiCommit)) (c : Commit) :
  c ∈ (collect_commits repo commits).1 →
  ∃ commit, inr commit ∈ commits ∧ c = commit_data repo commit.
Proof.
  induction commits as [|[error|commit] commits IH]; simpl.
  - by intros ?%elem_of_nil.
  - by intros ?%elem_of_nil.
  - destruct (collect_commits repo commits) as [entries finished]. simpl in *.
    intros [->|Hin]%elem_of_cons.
    + exists commit. split; [apply elem_of_cons; by left|done].
    + destruct (IH Hin) as (commit' & ? & ?). exists commit'.
      split; [apply elem_of_cons; by right|done].
Qed.

Lemma collect_commits_length repo (commits : list (string + ApiCommit)) :
  (length (collect_commits repo commits).1 ≤ length commits)%nat.
Proof.
  induction commits as [|[error|commit] commits IH]; simpl; [lia..|].
  destruct (collect_commits repo commits) as [entries finished]. simpl in *. lia.
Qed.

(** *** The loop over the repositories *)

Lemma process_repos_inr repos activity activity' :
  process_repos repos activity = inr activity' ↔
  repos = inr <$> listed repos ∧ activity' = fold_left turn (listed repos) activity.
Proof.
  revert activity. induction repos as [|[error|[repo answer]] repos IH]; intros activity.
  - simpl. split; [by intros [= <-]|by intros [_ ->]].
  - simpl. split; [done|]. intros [Heq _].
    unfold listed in Heq. cbn [omap] in Heq.
    destruct (omap _ repos); done.
  - cbn [process_repos].
    change (listed (inr (repo, answer) :: repos)) with ((repo, answer) :: listed repos).
    rewrite fmap_cons. cbn [fold_left]. rewrite IH.
    split; intros [Heq ->]; (split; [|done]).
    + f_equal. exact Heq.
    + by injection Heq.
Qed.

Lemma fold_turn_total pairs activity :
  total_commits (fold_left turn pairs activity)
  = total_commits activity
    + Z.of_nat (sum_list ((λ item, length (commits_of item.2)) <$> pairs)).
Proof.
  revert activity. induction pairs as [|[repo answer] pairs IH]; intros activity.
  - simpl. lia.
  - cbn [fold_left]. rewrite IH. unfold turn. rewrite process_repo_spec.
    cbn [total_commits fst snd fmap list_fmap sum_list sum_list_with]. simpl. lia.
Qed.

Lemma languages_of_cons repo answer pairs :
  languages_of ((repo, answer) :: pairs)
  = match repo_language repo with
    | Some language =>
        if str_truthy language then language :: languages_of pairs
        else languages_of pairs
    | None => languages_of pairs
    end.
Proof.
  unfold languages_of. simpl. destruct (repo_language repo) as [language|]; [|done].
  by destruct (str_truthy language).
Qed.

Lemma count_language_group pairs (d : dict Z) :
  fold_left (λ d item, count_language item.1 d) pairs d
  = fold_left (group id one_more) (languages_of pairs) d.
Proof.
  revert d. induction pairs as [|[repo answer] pairs IH]; intros d; [done|].
  cbn [fold_left]. rewrite IH, languages_of_cons. unfold count_language. cbn [fst].
  destruct (repo_language repo) as [language|]; [|done].
  destruct (str_truthy language); done.
Qed.

Lemma fold_turn_languages pairs activity :
  languages_used (fold_left turn pairs activity)
  = fold_left (group id one_more) (languages_of pairs) (languages_used activity).
Proof.
  rewrite <- count_language_group.
  revert activity. induction pairs as [|[repo answer] pairs IH]; intros activity; [done|].
  cbn [fold_left]. rewrite IH. unfold turn. by rewrite process_repo_spec.
Qed.

Lemma fold_turn_recent pairs activity (c : Commit) :
  c ∈ recent_commits (fold_left turn pairs activity) →
  c ∈ recent_commits activity ∨
  ∃ repo answer commit, (repo, answer) ∈ pairs ∧
    inr commit ∈ take 5 (commits_of answer) ∧ c = commit_data repo commit.
Proof.
  revert activity. induction pairs as [|[repo answer] pairs IH]; intros activity.
  - by left.
  - cbn [fold_left]. intros [Hin|(repo' & answer' & commit & Hin & Hc)]%IH.
    + unfold turn in Hin. rewrite process_repo_spec in Hin. cbn in Hin.
      apply elem_of_app in Hin as [?|Hin]; [by left|].
      apply collect_commits_entries in Hin as (commit & ? & ?).
      right. exists repo, answer, commit. split_and!; [apply elem_of_cons; by left|done..].
    + right. exists repo', answer', commit. split; [apply elem_of_cons; by right|done].
Qed.

Lemma fold_turn_active pairs activity (name : string) :
  name ∈ active_repos (fold_left turn pairs activity) →
  name ∈ active_repos activity ∨
  ∃ repo answer, (repo, answer) ∈ pairs ∧ repo_name repo = name ∧
    commits_of answer ≠ [].
Proof.
  revert activity. induction pairs as [|[repo answer] pairs IH]; intros activity.
  - by left.
  - cbn [fold_left]. intros [Hin|(repo' & answer' & Hin & Hname)]%IH.
    + unfold turn in Hin. rewrite process_repo_spec in Hin. cbn in Hin.
      apply elem_of_app in Hin as [?|Hin]; [by left|].
      destruct (_ && _) eqn:Hactive; [|by apply elem_of_nil in Hin].
      apply list_elem_of_singleton in Hin as ->.
      apply andb_prop in Hactive as [_ Hpos%Z.ltb_lt].
      right. exists repo, answer. split_and!; [apply elem_of_cons; by left|done|].
      intros Hnil. rewrite Hnil in Hpos. simpl in Hpos. lia.
    + right. exists repo', answer'. split; [apply elem_of_cons; by right|done].
Qed.

Lemma fold_turn_active_length pairs activity :
  (length (active_repos (fold_left turn pairs activity))
   ≤ length (active_repos activity) + length pairs)%nat.
Proof.
  revert activity. induction pairs as [|[repo answer] pairs IH]; intros activity.
  - simpl. lia.
  - cbn [fold_left]. etrans; [apply IH|].
    unfold turn. rewrite process_repo_spec. cbn. rewrite length_app.
    destruct (_ && _); simpl; lia.
Qed.

(** *** The language count *)

Lemma fold_one_more (languages : list string) (old : option Z) :
  fold_left (λ o language, Some (one_more language o)) languages old
  = match languages with
    | [] => old
    | _ :: _ => Some (default 0 old + Z.of_nat (length languages))
    end.
Proof.
  revert old. induction languages as [|l ls IH]; intros old; [done|].
  cbn [fold_left]. rewrite IH. unfold one_more.
  destruct ls; cbn [default length].
  all: apply (f_equal Some).
  all: destruct old; simpl; lia.
Qed.

Lemma get_languages (languages : list string) (l : string) :
  get l (fold_left (group id one_more) languages [])
  = if decide (l ∈ languages) then Some (Z.of_nat (times l languages)) else None.
Proof.
  rewrite get_fold_group, fold_one_more. cbn [get default].
  set (matching := filter _ languages).
  change (times l languages) with (length matching).
  assert (Hmatching : ∀ x, x ∈ matching ↔ x = l ∧ x ∈ languages).
  { intros x. unfold matching. by rewrite list_elem_of_filter. }
  destruct (decide (l ∈ languages)) as [Hin|Hin].
  - destruct matching as [|x xs].
    + assert (Hl : l ∈ @nil string) by (by apply Hmatching). by apply elem_of_nil in Hl.
    + apply (f_equal Some). simpl. lia.
  - destruct matching as [|x xs]; [done|].
    assert (Hx : x = l ∧ x ∈ languages).
    { apply Hmatching. apply elem_of_cons. by left. }
    destruct Hx as [-> ?]. done.
Qed.

Lemma elem_of_languages_of pairs (l : string) :
  l ∈ languages_of pairs
  ↔ l ≠ "" ∧ ∃ repo answer, (repo, answer) ∈ pairs ∧ repo_language repo = Some l.
Proof.
  unfold languages_of. rewrite list_elem_of_omap. split.
  - intros ([repo answer] & Hin & Hl). simpl in Hl.
    destruct (repo_language repo) as [language|] eqn:Hlang; [|done].
    destruct (str_truthy language) eqn:Htruthy; [|done].
    injection Hl as ->. split; [by intros ->|]. by exists repo, answer.
  - intros (Hne & repo & answer & Hin & Hlang). exists (repo, answer).
    split; [done|]. simpl. rewrite Hlang. by destruct l.
Qed.

(** *** Sorting by date *)

Lemma ltb_asym (a b : string) : String.ltb a b = true → String.ltb b a = false.
Proof.
  unfold String.ltb. rewrite (String.compare_antisym a b).
  by destruct (String.compare b a).
Qed.

Lemma insert_by_date_Sorted (c : Commit) (sorted : list Commit) :
  Sorted not_older sorted → Sorted not_older (insert_by_date c sorted).
Proof.
  induction sorted as [|y sorted IH]; intros Hsorted.
  - simpl. by repeat constructor.
  - simpl. destruct (String.ltb (commit_date c) (commit_date y)) eqn:Hlt.
    + apply Sorted_inv in Hsorted as [Hsorted Hhd]. constructor; [by apply IH|].
      destruct sorted as [|z sorted]; simpl.
      * constructor. by apply ltb_asym.
      * destruct (String.ltb (commit_date c) (commit_date z)).
        -- constructor. by inversion Hhd.
        -- constructor. by apply ltb_asym.
    + constructor; [done|]. by constructor.
Qed.

Lemma sorted_by_date_reverse_Sorted (commits : list Commit) :
  Sorted not_older (sorted_by_date_reverse commits).
Proof.
  induction commits as [|c commits IH]; simpl; [constructor|].
  by apply insert_by_date_Sorted.
Qed.

Lemma insert_by_date_Permutation (c : Commit) (sorted : list Commit) :
  insert_by_date c sorted ≡ₚ c :: sorted.
Proof.
  induction sorted as [|y sorted IH]; simpl; [done|].
  destruct (String.ltb _ _); [|done]. rewrite IH. apply Permutation_swap.
Qed.

Lemma sorted_by_date_reverse_Permutation (commits : list Commit) :
  sorted_by_date_reverse commits ≡ₚ commits.
Proof.
  induction commits as [|c commits IH]; simpl; [done|].
  by rewrite insert_by_date_Permutation, IH.
Qed.

Lemma Sorted_take {A : Type} (R : A → A → Prop) (n : nat) (l : list A) :
  Sorted R l → Sorted R (take n l).
Proof.
  intros Hsorted. revert n.
  induction Hsorted as [|x l Hsorted IH Hhd]; intros [|n]; simpl; try constructor.
  - apply IH.
  - destruct Hhd as [|y l' Hxy]; destruct n; simpl; by constructor.
Qed.

Lemma elem_of_take_1 {A : Type} (n : nat) (l : list A) (x : A) : x ∈ take n l → x ∈ l.
Proof. intros Hin. rewrite <- (take_drop n l). apply elem_of_app. by left. Qed.

(** *** The result *)

(** When [get_real_time_activity] reports an activity, and which. *)
Lemma get_real_time_activity_Fetched (session_user_id : string + string)
    (repos_response :
       response (list (string + Repo * response (list (string + ApiCommit)))))
    activity :
  get_real_time_activity session_user_id repos_response = Fetched activity
  ↔ ∃ repos user,
      repos_response = Answered 200 (inr repos) ∧ session_user_id = inr user ∧
      repos = inr <$> listed repos ∧
      let collected := fold_left turn (listed repos) no_activity in
      activity = {|
        total_commits := total_commits collected;
        active_repos := active_repos collected;
        languages_used := languages_used collected;
        recent_commits := take 20 (sorted_by_date_reverse (recent_commits collected))
      |}.
Proof.
  unfold get_real_time_activity. destruct repos_response as [error|status_code json].
  - split; [done|]. by intros (? & ? & ? & _).
  - destruct (status_code =? 200) eqn:Hstatus; cbn [negb].
    + apply Z.eqb_eq in Hstatus as ->. destruct json as [error|repos].
      * split; [done|]. by intros (? & ? & ? & _).
      * fold no_activity.
        destruct (process_repos repos no_activity) as [error|collected] eqn:Hloop.
        -- split; [done|]. intros (repos' & user & [= <-] & _ & Hrepos & _).
           assert (Hinr : process_repos repos no_activity
                          = inr (fold_left turn (listed repos) no_activity))
             by (by apply process_repos_inr).
           rewrite Hloop in Hinr. done.
        -- apply process_repos_inr in Hloop as [Hrepos ->].
           destruct session_user_id as [error|user].
           ++ split; [done|]. by intros (? & ? & _ & ? & _).
           ++ split.
              ** intros [= <-]. by exists repos, user.
              ** intros (repos' & user' & [= <-] & _ & _ & ->). done.
    + split; [done|]. intros (? & ? & [= -> _] & _). done.
Qed.

Lemma elem_of_listed repos (item : Repo * response (list (string + ApiCommit))) :
  item ∈ listed repos ↔ inr item ∈ repos.
Proof.
  unfold listed. rewrite list_elem_of_omap. split.
  - intros ([error|item'] & Hin & Hitem); [done|]. by injection Hitem as ->.
  - intros Hin. by exists (inr item).
Qed.

Lemma listed_all repos :
  repos = inr <$> listed repos ↔ Forall (λ r, ∃ item, r = inr item) repos.
Proof.
  induction repos as [|[error|item] repos IH].
  - split; [constructor|done].
  - split.
    + intros Heq. unfold listed in Heq. cbn in Heq. destruct (omap _ repos); done.
    + intros [[? ?] _]%Forall_cons. done.
  - change (listed (inr item :: repos)) with (item :: listed repos). rewrite fmap_cons.
    rewrite Forall_cons, <- IH. split.
    + intros Heq. split; [by eexists|]. by injection Heq.
    + intros [_ Heq]. f_equal. exact Heq.
Qed.

(** X23. The languages of a reported activity are counted per repository:
    [languages_used] has one entry for each language, other than the empty
    string, of a listed repository, no language twice, and the value of an
    entry is the number of repositories in that language. *)
Theorem activity_languages (session_user_id : string + string) (status_code : Z)
    repos activity :
  get_real_time_activity session_user_id (Answered status_code (inr repos))
  = Fetched activity →
  NoDup (keys (languages_used activity)) ∧
  (∀ l, l ∈ keys (languages_used activity)
        ↔ l ≠ "" ∧ ∃ repo answer, inr (repo, answer) ∈ repos ∧
                     repo_language repo = Some l) ∧
  (∀ l, l ∈ keys (languages_used activity) →
        get l (languages_used activity)
        = Some (Z.of_nat (times l (languages_of (listed repos)))) ∧
        (0 < times l (languages_of (listed repos)))%nat).
Proof.
  intros (repos' & user & [= -> <-] & _ & Hrepos & ->)%get_real_time_activity_Fetched.
  cbn [languages_used]. rewrite fold_turn_languages. cbn [languages_used no_activity].
  assert (Hkeys : ∀ l, l ∈ keys (fold_left (group id one_more)
                                    (languages_of (listed repos)) [])
                       ↔ l ∈ languages_of (listed repos)).
  { intros l. rewrite keys_fold_group. split.
    - intros [Hnil|(a & Ha & <-)]; [by apply elem_of_nil in Hnil|done].
    - intros Hl. right. by exists l. }
  split_and!.
  - apply keys_fold_group_NoDup. apply NoDup_nil_2.
  - intros l. rewrite Hkeys, elem_of_languages_of.
    by setoid_rewrite elem_of_listed.
  - intros l Hl%Hkeys. rewrite get_languages, decide_True by done.
    split; [done|]. unfold times.
    assert (Hin : l ∈ filter (λ l', l' = l) (languages_of (listed repos)))
      by (by apply list_elem_of_filter).
    destruct (filter _ _); [by apply elem_of_nil in Hin|simpl; lia].
Qed.

Lemma activity_languages_witness :
  get "Python" (languages_used three_repos_activity) = Some 2.
Proof.
  destruct (activity_languages (inr "ann") 200 three_repos three_repos_activity)
    as (_ & _ & Hcount).
  - reflexivity.
  - destruct (Hcount "Python") as [Hget _].
    + apply elem_of_cons. by left.
    + exact Hget.
Defined.

(** X24. The recent commits of a reported activity are at most 20, no
    commit is followed by one of a later date, and each of them was built
    from one of the first five commits answered for a listed repository. *)
Theorem activity_recent_commits (session_user_id : string + string) (status_code : Z)
    repos activity :
  get_real_time_activity session_user_id (Answered status_code (inr repos))
  = Fetched activity →
  (length (recent_commits activity) ≤ 20)%nat ∧
  Sorted not_older (recent_commits activity) ∧
  ∀ c, c ∈ recent_commits activity →
    ∃ repo answer commit, inr (repo, answer) ∈ repos ∧
      inr commit ∈ take 5 (commits_of answer) ∧ c = commit_data repo commit.
Proof.
  intros (repos' & user & [= -> <-] & _ & Hrepos & ->)%get_real_time_activity_Fetched.
  cbn [recent_commits]. split_and!.
  - rewrite length_take. lia.
  - apply Sorted_take, sorted_by_date_reverse_Sorted.
  - intros c Hc%elem_of_take_1. rewrite sorted_by_date_reverse_Permutation in Hc.
    apply fold_turn_recent in Hc as [Hnil|(repo & answer & commit & Hin & Hc)].
    + by apply elem_of_nil in Hnil.
    + exists repo, answer, commit. split; [by apply elem_of_listed|done].
Qed.

Lemma activity_recent_commits_witness :
  (length (recent_commits three_repos_activity) ≤ 20)%nat ∧
  Sorted not_older (recent_commits three_repos_activity).
Proof.
  destruct (activity_recent_commits (inr "ann") 200 three_repos three_repos_activity)
    as (Hlength & Hsorted & _).
  - reflexivity.
  - split; [exact Hlength|exact Hsorted].
Defined.

(** X25. The totals of a reported activity: [total_commits] is the number
    of commits answered, with status 200, for the listed repositories, so
    it is never negative; an active repository is a listed repository with
    at least one such commit, and there are at most as many active
    repositories as repositories. *)
Theorem activity_totals (session_user_id : string + string) (status_code : Z)
    repos activity :
  get_real_time_activity session_user_id (Answered status_code (inr repos))
  = Fetched activity →
  total_commits activity
  = Z.of_nat (sum_list ((λ item, length (commits_of item.2)) <$> listed repos)) ∧
  0 ≤ total_commits activity ∧
  (length (active_repos activity) ≤ length repos)%nat ∧
  ∀ name, name ∈ active_repos activity →
    ∃ repo answer, inr (repo, answer) ∈ repos ∧ repo_name repo = name ∧
      commits_of answer ≠ [].
Proof.
  intros (repos' & user & [= -> <-] & _ & Hrepos & ->)%get_real_time_activity_Fetched.
  cbn [total_commits active_repos]. rewrite fold_turn_total.
  cbn [total_commits no_activity]. split_and!.
  - lia.
  - lia.
  - etrans; [apply fold_turn_active_length|]. cbn [active_repos no_activity length].
    rewrite Hrepos at 2. rewrite length_fmap. lia.
  - intros name [Hnil|(repo & answer & Hin & Hname)]%fold_turn_active.
    + by apply elem_of_nil in Hnil.
    + exists repo, answer. split; [by apply elem_of_listed|done].
Qed.

Lemma activity_totals_witness :
  total_commits three_repos_activity = 1 ∧
  (length (active_repos three_repos_activity) ≤ 3)%nat.
Proof.
  destruct (activity_totals (inr "ann") 200 three_repos three_repos_activity)
    as (Htotal & _ & Hactive & _).
  - reflexivity.
  - split; [exact Htotal|exact Hactive].
Defined.

(** X26. [get_real_time_activity] reports an activity exactly when the
    request for the repositories is answered with status 200 and a list of
    repository objects that have every key, and the session has a user id.
    What the requests for the commits give never makes it fail. *)
Theorem get_real_time_activity_succeeds (session_user_id : string + string)
    (repos_response :
       response (list (string + Repo * response (list (string + ApiCommit))))) :
  (∃ activity, get_real_time_activity session_user_id repos_response = Fetched activity)
  ↔ ∃ repos user,
      repos_response = Answered 200 (inr repos) ∧ session_user_id = inr user ∧
      Forall (λ r, ∃ item, r = inr item) repos.
Proof.
  split.
  - intros [activity Hactivity].
    apply get_real_time_activity_Fetched in Hactivity
      as (repos & user & -> & -> & Hrepos & _).
    exists repos, user. split_and!; [done..|]. by apply listed_all.
  - intros (repos & user & -> & -> & Hrepos%listed_all).
    eexists. apply get_real_time_activity_Fetched. by exists repos, user.
Qed.

(** *** From the activity to the insights *)

Section AnyArithmetic.
Context {F : Type} `{Arith F}.
Variable session_user_id : string + string.
Variable network :
  string → string → response (list (string + Repo * response (list (string + ApiCommit)))).
Variable get_detailed_analytics : string → fetched (UdemyAnalytics F).

Lemma fetch_github_Some (client : string → string → fetched GithubActivity)
    (github_data : option IntegrationData) (g : GithubInsight) :
  fetch_github client github_data = Some (Some g) →
  ∃ tok user activity, client tok user = Fetched activity ∧ g = github_insight activity.
Proof.
  unfold fetch_github. destruct github_data as [d|]; [|done].
  destruct (is_authenticated (Some d)); [|done].
  destruct (token d) as [tok|]; [|done]. destruct (username d) as [user|]; [|done].
  simpl. destruct (client tok user) as [activity|reason] eqn:Hclient; [|done].
  intros [= <-]. by exists tok, user, activity.
Qed.

(** X27. The GitHub block of the insights, when the client is
    [get_real_time_activity]: its languages are distinct and none is empty,
    so the five points per language count each language once; the number
    of commits is not negative; and the recent activity has at most five
    commits, none followed by one of a later date. *)
Theorem insights_of_activity (github_data udemy_data : option IntegrationData)
    (user_email : string) (insights : Insights F) (g : GithubInsight) :
  get_user_learning_insights
    (λ token username, get_real_time_activity session_user_id (network token username))
    get_detailed_analytics github_data udemy_data user_email = Some insights →
  github insights = Some g →
  NoDup (gh_languages g) ∧ ("" ∉ gh_languages g) ∧
  0 ≤ gh_total_commits g ∧
  (length (gh_recent_activity g) ≤ 5)%nat ∧ Sorted not_older (gh_recent_activity g).
Proof.
  unfold get_user_learning_insights. intros Hinsights Hg.
  destruct (fetch_github _ github_data) as [g'|] eqn:Hfetch; simpl in Hinsights; [|done].
  destruct (overall_score_of g' _) as [score|]; simpl in Hinsights; [|done].
  injection Hinsights as <-. simpl in Hg. subst g'.
  apply fetch_github_Some in Hfetch as (tok & user & activity & Hactivity & ->).
  destruct (network tok user) as [error|status_code [error|repos]];
    try (by apply get_real_time_activity_Fetched in Hactivity
              as (? & ? & ? & _)).
  apply get_real_time_activity_Fetched in Hactivity
    as (repos' & user' & [= -> <-] & _ & Hrepos & Hrecord).
  assert (Hl : NoDup (keys (languages_used activity)) ∧
               "" ∉ keys (languages_used activity)).
  { rewrite Hrecord. cbn [languages_used]. rewrite fold_turn_languages.
    cbn [languages_used no_activity]. split.
    - apply keys_fold_group_NoDup. apply NoDup_nil_2.
    - rewrite keys_fold_group. intros [Hnil|(a & Ha & Hid)]; [by apply elem_of_nil in Hnil|].
      apply elem_of_languages_of in Ha as [Hne _]. by destruct Hne. }
  destruct Hl as [Hnodup Hempty].
  unfold github_insight. cbn [gh_languages gh_total_commits gh_recent_activity].
  split_and!; [done|done| | |].
  - rewrite Hrecord. cbn [total_commits]. rewrite fold_turn_total.
    cbn [total_commits no_activity]. lia.
  - change (firstn 5) with (@take Commit 5). rewrite length_take. lia.
  - change (firstn 5) with (@take Commit 5). apply Sorted_take.
    rewrite Hrecord. cbn [recent_commits].
    apply Sorted_take, sorted_by_date_reverse_Sorted.
Qed.
End AnyArithmetic.

Lemma get_real_time_activity_succeeds_witness :
  ∃ activity,
    get_real_time_activity (inr "ann") (Answered 200 (inr three_repos)) = Fetched activity.
Proof.
  apply (get_real_time_activity_succeeds (inr "ann") (Answered 200 (inr three_repos))).
  exists three_repos, "ann". split_and!; [reflexivity..|].
  repeat constructor; by eexists.
Defined.

Lemma insights_of_activity_witness :
  NoDup ["Python"] ∧ ("" ∉ ["Python"]).
Proof.
  destruct (insights_of_activity (F:=Q) (inr "ann") three_repos_network one_course_udemy
              (Some connected_account) None "ann@example.org"
              {| github := Some (github_insight three_repos_activity);
                 udemy := None;
                 recommendations := [add_courses_suggestion];
                 overall_score := 5 |}
              (github_insight three_repos_activity))
    as (Hnodup & Hempty & _).
  - reflexivity.
  - reflexivity.
  - split; [exact Hnodup|exact Hempty].
Defined.

End GithubFacts.
